(** * ElevateXY: command fusion and streaming

    A shallow embedding of the velocity-command core of the ElevateXY
    ground-station scripts:

    - [Pynput]     : src/elevatexy_pynput.py      (class ElevateXYPynput)
    - [Tkinter]    : src/elevatexy_sim_tkinter.py (class ElevateXYSimulation)
    - [Simulation] : src/elevatexy_simulation.py  (calculate_drone_commands,
                     the variant of the perception mapper with dead zones)

    Python floats and ints are modelled as rationals [Q]: the speeds are
    decimal literals, and the only arithmetic performed on them is
    negation.  [np.radians] belongs to numpy, not to this repository; the
    functions that call it take it as a parameter [radians].  Pixel
    coordinates are integers [Z], and Python's [//] by a positive constant
    is [Z.div].  The vehicle object of dronekit is a record that carries
    the attributes the scripts read ([armed], [mode]) and the list of
    calls made on the link, in order. *)

From Stdlib Require Import ZArith QArith Qabs String List Lia.
From stdpp Require Import gmap strings.
Import ListNotations.

Local Open Scope string_scope.
Local Open Scope Z_scope.

(** ** Flight mode parameters (class DroneParams) *)

Module DroneParams.
Definition STD_GND_SPEED : Q := 3 # 1.
Definition STD_VZ_SPEED : Q := 1 # 2.
Definition STD_YAW_RATE : Q := 30 # 1.

Definition ECO_GND_SPEED : Q := 2 # 1.
Definition ECO_VZ_SPEED : Q := 35 # 100.
Definition ECO_YAW_RATE : Q := 20 # 1.

Definition PERF_GND_SPEED : Q := 45 # 10.
Definition PERF_VZ_SPEED : Q := 75 # 100.
Definition PERF_YAW_RATE : Q := 45 # 1.
End DroneParams.

(** ** Grid zones (class GridZone) *)

Inductive GridZone : Set :=
  | TOP_LEFT | TOP_CENTER | TOP_RIGHT
  | CENTER_LEFT | CENTER | CENTER_RIGHT
  | BOTTOM_LEFT | BOTTOM_CENTER | BOTTOM_RIGHT.

Definition GridZone_eqb (a b : GridZone) : bool :=
  match a, b with
  | TOP_LEFT, TOP_LEFT | TOP_CENTER, TOP_CENTER | TOP_RIGHT, TOP_RIGHT
  | CENTER_LEFT, CENTER_LEFT | CENTER, CENTER | CENTER_RIGHT, CENTER_RIGHT
  | BOTTOM_LEFT, BOTTOM_LEFT | BOTTOM_CENTER, BOTTOM_CENTER
  | BOTTOM_RIGHT, BOTTOM_RIGHT => true
  | _, _ => false
  end.

(** [zone in [a, b, c]] *)
Definition zone_in (z : GridZone) (l : list GridZone) : bool :=
  existsb (GridZone_eqb z) l.

(** A zone rectangle [(x1, y1, x2, y2)]. *)
Definition Rect : Type := Z * Z * Z * Z.

(** The dict [self.zones], in insertion order: [get_face_zone] iterates
    over [self.zones.items()] and returns at the first match. *)
Definition Zones : Type := list (GridZone * Rect).

(** [setup_grid_zones], the part that builds [self.zones]. *)
Definition setup_grid_zones (frame_width frame_height : Z) : Zones :=
  let col_width := frame_width / 3 in
  let row_height := frame_height / 3 in
  [ (TOP_LEFT, (0, 0, col_width, row_height));
    (TOP_CENTER, (col_width, 0, col_width * 2, row_height));
    (TOP_RIGHT, (col_width * 2, 0, frame_width, row_height));
    (CENTER_LEFT, (0, row_height, col_width, row_height * 2));
    (CENTER, (col_width, row_height, col_width * 2, row_height * 2));
    (CENTER_RIGHT, (col_width * 2, row_height, frame_width, row_height * 2));
    (BOTTOM_LEFT, (0, row_height * 2, col_width, frame_height));
    (BOTTOM_CENTER, (col_width, row_height * 2, col_width * 2, frame_height));
    (BOTTOM_RIGHT, (col_width * 2, row_height * 2, frame_width, frame_height)) ].

(** [x1 <= x < x2 and y1 <= y < y2] *)
Definition in_rect (r : Rect) (x y : Z) : bool :=
  let '(x1, y1, x2, y2) := r in
  (x1 <=? x) && (x <? x2) && (y1 <=? y) && (y <? y2).

(** [get_face_zone]: the first zone whose rectangle holds the point,
    [GridZone.CENTER] when the loop finds none. *)
Fixpoint get_face_zone (zones : Zones) (x y : Z) : GridZone :=
  match zones with
  | [] => CENTER
  | (zone, r) :: rest =>
      if in_rect r x y then zone else get_face_zone rest x y
  end.

(** The column and row tests of the perception mappers. *)
Definition LEFT_COLUMN : list GridZone := [TOP_LEFT; CENTER_LEFT; BOTTOM_LEFT].
Definition RIGHT_COLUMN : list GridZone := [TOP_RIGHT; CENTER_RIGHT; BOTTOM_RIGHT].
Definition TOP_ROW : list GridZone := [TOP_LEFT; TOP_CENTER; TOP_RIGHT].
Definition BOTTOM_ROW : list GridZone := [BOTTOM_LEFT; BOTTOM_CENTER; BOTTOM_RIGHT].

(** ** The vehicle link *)

(** Calls made on the dronekit vehicle.  [SetPositionTarget vx vy vz yaw]
    is [send_mavlink] of a SET_POSITION_TARGET_LOCAL_NED message in
    MAV_FRAME_BODY_NED with type mask 0b0000111111000111, whose only
    varying fields are the three velocities and the yaw rate. *)
Inductive LinkCall : Type :=
  | SetPositionTarget (vx vy vz yaw_rate : Q)
  | SimpleTakeoff (alt : Q)
  | SetMode (name : string)
  | Close.

Record Vehicle : Type := mkVehicle {
  armed : bool;
  mode : string;
  calls : list LinkCall
}.

Definition link_call (c : LinkCall) (v : Vehicle) : Vehicle :=
  {| armed := armed v; mode := mode v; calls := calls v ++ [c] |}.

(** [vehicle.mode = VehicleMode(name)] *)
Definition assign_mode (name : string) (v : Vehicle) : Vehicle :=
  {| armed := armed v; mode := name; calls := calls v ++ [SetMode name] |}.

(** The velocity commands transmitted on a link, oldest first. *)
Fixpoint transmitted (cs : list LinkCall) : list (Q * Q * Q * Q) :=
  match cs with
  | [] => []
  | SetPositionTarget vx vy vz yaw :: rest => (vx, vy, vz, yaw) :: transmitted rest
  | _ :: rest => transmitted rest
  end.

(** The double-precision constant pi/180 that [np.radians] multiplies by,
    as an exact rational; used where a concrete [radians] is needed. *)
Definition np_radians (deg : Q) : Q :=
  (deg * (5030569068109113 # 288230376151711744))%Q.

(** ** src/elevatexy_pynput.py *)

Module Pynput.

(** The attributes of an [ElevateXYPynput] object that the command core
    reads or writes.  [face_center] is not assigned by [__init__]: it is
    [None] here until [detect_face] sets it.  [keyboard_listener] is
    [Some true] while the listener runs and [Some false] once stopped;
    [cap] is [Some true] while the capture is open. *)
Record State : Type := mkState {
  vehicle : option Vehicle;
  cap : option bool;
  camera_active : bool;
  frame_width : Z;
  frame_height : Z;
  face_cascade : bool;
  face_detected : bool;
  face_zone : GridZone;
  face_center : option (Z * Z);
  autonomous_enabled : bool;
  flight_mode : string;
  keys_pressed : gset string;
  move_speed : Q;
  vertical_speed : Q;
  yaw_rate : Q;
  command_active : bool;
  current_vx : Q;
  current_vy : Q;
  current_vz : Q;
  current_yaw : Q;
  keyboard_listener : option bool;
  zones : Zones
}.

(** Attribute assignments. *)
Definition with_vehicle (v : option Vehicle) (s : State) : State :=
  mkState v (cap s) (camera_active s) (frame_width s) (frame_height s)
    (face_cascade s) (face_detected s) (face_zone s) (face_center s)
    (autonomous_enabled s) (flight_mode s) (keys_pressed s) (move_speed s)
    (vertical_speed s) (yaw_rate s) (command_active s) (current_vx s)
    (current_vy s) (current_vz s) (current_yaw s) (keyboard_listener s)
    (zones s).

Definition with_cap (c : option bool) (s : State) : State :=
  mkState (vehicle s) c (camera_active s) (frame_width s) (frame_height s)
    (face_cascade s) (face_detected s) (face_zone s) (face_center s)
    (autonomous_enabled s) (flight_mode s) (keys_pressed s) (move_speed s)
    (vertical_speed s) (yaw_rate s) (command_active s) (current_vx s)
    (current_vy s) (current_vz s) (current_yaw s) (keyboard_listener s)
    (zones s).

Definition with_camera_active (b : bool) (s : State) : State :=
  mkState (vehicle s) (cap s) b (frame_width s) (frame_height s)
    (face_cascade s) (face_detected s) (face_zone s) (face_center s)
    (autonomous_enabled s) (flight_mode s) (keys_pressed s) (move_speed s)
    (vertical_speed s) (yaw_rate s) (command_active s) (current_vx s)
    (current_vy s) (current_vz s) (current_yaw s) (keyboard_listener s)
    (zones s).

Definition with_face (detected : bool) (z : GridZone) (c : option (Z * Z))
    (s : State) : State :=
  mkState (vehicle s) (cap s) (camera_active s) (frame_width s)
    (frame_height s) (face_cascade s) detected z c
    (autonomous_enabled s) (flight_mode s) (keys_pressed s) (move_speed s)
    (vertical_speed s) (yaw_rate s) (command_active s) (current_vx s)
    (current_vy s) (current_vz s) (current_yaw s) (keyboard_listener s)
    (zones s).

Definition with_autonomous_enabled (b : bool) (s : State) : State :=
  mkState (vehicle s) (cap s) (camera_active s) (frame_width s)
    (frame_height s) (face_cascade s) (face_detected s) (face_zone s)
    (face_center s) b (flight_mode s) (keys_pressed s) (move_speed s)
    (vertical_speed s) (yaw_rate s) (command_active s) (current_vx s)
    (current_vy s) (current_vz s) (current_yaw s) (keyboard_listener s)
    (zones s).

Definition with_flight_mode (m : string) (s : State) : State :=
  mkState (vehicle s) (cap s) (camera_active s) (frame_width s)
    (frame_height s) (face_cascade s) (face_detected s) (face_zone s)
    (face_center s) (autonomous_enabled s) m (keys_pressed s) (move_speed s)
    (vertical_speed s) (yaw_rate s) (command_active s) (current_vx s)
    (current_vy s) (current_vz s) (current_yaw s) (keyboard_listener s)
    (zones s).

Definition with_keys_pressed (ks : gset string) (s : State) : State :=
  mkState (vehicle s) (cap s) (camera_active s) (frame_width s)
    (frame_height s) (face_cascade s) (face_detected s) (face_zone s)
    (face_center s) (autonomous_enabled s) (flight_mode s) ks (move_speed s)
    (vertical_speed s) (yaw_rate s) (command_active s) (current_vx s)
    (current_vy s) (current_vz s) (current_yaw s) (keyboard_listener s)
    (zones s).

Definition with_speeds (ms vs yr : Q) (s : State) : State :=
  mkState (vehicle s) (cap s) (camera_active s) (frame_width s)
    (frame_height s) (face_cascade s) (face_detected s) (face_zone s)
    (face_center s) (autonomous_enabled s) (flight_mode s) (keys_pressed s)
    ms vs yr (command_active s) (current_vx s)
    (current_vy s) (current_vz s) (current_yaw s) (keyboard_listener s)
    (zones s).

Definition with_command_active (b : bool) (s : State) : State :=
  mkState (vehicle s) (cap s) (camera_active s) (frame_width s)
    (frame_height s) (face_cascade s) (face_detected s) (face_zone s)
    (face_center s) (autonomous_enabled s) (flight_mode s) (keys_pressed s)
    (move_speed s) (vertical_speed s) (yaw_rate s) b (current_vx s)
    (current_vy s) (current_vz s) (current_yaw s) (keyboard_listener s)
    (zones s).

Definition with_keyboard_listener (l : option bool) (s : State) : State :=
  mkState (vehicle s) (cap s) (camera_active s) (frame_width s)
    (frame_height s) (face_cascade s) (face_detected s) (face_zone s)
    (face_center s) (autonomous_enabled s) (flight_mode s) (keys_pressed s)
    (move_speed s) (vertical_speed s) (yaw_rate s) (command_active s)
    (current_vx s) (current_vy s) (current_vz s) (current_yaw s) l
    (zones s).

(** [set_velocity(vx, vy, vz, yaw)] *)
Definition set_velocity (vx vy vz yaw : Q) (s : State) : State :=
  mkState (vehicle s) (cap s) (camera_active s) (frame_width s)
    (frame_height s) (face_cascade s) (face_detected s) (face_zone s)
    (face_center s) (autonomous_enabled s) (flight_mode s) (keys_pressed s)
    (move_speed s) (vertical_speed s) (yaw_rate s) (command_active s)
    vx vy vz yaw (keyboard_listener s) (zones s).

(** The four fields of the shared command. *)
Definition velocity (s : State) : Q * Q * Q * Q :=
  (current_vx s, current_vy s, current_vz s, current_yaw s).

(** [self.vehicle and self.vehicle.armed] *)
Definition vehicle_armed (s : State) : bool :=
  match vehicle s with
  | Some v => armed v
  | None => false
  end.

(** [update_speeds] *)
Definition update_speeds (s : State) : State :=
  if String.eqb (flight_mode s) "eco" then
    with_speeds DroneParams.ECO_GND_SPEED DroneParams.ECO_VZ_SPEED
      DroneParams.ECO_YAW_RATE s
  else if String.eqb (flight_mode s) "performance" then
    with_speeds DroneParams.PERF_GND_SPEED DroneParams.PERF_VZ_SPEED
      DroneParams.PERF_YAW_RATE s
  else
    with_speeds DroneParams.STD_GND_SPEED DroneParams.STD_VZ_SPEED
      DroneParams.STD_YAW_RATE s.

(** [__init__], with the default camera frame of 640 by 480. *)
Definition init : State :=
  update_speeds
    {| vehicle := None; cap := None; camera_active := false;
       frame_width := 640; frame_height := 480;
       face_cascade := false; face_detected := false;
       face_zone := CENTER; face_center := None;
       autonomous_enabled := false; flight_mode := "standard";
       keys_pressed := ∅;
       move_speed := 0; vertical_speed := 0; yaw_rate := 0;
       command_active := false;
       current_vx := 0; current_vy := 0; current_vz := 0; current_yaw := 0;
       keyboard_listener := None;
       zones := setup_grid_zones 640 480 |}.

(** One pass through the body of the [while] loop of [_command_loop]:
    the test of [vehicle.armed] and the send. *)
Definition command_loop_body (s : State) : State :=
  match vehicle s with
  | Some v =>
      if armed v then
        with_vehicle
          (Some (link_call
                   (SetPositionTarget (current_vx s) (current_vy s)
                      (current_vz s) (current_yaw s)) v)) s
      else s
  | None => s
  end.

(** [cleanup], statement by statement; the sleep of half a second
    changes no attribute. *)
Definition cleanup_stop_flags (s : State) : State :=
  with_camera_active false (with_command_active false s).

Definition cleanup_stop_listener (s : State) : State :=
  match keyboard_listener s with
  | Some _ => with_keyboard_listener (Some false) s
  | None => s
  end.

Definition cleanup_zero_velocity (s : State) : State :=
  match vehicle s with
  | Some _ => set_velocity 0 0 0 0 s
  | None => s
  end.

Definition cleanup_close_vehicle (s : State) : State :=
  match vehicle s with
  | Some v => with_vehicle (Some (link_call Close v)) s
  | None => s
  end.

Definition cleanup_release_cap (s : State) : State :=
  match cap s with
  | Some _ => with_cap (Some false) s
  | None => s
  end.

Definition cleanup_statements : list (State -> State) :=
  [ cleanup_stop_flags; cleanup_stop_listener; cleanup_zero_velocity;
    cleanup_close_vehicle; cleanup_release_cap ].

Definition cleanup (s : State) : State :=
  fold_left (fun acc stmt => stmt acc) cleanup_statements s.

(** [max(faces, key=lambda f: f[2] * f[3])]: the first face of the
    largest area.  A face is [(x, y, w, h)]. *)
Definition face_area (f : Rect) : Z :=
  let '(_, _, w, h) := f in w * h.

Fixpoint largest_from (best : Rect) (faces : list Rect) : Rect :=
  match faces with
  | [] => best
  | f :: rest =>
      if face_area best <? face_area f then largest_from f rest
      else largest_from best rest
  end.

(** [detect_face], given the faces that the cascade finds in the frame. *)
Definition detect_face (faces : list Rect) (s : State) : State :=
  if negb (face_cascade s) then s
  else
    match faces with
    | f :: rest =>
        let '(x, y, w, h) := largest_from f rest in
        let cx := x + w / 2 in
        let cy := y + h / 2 in
        with_face true (get_face_zone (zones s) cx cy) (Some (cx, cy)) s
    | [] => with_face false (face_zone s) (face_center s) s
    end.

(** [calculate_autonomous_commands] *)
Definition calculate_autonomous_commands (s : State) : State :=
  if negb (face_detected s) || GridZone_eqb (face_zone s) CENTER then
    set_velocity 0 0 0 0 s
  else
    let vx := 0%Q in
    let vy :=
      if zone_in (face_zone s) LEFT_COLUMN then (- move_speed s)%Q
      else if zone_in (face_zone s) RIGHT_COLUMN then move_speed s
      else 0%Q in
    let vz :=
      if zone_in (face_zone s) TOP_ROW then (- vertical_speed s)%Q
      else if zone_in (face_zone s) BOTTOM_ROW then vertical_speed s
      else 0%Q in
    set_velocity vx vy vz 0 s.

(** The part of an iteration of the main loop of [run] that touches the
    command: a frame was read, and in autonomous mode the face is
    detected and the command recomputed. *)
Definition main_loop_frame (faces : list Rect) (s : State) : State :=
  if camera_active s then
    if autonomous_enabled s then
      calculate_autonomous_commands (detect_face faces s)
    else s
  else s.

Section Keys.

(** [np.radians] *)
Variable radians : Q -> Q.

(** [k in self.keys_pressed] *)
Definition pressed (k : string) (s : State) : bool :=
  bool_decide (k ∈ keys_pressed s).

(** [process_manual_keys]: each [if] overwrites what an earlier one
    assigned. *)
Definition process_manual_keys (s : State) : State :=
  if negb (vehicle_armed s) then s
  else
    let vx := 0%Q in
    let vx := if pressed "w" s then move_speed s else vx in
    let vx := if pressed "s" s then (- move_speed s)%Q else vx in
    let vy := 0%Q in
    let vy := if pressed "a" s then (- move_speed s)%Q else vy in
    let vy := if pressed "d" s then move_speed s else vy in
    let vz := 0%Q in
    let vz := if pressed "q" s then (- vertical_speed s)%Q else vz in
    let vz := if pressed "e" s then vertical_speed s else vz in
    let yaw := 0%Q in
    let yaw := if pressed "left" s then (- radians (yaw_rate s))%Q else yaw in
    let yaw := if pressed "right" s then radians (yaw_rate s) else yaw in
    set_velocity vx vy vz yaw s.

(** [on_press], from the point where the key name [k] is known. *)
Definition on_press (k : string) (s : State) : State :=
  let s := with_keys_pressed ({[ k ]} ∪ keys_pressed s) s in
  if String.eqb k "space" then
    let s := with_autonomous_enabled (negb (autonomous_enabled s)) s in
    if negb (autonomous_enabled s) then set_velocity 0 0 0 0 s else s
  else if String.eqb k "1" then
    update_speeds (with_flight_mode "eco" s)
  else if String.eqb k "2" then
    update_speeds (with_flight_mode "standard" s)
  else if String.eqb k "3" then
    update_speeds (with_flight_mode "performance" s)
  else
    match (if String.eqb k "t" then vehicle s else None) with
    | Some v =>
        if armed v then
          with_vehicle (Some (link_call (SimpleTakeoff (3 # 1)) v)) s
        else s
    | None =>
    match (if String.eqb k "l" then vehicle s else None) with
    | Some v =>
        with_autonomous_enabled false
          (with_vehicle (Some (assign_mode "LAND" v)) s)
    | None =>
    match (if String.eqb k "r" then vehicle s else None) with
    | Some v =>
        with_autonomous_enabled false
          (with_vehicle (Some (assign_mode "RTL" v)) s)
    | None =>
        if String.eqb k "esc" then cleanup s
        else if negb (autonomous_enabled s) then process_manual_keys s
        else s
    end end end.

(** [on_release] *)
Definition on_release (k : string) (s : State) : State :=
  let s := with_keys_pressed (keys_pressed s ∖ {[ k ]}) s in
  if negb (autonomous_enabled s) then process_manual_keys s else s.

(** What reaches the object: key events from the listener, frames in
    the main loop, and the arming state reported by the vehicle. *)
Inductive Event : Type :=
  | KeyDown (k : string)
  | KeyUp (k : string)
  | Frame (faces : list Rect)
  | Armed (b : bool).

Definition report_armed (b : bool) (s : State) : State :=
  match vehicle s with
  | Some v =>
      with_vehicle
        (Some {| armed := b; mode := mode v; calls := calls v |}) s
  | None => s
  end.

Definition handle (e : Event) (s : State) : State :=
  match e with
  | KeyDown k => on_press k s
  | KeyUp k => on_release k s
  | Frame faces => main_loop_frame faces s
  | Armed b => report_armed b s
  end.

Definition run (evs : list Event) (s : State) : State :=
  fold_left (fun acc e => handle e acc) evs s.

End Keys.

(** *** The sender thread next to the main thread

    [_command_loop] runs in its own thread; [LoopPc] is where that
    thread stands. *)
Inductive LoopPc : Set := AtWhile | AtBody | AtSleep | Exited.

Definition command_loop_step (pc : LoopPc) (s : State) : LoopPc * State :=
  match pc with
  | AtWhile => if command_active s then (AtBody, s) else (Exited, s)
  | AtBody => (AtSleep, command_loop_body s)
  | AtSleep => (AtWhile, s)
  | Exited => (Exited, s)
  end.

(** A session during teardown: the shared object, the sender thread, and
    the statements of [cleanup] that the main thread has still to run. *)
Record Session : Type := mkSession {
  shared : State;
  sender : LoopPc;
  pending : list (State -> State)
}.

Inductive Thread : Set := MainThread | SenderThread.

Definition schedule_step (t : Thread) (x : Session) : Session :=
  match t with
  | MainThread =>
      match pending x with
      | stmt :: rest => mkSession (stmt (shared x)) (sender x) rest
      | [] => x
      end
  | SenderThread =>
      let '(pc, s) := command_loop_step (sender x) (shared x) in
      mkSession s pc (pending x)
  end.

Definition schedule (ts : list Thread) (x : Session) : Session :=
  fold_left (fun acc t => schedule_step t acc) ts x.

(** [cleanup] is entered with the sender at [pc]. *)
Definition enter_cleanup (pc : LoopPc) (s : State) : Session :=
  mkSession s pc cleanup_statements.

(** The session has ended: [cleanup] has returned and the sender has
    left its loop. *)
Definition finished (x : Session) : bool :=
  match pending x, sender x with
  | [], Exited => true
  | _, _ => false
  end.

(** The velocity commands sent so far on the link of [s]. *)
Definition sent (s : State) : list (Q * Q * Q * Q) :=
  match vehicle s with
  | Some v => transmitted (calls v)
  | None => []
  end.

(** One iteration of the sender's loop: the test of [command_active],
    the body, the sleep. *)
Definition command_loop_iteration (s : State) : LoopPc * State :=
  let '(pc, s) := command_loop_step AtWhile s in
  let '(pc, s) := command_loop_step pc s in
  command_loop_step pc s.

(** [connect_drone], when the connection succeeds with vehicle [v]. *)
Definition connect_drone (v : Vehicle) (s : State) : State :=
  if String.eqb (mode v) "GUIDED" then with_vehicle (Some v) s
  else with_vehicle (Some (assign_mode "GUIDED" v)) s.

(** [start_command_sender] and [start_keyboard_listener] *)
Definition start_command_sender (s : State) : State :=
  with_command_active true s.

Definition start_keyboard_listener (s : State) : State :=
  with_keyboard_listener (Some true) s.

(** The profile [name] is the active one: [flight_mode] holds the name
    and the three rates are those that [update_speeds] assigns for it. *)
Definition profile_active (name : string) (s : State) : Prop :=
  flight_mode s = name /\ update_speeds s = s.

(** Each component of the shared command is bounded in magnitude by the
    corresponding rate of the speeds now in force; the yaw rate is
    commanded in radians per second. *)
Definition within_profile (radians : Q -> Q) (s : State) : Prop :=
  (Qabs (current_vx s) <= move_speed s)%Q /\
  (Qabs (current_vy s) <= move_speed s)%Q /\
  (Qabs (current_vz s) <= vertical_speed s)%Q /\
  (Qabs (current_yaw s) <= radians (yaw_rate s))%Q.

(** The key presses that select a flight mode. *)
Definition selects_profile (e : Event) : bool :=
  match e with
  | KeyDown k => String.eqb k "1" || String.eqb k "2" || String.eqb k "3"
  | _ => false
  end.

(** The object once [run] has reached its main loop, connected to a
    vehicle in GUIDED mode whose arming state is [a]. *)
Definition ready (a : bool) : State :=
  start_keyboard_listener
    (start_command_sender
       (connect_drone {| armed := a; mode := "GUIDED"; calls := [] |} init)).

End Pynput.

(** ** src/elevatexy_sim_tkinter.py *)

Module Tkinter.

(** The attributes of an [ElevateXYSimulation] object that the command
    core reads or writes.  [keyboard_state] is the dict of key symbols,
    read with [.get(k, False)]. *)
Record State : Type := mkState {
  vehicle : option Vehicle;
  camera_active : bool;
  face_detected : bool;
  face_zone : GridZone;
  autonomous_enabled : bool;
  flight_mode : string;
  keyboard_state : gmap string bool;
  move_speed : Q;
  vertical_speed : Q;
  yaw_rate : Q;
  command_active : bool;
  current_vx : Q;
  current_vy : Q;
  current_vz : Q;
  current_yaw : Q
}.

Definition with_vehicle (v : option Vehicle) (s : State) : State :=
  mkState v (camera_active s) (face_detected s) (face_zone s)
    (autonomous_enabled s) (flight_mode s) (keyboard_state s) (move_speed s)
    (vertical_speed s) (yaw_rate s) (command_active s) (current_vx s)
    (current_vy s) (current_vz s) (current_yaw s).

Definition with_autonomous_enabled (b : bool) (s : State) : State :=
  mkState (vehicle s) (camera_active s) (face_detected s) (face_zone s)
    b (flight_mode s) (keyboard_state s) (move_speed s)
    (vertical_speed s) (yaw_rate s) (command_active s) (current_vx s)
    (current_vy s) (current_vz s) (current_yaw s).

Definition with_flight_mode (m : string) (s : State) : State :=
  mkState (vehicle s) (camera_active s) (face_detected s) (face_zone s)
    (autonomous_enabled s) m (keyboard_state s) (move_speed s)
    (vertical_speed s) (yaw_rate s) (command_active s) (current_vx s)
    (current_vy s) (current_vz s) (current_yaw s).

Definition with_keyboard_state (ks : gmap string bool) (s : State) : State :=
  mkState (vehicle s) (camera_active s) (face_detected s) (face_zone s)
    (autonomous_enabled s) (flight_mode s) ks (move_speed s)
    (vertical_speed s) (yaw_rate s) (command_active s) (current_vx s)
    (current_vy s) (current_vz s) (current_yaw s).

Definition with_speeds (ms vs yr : Q) (s : State) : State :=
  mkState (vehicle s) (camera_active s) (face_detected s) (face_zone s)
    (autonomous_enabled s) (flight_mode s) (keyboard_state s) ms vs yr
    (command_active s) (current_vx s) (current_vy s) (current_vz s)
    (current_yaw s).

(** [set_velocity(vx, vy, vz, yaw)] *)
Definition set_velocity (vx vy vz yaw : Q) (s : State) : State :=
  mkState (vehicle s) (camera_active s) (face_detected s) (face_zone s)
    (autonomous_enabled s) (flight_mode s) (keyboard_state s) (move_speed s)
    (vertical_speed s) (yaw_rate s) (command_active s) vx vy vz yaw.

(** [stop_movement] *)
Definition stop_movement (s : State) : State := set_velocity 0 0 0 0 s.

Definition velocity (s : State) : Q * Q * Q * Q :=
  (current_vx s, current_vy s, current_vz s, current_yaw s).

Definition vehicle_armed (s : State) : bool :=
  match vehicle s with
  | Some v => armed v
  | None => false
  end.

(** [update_speeds] *)
Definition update_speeds (s : State) : State :=
  if String.eqb (flight_mode s) "eco" then
    with_speeds DroneParams.ECO_GND_SPEED DroneParams.ECO_VZ_SPEED
      DroneParams.ECO_YAW_RATE s
  else if String.eqb (flight_mode s) "performance" then
    with_speeds DroneParams.PERF_GND_SPEED DroneParams.PERF_VZ_SPEED
      DroneParams.PERF_YAW_RATE s
  else
    with_speeds DroneParams.STD_GND_SPEED DroneParams.STD_VZ_SPEED
      DroneParams.STD_YAW_RATE s.

(** The body of the [while] loop of [_command_loop]. *)
Definition command_loop_body (s : State) : State :=
  match vehicle s with
  | Some v =>
      if armed v then
        with_vehicle
          (Some (link_call
                   (SetPositionTarget (current_vx s) (current_vy s)
                      (current_vz s) (current_yaw s)) v)) s
      else s
  | None => s
  end.

(** [self.keyboard_state.get(k, False)] *)
Definition key_held (k : string) (s : State) : bool :=
  default false (keyboard_state s !! k).

(** [calculate_autonomous_commands] *)
Definition calculate_autonomous_commands (s : State) : State :=
  if negb (face_detected s) || GridZone_eqb (face_zone s) CENTER then
    stop_movement s
  else
    let vx := 0%Q in
    let vy :=
      if zone_in (face_zone s) LEFT_COLUMN then (- move_speed s)%Q
      else if zone_in (face_zone s) RIGHT_COLUMN then move_speed s
      else 0%Q in
    let vz :=
      if zone_in (face_zone s) TOP_ROW then (- vertical_speed s)%Q
      else if zone_in (face_zone s) BOTTOM_ROW then vertical_speed s
      else 0%Q in
    set_velocity vx vy vz 0 s.

Section Keys.

(** [np.radians] *)
Variable radians : Q -> Q.

(** [process_manual_control] *)
Definition process_manual_control (s : State) : State :=
  if negb (vehicle_armed s) then s
  else
    let vx := 0%Q in
    let vx := if key_held "w" s then move_speed s else vx in
    let vx := if key_held "s" s then (- move_speed s)%Q else vx in
    let vy := 0%Q in
    let vy := if key_held "a" s then (- move_speed s)%Q else vy in
    let vy := if key_held "d" s then move_speed s else vy in
    let vz := 0%Q in
    let vz := if key_held "q" s then (- vertical_speed s)%Q else vz in
    let vz := if key_held "e" s then vertical_speed s else vz in
    let yaw := 0%Q in
    let yaw := if key_held "Left" s then (- radians (yaw_rate s))%Q else yaw in
    let yaw := if key_held "Right" s then radians (yaw_rate s) else yaw in
    set_velocity vx vy vz yaw s.

End Keys.

End Tkinter.

(** ** src/elevatexy_simulation.py: the perception mapper with dead zones *)

Module Simulation.

(** The attributes that [calculate_drone_commands] reads. *)
Record Mapper : Type := mkMapper {
  frame_width : Z;
  frame_height : Z;
  deadzone_horizontal : Z;
  deadzone_vertical : Z;
  move_speed : Q;
  vertical_speed : Q;
  zones : Zones
}.

(** The values that [__init__] assigns, for a profile's two speeds. *)
Definition init (ms vs : Q) : Mapper :=
  {| frame_width := 640; frame_height := 480;
     deadzone_horizontal := 80; deadzone_vertical := 60;
     move_speed := ms; vertical_speed := vs;
     zones := setup_grid_zones 640 480 |}.

(** [calculate_drone_commands(zone, face_center)] *)
Definition calculate_drone_commands (m : Mapper) (zone : GridZone)
    (face_center : Z * Z) : Q * Q * Q * Q :=
  let '(face_x, face_y) := face_center in
  let center_x := frame_width m / 2 in
  let center_y := frame_height m / 2 in
  let offset_x := face_x - center_x in
  let offset_y := face_y - center_y in
  let vy :=
    if zone_in zone LEFT_COLUMN then
      if deadzone_horizontal m <? Z.abs offset_x then (- move_speed m)%Q
      else 0%Q
    else if zone_in zone RIGHT_COLUMN then
      if deadzone_horizontal m <? Z.abs offset_x then move_speed m
      else 0%Q
    else 0%Q in
  let vz :=
    if zone_in zone TOP_ROW then
      if deadzone_vertical m <? Z.abs offset_y then (- vertical_speed m)%Q
      else 0%Q
    else if zone_in zone BOTTOM_ROW then
      if deadzone_vertical m <? Z.abs offset_y then vertical_speed m
      else 0%Q
    else 0%Q in
  (0%Q, vy, vz, 0%Q).

End Simulation.

(** ** Further parts of the scripts *)

(** The eight keys that [process_manual_keys] of the pynput script
    reads. *)
Definition PYNPUT_MOVEMENT_KEYS : list string :=
  ["w"; "s"; "a"; "d"; "q"; "e"; "left"; "right"].

Module Sender.

(** The sender thread of the pynput script left to itself for [n] steps
    of [_command_loop]. *)
Fixpoint steps (n : nat) (pc : Pynput.LoopPc) (s : Pynput.State)
    : Pynput.LoopPc * Pynput.State :=
  match n with
  | O => (pc, s)
  | S n' =>
      let '(pc', s') := Pynput.command_loop_step pc s in
      steps n' pc' s'
  end.

(** [n] full iterations of the loop, started at the loop test. *)
Fixpoint iterations (n : nat) (s : Pynput.State)
    : Pynput.LoopPc * Pynput.State :=
  match n with
  | O => (Pynput.AtWhile, s)
  | S n' =>
      match Pynput.command_loop_iteration s with
      | (Pynput.AtWhile, s') => iterations n' s'
      | stopped => stopped
      end
  end.

End Sender.

(** The center of a face rectangle [(x, y, w, h)] as [detect_face]
    computes it. *)
Definition face_center_of (f : Rect) : Z * Z :=
  let '(x, y, w, h) := f in (x + w / 2, y + h / 2).

(** The key presses after which the pynput script may be in MANUAL mode:
    the toggle, and the land and return keys, which clear
    [autonomous_enabled] on a connected vehicle. *)
Definition may_leave_autonomous (e : Pynput.Event) : bool :=
  match e with
  | Pynput.KeyDown k =>
      String.eqb k "space" || String.eqb k "l" || String.eqb k "r"
  | _ => false
  end.

(** [initialize_face_detection] of the pynput script: [found] tells
    whether one of the cascade files exists and loads. *)
Definition initialize_face_detection (found : bool) (s : Pynput.State)
    : Pynput.State :=
  if found then
    Pynput.mkState (Pynput.vehicle s) (Pynput.cap s) (Pynput.camera_active s)
      (Pynput.frame_width s) (Pynput.frame_height s) true
      (Pynput.face_detected s) (Pynput.face_zone s) (Pynput.face_center s)
      (Pynput.autonomous_enabled s) (Pynput.flight_mode s)
      (Pynput.keys_pressed s) (Pynput.move_speed s) (Pynput.vertical_speed s)
      (Pynput.yaw_rate s) (Pynput.command_active s) (Pynput.current_vx s)
      (Pynput.current_vy s) (Pynput.current_vz s) (Pynput.current_yaw s)
      (Pynput.keyboard_listener s) (Pynput.zones s)
  else s.

(** [start_camera] of the pynput script: [opened] tells whether the
    capture device opens. *)
Definition start_camera (opened : bool) (s : Pynput.State) : Pynput.State :=
  if opened then Pynput.with_camera_active true (Pynput.with_cap (Some true) s)
  else Pynput.with_cap (Some false) s.

(** The pynput session in its main loop with camera and cascade, the
    vehicle armed or not. *)
Definition tracking (a : bool) : Pynput.State :=
  start_camera true (initialize_face_detection true (Pynput.ready a)).

(** *** The branches of [on_press]

    [key_recorded k s] is the object once [on_press] has added [k] to
    [keys_pressed]; [PressOutcome radians k s0 s'] lists, branch by
    branch and with the tests that lead there, what [on_press] then makes
    of [s0]. *)
Definition key_recorded (k : string) (s : Pynput.State) : Pynput.State :=
  Pynput.with_keys_pressed ({[ k ]} ∪ Pynput.keys_pressed s) s.

Definition toggled (s0 : Pynput.State) : Pynput.State :=
  if Pynput.autonomous_enabled s0 then
    Pynput.set_velocity 0 0 0 0 (Pynput.with_autonomous_enabled false s0)
  else Pynput.with_autonomous_enabled true s0.

Inductive PressOutcome (radians : Q -> Q) (k : string) (s0 : Pynput.State)
    : Pynput.State -> Prop :=
  | PressToggle :
      k = "space" ->
      PressOutcome radians k s0 (toggled s0)
  | PressProfile (name : string) :
      (k = "1" /\ name = "eco") \/ (k = "2" /\ name = "standard")
      \/ (k = "3" /\ name = "performance") ->
      PressOutcome radians k s0
        (Pynput.update_speeds (Pynput.with_flight_mode name s0))
  | PressTakeoff (v : Vehicle) :
      k = "t" -> Pynput.vehicle s0 = Some v -> armed v = true ->
      PressOutcome radians k s0
        (Pynput.with_vehicle (Some (link_call (SimpleTakeoff (3 # 1)) v)) s0)
  | PressTakeoffDisarmed (v : Vehicle) :
      k = "t" -> Pynput.vehicle s0 = Some v -> armed v = false ->
      PressOutcome radians k s0 s0
  | PressFlightMode (name : string) (v : Vehicle) :
      (k = "l" /\ name = "LAND") \/ (k = "r" /\ name = "RTL") ->
      Pynput.vehicle s0 = Some v ->
      PressOutcome radians k s0
        (Pynput.with_autonomous_enabled false
           (Pynput.with_vehicle (Some (assign_mode name v)) s0))
  | PressExit :
      k = "esc" ->
      PressOutcome radians k s0 (Pynput.cleanup s0)
  | PressManual :
      k <> "space" -> k <> "1" -> k <> "2" -> k <> "3" -> k <> "esc" ->
      (k = "t" \/ k = "l" \/ k = "r" -> Pynput.vehicle s0 = None) ->
      Pynput.autonomous_enabled s0 = false ->
      PressOutcome radians k s0 (Pynput.process_manual_keys radians s0)
  | PressIgnored :
      k <> "space" -> k <> "1" -> k <> "2" -> k <> "3" -> k <> "esc" ->
      (k = "t" \/ k = "l" \/ k = "r" -> Pynput.vehicle s0 = None) ->
      Pynput.autonomous_enabled s0 = true ->
      PressOutcome radians k s0 s0.


(** ** src/elevatexy_sim_tkinter.py: the key handlers *)

Module TkinterInput.

(** [movement_keys] of [key_release] *)
Definition movement_keys : list string :=
  ["w"; "a"; "s"; "d"; "q"; "e"; "Up"; "Down"; "Left"; "Right"].

(** [key in movement_keys] *)
Definition is_movement_key (k : string) : bool :=
  existsb (String.eqb k) movement_keys.

(** [any(self.keyboard_state.get(k, False) for k in movement_keys)] *)
Definition any_movement_key_held (s : Tkinter.State) : bool :=
  existsb (fun k => Tkinter.key_held k s) movement_keys.

Section Keys.

(** [np.radians] *)
Variable radians : Q -> Q.

(** [key_press], for the key symbol [key] of the event; the status
    display it refreshes is not part of the object modelled. *)
Definition key_press (key : string) (s : Tkinter.State) : Tkinter.State :=
  let s := Tkinter.with_keyboard_state (<[ key := true ]> (Tkinter.keyboard_state s)) s in
  let s :=
    if String.eqb key "space" then
      let s :=
        Tkinter.with_autonomous_enabled (negb (Tkinter.autonomous_enabled s)) s in
      if negb (Tkinter.autonomous_enabled s) then Tkinter.stop_movement s
      else s
    else if String.eqb key "1" then
      Tkinter.update_speeds (Tkinter.with_flight_mode "eco" s)
    else if String.eqb key "2" then
      Tkinter.update_speeds (Tkinter.with_flight_mode "standard" s)
    else if String.eqb key "3" then
      Tkinter.update_speeds (Tkinter.with_flight_mode "performance" s)
    else
      match (if String.eqb key "t" then Tkinter.vehicle s else None) with
      | Some v =>
          if armed v then
            Tkinter.with_vehicle
              (Some (link_call (SimpleTakeoff (3 # 1)) v)) s
          else s
      | None =>
      match (if String.eqb key "l" then Tkinter.vehicle s else None) with
      | Some v =>
          Tkinter.with_autonomous_enabled false
            (Tkinter.with_vehicle (Some (assign_mode "LAND" v)) s)
      | None =>
      match (if String.eqb key "r" then Tkinter.vehicle s else None) with
      | Some v =>
          Tkinter.with_autonomous_enabled false
            (Tkinter.with_vehicle (Some (assign_mode "RTL" v)) s)
      | None => s
      end end end in
  if negb (Tkinter.autonomous_enabled s) then
    Tkinter.process_manual_control radians s
  else s.

End Keys.

(** [key_release] *)
Definition key_release (key : string) (s : Tkinter.State) : Tkinter.State :=
  let s :=
    match Tkinter.keyboard_state s !! key with
    | Some _ =>
        Tkinter.with_keyboard_state
          (<[ key := false ]> (Tkinter.keyboard_state s)) s
    | None => s
    end in
  if negb (Tkinter.autonomous_enabled s) then
    if is_movement_key key then
      if negb (any_movement_key_held s) then Tkinter.stop_movement s else s
    else s
  else s.

(** The arming state that the vehicle reports changes to [b]. *)
Definition report_armed (b : bool) (s : Tkinter.State) : Tkinter.State :=
  match Tkinter.vehicle s with
  | Some v =>
      Tkinter.with_vehicle
        (Some {| armed := b; mode := mode v; calls := calls v |}) s
  | None => s
  end.

(** [any] over the movement keys other than [key], on the state before
    the release. *)
Definition other_movement_key_held (key : string) (s : Tkinter.State) : bool :=
  existsb (fun k => negb (String.eqb key k) && Tkinter.key_held k s)
    movement_keys.

(** The object once [run] has connected to a vehicle in GUIDED mode whose
    arming state is [a], with the standard rates and nothing held. *)
Definition ready (a : bool) : Tkinter.State :=
  Tkinter.update_speeds
    {| Tkinter.vehicle := Some {| armed := a; mode := "GUIDED"; calls := [] |};
       Tkinter.camera_active := false;
       Tkinter.face_detected := false;
       Tkinter.face_zone := CENTER;
       Tkinter.autonomous_enabled := false;
       Tkinter.flight_mode := "standard";
       Tkinter.keyboard_state := ∅;
       Tkinter.move_speed := 0; Tkinter.vertical_speed := 0;
       Tkinter.yaw_rate := 0;
       Tkinter.command_active := true;
       Tkinter.current_vx := 0; Tkinter.current_vy := 0;
       Tkinter.current_vz := 0; Tkinter.current_yaw := 0 |}.

End TkinterInput.

(** ** src/elevatexy_simulation.py: manual controller and session *)

(** [DroneParams] of this script: its speeds differ from those of the
    pynput script, and its yaw rates are in radians per second. *)
Module SimulationParams.
Definition STD_GND_SPEED : Q := 5 # 1.
Definition STD_VZ_SPEED : Q := 5 # 10.
Definition STD_YAW_RATE : Q := 5 # 10.

Definition ECO_GND_SPEED : Q := 35 # 10.
Definition ECO_VZ_SPEED : Q := 35 # 100.
Definition ECO_YAW_RATE : Q := 35 # 100.

Definition PERF_GND_SPEED : Q := 6 # 1.
Definition PERF_VZ_SPEED : Q := 6 # 10.
Definition PERF_YAW_RATE : Q := 6 # 10.
End SimulationParams.

(** [class ManualDroneController].  Its [vehicle] attribute is the
    vehicle object of the session that creates it: [send_command] is
    given that shared vehicle and returns it with the call recorded. *)
Module ManualDroneController.

Record State : Type := mkState {
  flight_mode : string;
  vx : Q;
  vy : Q;
  vz : Q;
  yaw_rate_cmd : Q;
  move_speed : Q;
  vertical_speed : Q;
  yaw_rate : Q
}.

Definition with_command (x y z w : Q) (c : State) : State :=
  mkState (flight_mode c) x y z w (move_speed c) (vertical_speed c)
    (yaw_rate c).

Section Units.

(** [np.degrees] and [np.radians] *)
Variable degrees : Q -> Q.
Variable radians : Q -> Q.

(** [update_speeds] *)
Definition update_speeds (c : State) : State :=
  if String.eqb (flight_mode c) "eco" then
    mkState (flight_mode c) (vx c) (vy c) (vz c) (yaw_rate_cmd c)
      SimulationParams.ECO_GND_SPEED SimulationParams.ECO_VZ_SPEED
      (degrees SimulationParams.ECO_YAW_RATE)
  else if String.eqb (flight_mode c) "performance" then
    mkState (flight_mode c) (vx c) (vy c) (vz c) (yaw_rate_cmd c)
      SimulationParams.PERF_GND_SPEED SimulationParams.PERF_VZ_SPEED
      (degrees SimulationParams.PERF_YAW_RATE)
  else
    mkState (flight_mode c) (vx c) (vy c) (vz c) (yaw_rate_cmd c)
      SimulationParams.STD_GND_SPEED SimulationParams.STD_VZ_SPEED
      (degrees SimulationParams.STD_YAW_RATE).

(** [__init__] *)
Definition init (mode : string) : State :=
  update_speeds (mkState mode 0 0 0 0 0 0 0).

(** [set_flight_mode] *)
Definition set_flight_mode (mode : string) (c : State) : State :=
  update_speeds
    (mkState mode (vx c) (vy c) (vz c) (yaw_rate_cmd c) (move_speed c)
       (vertical_speed c) (yaw_rate c)).

Definition set_forward (speed : Q) (c : State) : State :=
  with_command speed (vy c) (vz c) (yaw_rate_cmd c) c.

Definition set_backward (speed : Q) (c : State) : State :=
  with_command (- speed)%Q (vy c) (vz c) (yaw_rate_cmd c) c.

Definition set_left (speed : Q) (c : State) : State :=
  with_command (vx c) (- speed)%Q (vz c) (yaw_rate_cmd c) c.

Definition set_right (speed : Q) (c : State) : State :=
  with_command (vx c) speed (vz c) (yaw_rate_cmd c) c.

Definition set_up (speed : Q) (c : State) : State :=
  with_command (vx c) (vy c) (- speed)%Q (yaw_rate_cmd c) c.

Definition set_down (speed : Q) (c : State) : State :=
  with_command (vx c) (vy c) speed (yaw_rate_cmd c) c.

Definition set_yaw_left (rate : Q) (c : State) : State :=
  with_command (vx c) (vy c) (vz c) (- radians rate)%Q c.

Definition set_yaw_right (rate : Q) (c : State) : State :=
  with_command (vx c) (vy c) (vz c) (radians rate) c.

End Units.

(** [stop_all] *)
Definition stop_all (c : State) : State := with_command 0 0 0 0 c.

(** [send_command], on the shared vehicle. *)
Definition send_command (c : State) (vehicle : option Vehicle)
    : option Vehicle :=
  match vehicle with
  | Some v =>
      if armed v then
        Some (link_call
                (SetPositionTarget (vx c) (vy c) (vz c) (yaw_rate_cmd c)) v)
      else vehicle
  | None => vehicle
  end.

End ManualDroneController.

(** [class ElevateXYSimulation] of src/elevatexy_simulation.py.  The
    clock is an input: the functions that call [time.time()] take the
    values it returns. *)
Module SimulationSession.

Record State : Type := mkState {
  vehicle : option Vehicle;
  cap : option bool;
  camera_active : bool;
  face_cascade : bool;
  face_detected : bool;
  face_zone : GridZone;
  face_center : Z * Z;
  flight_mode : string;
  yaw_rate : Q;
  autonomous_enabled : bool;
  manual_control : option ManualDroneController.State;
  last_command_time : Q;
  command_interval : Q;
  mapper : Simulation.Mapper
}.

(** The attributes that [calculate_drone_commands] reads (frame size,
    dead zones, the two speeds and the zones) are the fields of
    [mapper]. *)
Definition move_speed (s : State) : Q := Simulation.move_speed (mapper s).
Definition vertical_speed (s : State) : Q :=
  Simulation.vertical_speed (mapper s).

Definition with_vehicle (v : option Vehicle) (s : State) : State :=
  mkState v (cap s) (camera_active s) (face_cascade s) (face_detected s)
    (face_zone s) (face_center s) (flight_mode s) (yaw_rate s)
    (autonomous_enabled s) (manual_control s) (last_command_time s)
    (command_interval s) (mapper s).

Definition with_cap (c : option bool) (s : State) : State :=
  mkState (vehicle s) c (camera_active s) (face_cascade s) (face_detected s)
    (face_zone s) (face_center s) (flight_mode s) (yaw_rate s)
    (autonomous_enabled s) (manual_control s) (last_command_time s)
    (command_interval s) (mapper s).

Definition with_camera_active (b : bool) (s : State) : State :=
  mkState (vehicle s) (cap s) b (face_cascade s) (face_detected s)
    (face_zone s) (face_center s) (flight_mode s) (yaw_rate s)
    (autonomous_enabled s) (manual_control s) (last_command_time s)
    (command_interval s) (mapper s).

Definition with_face (detected : bool) (z : GridZone) (c : Z * Z)
    (s : State) : State :=
  mkState (vehicle s) (cap s) (camera_active s) (face_cascade s) detected
    z c (flight_mode s) (yaw_rate s)
    (autonomous_enabled s) (manual_control s) (last_command_time s)
    (command_interval s) (mapper s).

Definition with_flight_mode (m : string) (s : State) : State :=
  mkState (vehicle s) (cap s) (camera_active s) (face_cascade s)
    (face_detected s) (face_zone s) (face_center s) m (yaw_rate s)
    (autonomous_enabled s) (manual_control s) (last_command_time s)
    (command_interval s) (mapper s).

Definition with_speeds (ms vs yr : Q) (s : State) : State :=
  mkState (vehicle s) (cap s) (camera_active s) (face_cascade s)
    (face_detected s) (face_zone s) (face_center s) (flight_mode s) yr
    (autonomous_enabled s) (manual_control s) (last_command_time s)
    (command_interval s)
    (Simulation.mkMapper (Simulation.frame_width (mapper s))
       (Simulation.frame_height (mapper s))
       (Simulation.deadzone_horizontal (mapper s))
       (Simulation.deadzone_vertical (mapper s)) ms vs
       (Simulation.zones (mapper s))).

Definition with_autonomous_enabled (b : bool) (s : State) : State :=
  mkState (vehicle s) (cap s) (camera_active s) (face_cascade s)
    (face_detected s) (face_zone s) (face_center s) (flight_mode s)
    (yaw_rate s) b (manual_control s) (last_command_time s)
    (command_interval s) (mapper s).

Definition with_manual_control (c : option ManualDroneController.State)
    (s : State) : State :=
  mkState (vehicle s) (cap s) (camera_active s) (face_cascade s)
    (face_detected s) (face_zone s) (face_center s) (flight_mode s)
    (yaw_rate s) (autonomous_enabled s) c (last_command_time s)
    (command_interval s) (mapper s).

Definition with_last_command_time (t : Q) (s : State) : State :=
  mkState (vehicle s) (cap s) (camera_active s) (face_cascade s)
    (face_detected s) (face_zone s) (face_center s) (flight_mode s)
    (yaw_rate s) (autonomous_enabled s) (manual_control s) t
    (command_interval s) (mapper s).

Definition vehicle_armed (s : State) : bool :=
  match vehicle s with
  | Some v => armed v
  | None => false
  end.

(** The velocity commands sent so far on the link of [s]. *)
Definition sent (s : State) : list (Q * Q * Q * Q) :=
  match vehicle s with
  | Some v => transmitted (calls v)
  | None => []
  end.

(** [send_velocity_command(vx, vy, vz, yaw_rate)] *)
Definition send_velocity_command (vx vy vz yaw_rate : Q) (s : State)
    : State :=
  match vehicle s with
  | Some v =>
      if armed v then
        with_vehicle
          (Some (link_call (SetPositionTarget vx vy vz yaw_rate) v)) s
      else s
  | None => s
  end.

(** [stop_movement] *)
Definition stop_movement (s : State) : State :=
  let s := send_velocity_command 0 0 0 0 s in
  match manual_control s with
  | Some c => with_manual_control (Some (ManualDroneController.stop_all c)) s
  | None => s
  end.

Section Units.

Variable degrees : Q -> Q.
Variable radians : Q -> Q.

(** [__init__], at the time [now]. *)
Definition init (now : Q) : State :=
  {| vehicle := None; cap := None; camera_active := false;
     face_cascade := false; face_detected := false; face_zone := CENTER;
     face_center := (640 / 2, 480 / 2);
     flight_mode := "standard";
     yaw_rate := degrees SimulationParams.STD_YAW_RATE;
     autonomous_enabled := false; manual_control := None;
     last_command_time := now; command_interval := 1 # 10;
     mapper := Simulation.init SimulationParams.STD_GND_SPEED
                 SimulationParams.STD_VZ_SPEED |}.

(** [update_speeds_for_mode] *)
Definition update_speeds_for_mode (s : State) : State :=
  let s :=
    if String.eqb (flight_mode s) "eco" then
      with_speeds SimulationParams.ECO_GND_SPEED SimulationParams.ECO_VZ_SPEED
        (degrees SimulationParams.ECO_YAW_RATE) s
    else if String.eqb (flight_mode s) "performance" then
      with_speeds SimulationParams.PERF_GND_SPEED
        SimulationParams.PERF_VZ_SPEED
        (degrees SimulationParams.PERF_YAW_RATE) s
    else
      with_speeds SimulationParams.STD_GND_SPEED SimulationParams.STD_VZ_SPEED
        (degrees SimulationParams.STD_YAW_RATE) s in
  match manual_control s with
  | Some c =>
      with_manual_control
        (Some (ManualDroneController.set_flight_mode degrees
                 (flight_mode s) c)) s
  | None => s
  end.

(** [mode not in ["eco", "standard", "performance"]] *)
Definition known_mode (mode : string) : bool :=
  existsb (String.eqb mode) ["eco"; "standard"; "performance"].

(** [set_flight_mode] *)
Definition set_flight_mode (mode : string) (s : State) : State :=
  if negb (known_mode mode) then s
  else update_speeds_for_mode (with_flight_mode mode s).

(** [connect_sitl], when the connection succeeds with vehicle [v]: the
    manual controller is created and GUIDED mode is requested. *)
Definition connect_sitl (v : Vehicle) (s : State) : State :=
  with_vehicle (Some (assign_mode "GUIDED" v))
    (with_manual_control
       (Some (ManualDroneController.init degrees (flight_mode s))) s).

(** [detect_and_track], given the faces found in the frame and the two
    readings of the clock.  Without a cascade the call of
    [detectMultiScale] raises: the result is [None].  The test
    [elapsed > command_interval] is the negation of [<=]. *)
Definition detect_and_track (faces : list Rect) (t_check t_stamp : Q)
    (s : State) : option State :=
  if negb (face_cascade s) then None
  else
    match faces with
    | f :: rest =>
        let '(x, y, w, h) := Pynput.largest_from f rest in
        let center := (x + w / 2, y + h / 2) in
        let zone :=
          get_face_zone (Simulation.zones (mapper s)) (fst center)
            (snd center) in
        let s := with_face true zone center s in
        if autonomous_enabled s
           && negb (Qle_bool (t_check - last_command_time s)
                      (command_interval s))
        then
          let s :=
            if negb (GridZone_eqb zone CENTER) then
              let '(vx, vy, vz, yaw) :=
                Simulation.calculate_drone_commands (mapper s) zone center in
              send_velocity_command vx vy vz yaw s
            else stop_movement s in
          Some (with_last_command_time t_stamp s)
        else Some s
    | [] =>
        let s := with_face false (face_zone s) (face_center s) s in
        if autonomous_enabled s then Some (stop_movement s) else Some s
    end.

(** The key codes of [cv2.waitKey] that the script tests. *)
Definition KEY_W : Z := 119.
Definition KEY_S : Z := 115.
Definition KEY_A : Z := 97.
Definition KEY_D : Z := 100.
Definition KEY_UP : Z := 82.
Definition KEY_DOWN : Z := 84.
Definition KEY_LEFT : Z := 81.
Definition KEY_RIGHT : Z := 83.

(** The [if]/[elif] chain of [handle_manual_control] on the controller. *)
Definition steer (key : Z) (s : State) (c : ManualDroneController.State)
    : ManualDroneController.State :=
  if key =? KEY_W then ManualDroneController.set_forward (move_speed s) c
  else if key =? KEY_S then
    ManualDroneController.set_backward (move_speed s) c
  else if key =? KEY_A then ManualDroneController.set_left (move_speed s) c
  else if key =? KEY_D then ManualDroneController.set_right (move_speed s) c
  else if key =? KEY_UP then
    ManualDroneController.set_up (vertical_speed s) c
  else if key =? KEY_DOWN then
    ManualDroneController.set_down (vertical_speed s) c
  else if key =? KEY_LEFT then
    ManualDroneController.set_yaw_left radians (yaw_rate s) c
  else if key =? KEY_RIGHT then
    ManualDroneController.set_yaw_right radians (yaw_rate s) c
  else c.

(** [handle_manual_control] *)
Definition handle_manual_control (key : Z) (s : State) : State :=
  match manual_control s, vehicle s with
  | Some c, Some v =>
      let v :=
        if String.eqb (mode v) "GUIDED" then v else assign_mode "GUIDED" v in
      let c := steer key s (ManualDroneController.stop_all c) in
      let s := with_manual_control (Some c) (with_vehicle (Some v) s) in
      if negb (autonomous_enabled s) then
        with_vehicle (ManualDroneController.send_command c (vehicle s)) s
      else s
  | _, _ => s
  end.

(** The key dispatch of the main loop of [run]: [None] when the loop is
    left (key [q]), the new state otherwise.  [255] is "no key". *)
Definition main_loop_key (key : Z) (s : State) : option State :=
  if key =? 113 then None
  else if key =? 49 then Some (set_flight_mode "eco" s)
  else if key =? 50 then Some (set_flight_mode "standard" s)
  else if key =? 51 then Some (set_flight_mode "performance" s)
  else if key =? 32 then
    let s := with_autonomous_enabled (negb (autonomous_enabled s)) s in
    if negb (autonomous_enabled s) then Some (stop_movement s) else Some s
  else if key =? 116 then
    match vehicle s with
    | Some v =>
        if armed v then
          let v :=
            if String.eqb (mode v) "GUIDED" then v
            else assign_mode "GUIDED" v in
          Some (with_vehicle (Some (link_call (SimpleTakeoff (3 # 1)) v)) s)
        else Some s
    | None => Some s
    end
  else if key =? 108 then
    match vehicle s with
    | Some v =>
        Some (with_autonomous_enabled false
                (with_vehicle (Some (assign_mode "LAND" v)) s))
    | None => Some s
    end
  else if negb (key =? 255) then
    if negb (autonomous_enabled s) then Some (handle_manual_control key s)
    else Some s
  else Some s.

End Units.

(** [cleanup] *)
Definition cleanup (s : State) : State :=
  let s := with_camera_active false (with_autonomous_enabled false s) in
  let s :=
    match vehicle s with
    | Some _ =>
        let s := stop_movement s in
        match vehicle s with
        | Some v => with_vehicle (Some (link_call Close v)) s
        | None => s
        end
    | None => s
    end in
  match cap s with
  | Some _ => with_cap (Some false) s
  | None => s
  end.

(** [initialize_face_detection] and [start_camera]: [found] tells whether
    a cascade file loads, [started] whether the camera delivers a first
    frame. *)
Definition initialize_face_detection (found : bool) (s : State) : State :=
  if found then
    mkState (vehicle s) (cap s) (camera_active s) true (face_detected s)
      (face_zone s) (face_center s) (flight_mode s) (yaw_rate s)
      (autonomous_enabled s) (manual_control s) (last_command_time s)
      (command_interval s) (mapper s)
  else s.

Definition start_camera (started : bool) (s : State) : State :=
  if started then with_camera_active true (with_cap (Some true) s)
  else with_cap (Some false) s.

(** The session in its main loop: cascade loaded, camera started at time
    0, connected to a vehicle whose arming state is [a]; the units are
    converted by [degrees] and [radians]. *)
Definition ready (degrees : Q -> Q) (a : bool) : State :=
  connect_sitl degrees {| armed := a; mode := "STABILIZE"; calls := [] |}
    (start_camera true (initialize_face_detection true (init degrees 0))).

End SimulationSession.

(** [np.degrees], with the double-precision constant 180/pi as an exact
    rational; used where a concrete [degrees] is needed. *)
Definition np_degrees (rad : Q) : Q :=
  (rad * (1007958012753983 # 17592186044416))%Q.

(** * Properties *)

Local Open Scope list_scope.

(** ** Zone classification *)

Ltac zcompare :=
  repeat match goal with
    | |- context [?a <=? ?b] => destruct (Z.leb_spec a b); try lia
    | |- context [?a <? ?b] => destruct (Z.ltb_spec a b); try lia
    end.

Lemma third_bounds (n : Z) : 0 <= n -> 0 <= n / 3 /\ (n / 3) * 2 <= n.
Proof.
  intros Hn. split.
  - apply Z.div_pos; lia.
  - pose proof (Z.mul_div_le n 3 ltac:(lia)). lia.
Qed.

Lemma in_rect_spec (x1 y1 x2 y2 x y : Z) :
  in_rect (x1, y1, x2, y2) x y = true <-> (x1 <= x < x2 /\ y1 <= y < y2).
Proof.
  unfold in_rect. rewrite !andb_true_iff, !Z.leb_le, !Z.ltb_lt. lia.
Qed.

(** A point inside one of the nine rectangles is classified as that zone:
    the rectangles do not overlap, so the first match is the only one. *)
Lemma get_face_zone_complete (W H x y : Z) (z : GridZone) (x1 y1 x2 y2 : Z) :
  0 <= W -> 0 <= H ->
  In (z, (x1, y1, x2, y2)) (setup_grid_zones W H) ->
  x1 <= x < x2 /\ y1 <= y < y2 ->
  get_face_zone (setup_grid_zones W H) x y = z.
Proof.
  intros HW HH Hin Hxy.
  destruct (third_bounds W HW) as [Hc0 Hc2].
  destruct (third_bounds H HH) as [Hr0 Hr2].
  unfold setup_grid_zones in *.
  set (cw := W / 3) in *. set (rh := H / 3) in *.
  simpl in Hin.
  repeat (destruct Hin as [Hin | Hin];
          [ injection Hin as <- <- <- <- <-; simpl; zcompare; reflexivity | ]).
  contradiction.
Qed.

(** Inside the frame every point falls in some rectangle, and the zone
    returned is one whose rectangle holds the point. *)
Lemma get_face_zone_sound (W H x y : Z) (z : GridZone) (x1 y1 x2 y2 : Z) :
  0 <= W -> 0 <= H ->
  In (z, (x1, y1, x2, y2)) (setup_grid_zones W H) ->
  0 <= x < W -> 0 <= y < H ->
  get_face_zone (setup_grid_zones W H) x y = z ->
  x1 <= x < x2 /\ y1 <= y < y2.
Proof.
  intros HW HH Hin Hx Hy.
  destruct (third_bounds W HW) as [Hc0 Hc2].
  destruct (third_bounds H HH) as [Hr0 Hr2].
  unfold setup_grid_zones in *.
  set (cw := W / 3) in *. set (rh := H / 3) in *.
  simpl in Hin.
  repeat (destruct Hin as [Hin | Hin];
          [ injection Hin as <- <- <- <- <-; simpl; zcompare;
            (discriminate || lia) | ]).
  contradiction.
Qed.

(** C8. Zone classification is a function of the point and the frame
    size alone.  Each of the nine zones is a half-open rectangle: a point
    with [x1 <= x < x2] and [y1 <= y < y2] gets that zone (the low
    boundary is included), and inside the frame a point that gets a zone
    satisfies those bounds (the high boundary is excluded).  In a frame of
    640 by 480, pixel (0,0) is TOP_LEFT and pixel (320,240) is CENTER. *)
Theorem zone_classification_half_open (W H : Z) :
  0 <= W -> 0 <= H ->
  (forall x y z x1 y1 x2 y2,
      In (z, (x1, y1, x2, y2)) (setup_grid_zones W H) ->
      (x1 <= x < x2 /\ y1 <= y < y2 ->
       get_face_zone (setup_grid_zones W H) x y = z) /\
      (0 <= x < W -> 0 <= y < H ->
       get_face_zone (setup_grid_zones W H) x y = z ->
       x1 <= x < x2 /\ y1 <= y < y2)) /\
  get_face_zone (setup_grid_zones 640 480) 0 0 = TOP_LEFT /\
  get_face_zone (setup_grid_zones 640 480) 320 240 = CENTER.
Proof.
  intros HW HH. split; [ | split; reflexivity ].
  intros x y z x1 y1 x2 y2 Hin. split.
  - now apply get_face_zone_complete.
  - now apply get_face_zone_sound.
Qed.

(** The lower corner of the central rectangle of the default frame
    belongs to CENTER. *)
Lemma zone_classification_half_open_witness :
  get_face_zone (setup_grid_zones 640 480) 213 160 = CENTER.
Proof.
  refine (proj1 (proj1 (zone_classification_half_open 640 480 _ _)
                   213 160 CENTER 213 160 426 320 _) _).
  - lia.
  - lia.
  - simpl. do 4 right. left. reflexivity.
  - lia.
Defined.

(** ** The sender's tick *)

Lemma transmitted_app (a b : list LinkCall) :
  transmitted (a ++ b) = transmitted a ++ transmitted b.
Proof.
  induction a as [ | c a IH ]; simpl; [ reflexivity | ].
  destruct c; simpl; rewrite IH; reflexivity.
Qed.

Lemma pynput_body_disarmed (s : Pynput.State) :
  Pynput.vehicle_armed s = false -> Pynput.command_loop_body s = s.
Proof.
  unfold Pynput.vehicle_armed, Pynput.command_loop_body.
  destruct (Pynput.vehicle s) as [ v | ]; [ | reflexivity ].
  intros ->. reflexivity.
Qed.

Lemma pynput_body_armed (s : Pynput.State) (v : Vehicle) :
  Pynput.vehicle s = Some v -> armed v = true ->
  Pynput.vehicle (Pynput.command_loop_body s)
  = Some (link_call
            (SetPositionTarget (Pynput.current_vx s) (Pynput.current_vy s)
               (Pynput.current_vz s) (Pynput.current_yaw s)) v).
Proof.
  intros Hv Ha. unfold Pynput.command_loop_body. rewrite Hv, Ha. reflexivity.
Qed.

Lemma tkinter_body_disarmed (s : Tkinter.State) :
  Tkinter.vehicle_armed s = false -> Tkinter.command_loop_body s = s.
Proof.
  unfold Tkinter.vehicle_armed, Tkinter.command_loop_body.
  destruct (Tkinter.vehicle s) as [ v | ]; [ | reflexivity ].
  intros ->. reflexivity.
Qed.

Lemma tkinter_body_armed (s : Tkinter.State) (v : Vehicle) :
  Tkinter.vehicle s = Some v -> armed v = true ->
  Tkinter.vehicle (Tkinter.command_loop_body s)
  = Some (link_call
            (SetPositionTarget (Tkinter.current_vx s) (Tkinter.current_vy s)
               (Tkinter.current_vz s) (Tkinter.current_yaw s)) v).
Proof.
  intros Hv Ha. unfold Tkinter.command_loop_body. rewrite Hv, Ha. reflexivity.
Qed.

(** C3. In a tick of the sender in which the vehicle is absent or reports
    not armed, no call is made on the link: the object is left as it was.
    In a tick in which the vehicle reports armed, exactly one call is
    appended to the calls made on the link, the velocity command built
    from the current (vx, vy, vz, yaw) fields.  A full iteration of the
    loop, while [command_active] holds, runs the body once.  The same
    holds for the loop of the tkinter script. *)
Theorem sender_tick_sends_iff_armed :
  (forall s, Pynput.vehicle_armed s = false ->
     Pynput.command_loop_body s = s) /\
  (forall s v, Pynput.vehicle s = Some v -> armed v = true ->
     Pynput.vehicle (Pynput.command_loop_body s)
     = Some (link_call
               (SetPositionTarget (Pynput.current_vx s) (Pynput.current_vy s)
                  (Pynput.current_vz s) (Pynput.current_yaw s)) v) /\
     Pynput.sent (Pynput.command_loop_body s)
     = Pynput.sent s ++ [Pynput.velocity s]) /\
  (forall s, Pynput.command_active s = true ->
     Pynput.command_loop_iteration s
     = (Pynput.AtWhile, Pynput.command_loop_body s)) /\
  (forall s, Tkinter.vehicle_armed s = false ->
     Tkinter.command_loop_body s = s) /\
  (forall s v, Tkinter.vehicle s = Some v -> armed v = true ->
     Tkinter.vehicle (Tkinter.command_loop_body s)
     = Some (link_call
               (SetPositionTarget (Tkinter.current_vx s) (Tkinter.current_vy s)
                  (Tkinter.current_vz s) (Tkinter.current_yaw s)) v)).
Proof.
  split; [ exact pynput_body_disarmed | ].
  split.
  { intros s v Hv Ha. split; [ now apply pynput_body_armed | ].
    unfold Pynput.sent. rewrite (pynput_body_armed s v Hv Ha), Hv.
    simpl. rewrite transmitted_app. reflexivity. }
  split.
  { intros s Hc. unfold Pynput.command_loop_iteration. simpl.
    rewrite Hc. reflexivity. }
  split; [ exact tkinter_body_disarmed | exact tkinter_body_armed ].
Qed.

(** An armed vehicle with the command (3, 0, 0, 0): the tick sends it. *)
Lemma sender_tick_sends_iff_armed_witness :
  Pynput.sent
    (Pynput.command_loop_body
       (Pynput.set_velocity (3 # 1) 0 0 0 (Pynput.ready true)))
  = [ (3 # 1, 0, 0, 0)%Q ].
Proof.
  refine (proj2 (proj1 (proj2 sender_tick_sends_iff_armed)
                   (Pynput.set_velocity (3 # 1) 0 0 0 (Pynput.ready true))
                   {| armed := true; mode := "GUIDED"; calls := [] |} _ _)).
  - reflexivity.
  - reflexivity.
Defined.

(** ** Manual keys while disarmed *)

Lemma pynput_manual_keys_disarmed (radians : Q -> Q) (s : Pynput.State) :
  Pynput.vehicle_armed s = false -> Pynput.process_manual_keys radians s = s.
Proof.
  intros Ha. unfold Pynput.process_manual_keys. rewrite Ha. reflexivity.
Qed.

Lemma pynput_update_speeds_velocity (s : Pynput.State) :
  Pynput.velocity (Pynput.update_speeds s) = Pynput.velocity s.
Proof.
  unfold Pynput.update_speeds.
  destruct (String.eqb _ "eco"); [ reflexivity | ].
  destruct (String.eqb _ "performance"); reflexivity.
Qed.

Lemma pynput_on_release_disarmed (radians : Q -> Q) (k : string)
    (s : Pynput.State) :
  Pynput.vehicle_armed s = false ->
  Pynput.velocity (Pynput.on_release radians k s) = Pynput.velocity s.
Proof.
  intros Ha. unfold Pynput.on_release.
  destruct (negb _); [ | reflexivity ].
  rewrite pynput_manual_keys_disarmed; [ reflexivity | exact Ha ].
Qed.

Lemma pynput_on_press_disarmed (radians : Q -> Q) (k : string)
    (s : Pynput.State) :
  Pynput.vehicle_armed s = false -> k <> "space" -> k <> "esc" ->
  Pynput.velocity (Pynput.on_press radians k s) = Pynput.velocity s.
Proof.
  intros Ha Hspace Hesc. unfold Pynput.on_press.
  apply String.eqb_neq in Hspace. apply String.eqb_neq in Hesc.
  rewrite Hspace, Hesc.
  destruct (String.eqb k "1");
    [ now rewrite pynput_update_speeds_velocity | ].
  destruct (String.eqb k "2");
    [ now rewrite pynput_update_speeds_velocity | ].
  destruct (String.eqb k "3");
    [ now rewrite pynput_update_speeds_velocity | ].
  unfold Pynput.vehicle_armed in Ha. simpl.
  destruct (Pynput.vehicle s) as [ v | ] eqn:Hv.
  - destruct (String.eqb k "t").
    { rewrite Ha. reflexivity. }
    destruct (String.eqb k "l"); [ reflexivity | ].
    destruct (String.eqb k "r"); [ reflexivity | ].
    destruct (negb _); [ | reflexivity ].
    rewrite pynput_manual_keys_disarmed; [ reflexivity | ].
    unfold Pynput.vehicle_armed. simpl. rewrite Hv. exact Ha.
  - destruct (String.eqb k "t"), (String.eqb k "l"), (String.eqb k "r");
      (destruct (negb _); [ | reflexivity ]);
      (rewrite pynput_manual_keys_disarmed; [ reflexivity | ]);
      unfold Pynput.vehicle_armed; simpl; rewrite Hv; reflexivity.
Qed.

Lemma tkinter_manual_control_disarmed (radians : Q -> Q) (s : Tkinter.State) :
  Tkinter.vehicle_armed s = false ->
  Tkinter.process_manual_control radians s = s.
Proof.
  intros Ha. unfold Tkinter.process_manual_control. rewrite Ha. reflexivity.
Qed.

(** ** Manual recompute *)

Ltac key_tests :=
  repeat first
    [ rewrite bool_decide_eq_true_2 by set_solver
    | rewrite bool_decide_eq_false_2 by set_solver ].

Lemma standard_speeds (s : Pynput.State) :
  Pynput.profile_active "standard" s ->
  Pynput.move_speed s = DroneParams.STD_GND_SPEED /\
  Pynput.vertical_speed s = DroneParams.STD_VZ_SPEED /\
  Pynput.yaw_rate s = DroneParams.STD_YAW_RATE.
Proof.
  intros [Hm Hu]. unfold Pynput.update_speeds in Hu. rewrite Hm in Hu.
  simpl in Hu. rewrite <- Hu. simpl. repeat split.
Qed.

(** Disarmed, with the standard profile and only the forward key held,
    the recompute publishes nothing: the command stays (0, 0, 0, 0). *)
Lemma forward_key_disarmed_counterexample :
  let s := Pynput.with_keys_pressed {[ "w" ]} (Pynput.ready false) in
  Pynput.profile_active "standard" s /\
  Pynput.keys_pressed s = {[ "w" ]} /\
  Pynput.velocity (Pynput.process_manual_keys np_radians s) = (0, 0, 0, 0)%Q /\
  ~ (Pynput.current_vx (Pynput.process_manual_keys np_radians s) == 3 # 1)%Q.
Proof.
  repeat split; discriminate.
Qed.

(** C9 (amended). With the vehicle connected and armed, the standard
    profile active and exactly the forward key held, the manual recompute
    publishes the velocity vector (3.0, 0, 0, 0). *)
Theorem forward_key_standard_armed (radians : Q -> Q) (s : Pynput.State) :
  Pynput.vehicle_armed s = true ->
  Pynput.profile_active "standard" s ->
  Pynput.keys_pressed s = {[ "w" ]} ->
  Pynput.velocity (Pynput.process_manual_keys radians s) = (3 # 1, 0, 0, 0)%Q.
Proof.
  intros Ha Hp Hk.
  destruct (standard_speeds s Hp) as (Hms & _ & _).
  unfold Pynput.process_manual_keys, Pynput.pressed.
  rewrite Ha, Hk. clear Hk. simpl. key_tests.
  unfold Pynput.velocity. simpl. rewrite Hms. reflexivity.
Qed.

(** Pressing the forward key on the armed vehicle of a fresh session. *)
Lemma forward_key_standard_armed_witness :
  Pynput.velocity
    (Pynput.process_manual_keys np_radians
       (Pynput.with_keys_pressed {[ "w" ]} (Pynput.ready true)))
  = (3 # 1, 0, 0, 0)%Q.
Proof.
  apply (forward_key_standard_armed np_radians
           (Pynput.with_keys_pressed {[ "w" ]} (Pynput.ready true))).
  - reflexivity.
  - split; reflexivity.
  - reflexivity.
Defined.

(** ** Opposing keys *)

(** Armed, standard profile, forward and backward both held: the
    recompute publishes vx = -3.0, not zero. *)
Lemma opposing_keys_counterexample :
  let s := Pynput.with_keys_pressed ({[ "w" ]} ∪ {[ "s" ]}) (Pynput.ready true) in
  Pynput.vehicle_armed s = true /\
  Pynput.pressed "w" s = true /\
  Pynput.pressed "s" s = true /\
  Pynput.velocity (Pynput.process_manual_keys np_radians s)
  = (- (3 # 1), 0, 0, 0)%Q /\
  ~ (Pynput.current_vx (Pynput.process_manual_keys np_radians s) == 0)%Q.
Proof.
  repeat split; discriminate.
Qed.

Lemma pynput_both_held (radians : Q -> Q) (s : Pynput.State) :
  Pynput.vehicle_armed s = true ->
  Pynput.velocity (Pynput.process_manual_keys radians s)
  = ((if Pynput.pressed "s" s then - Pynput.move_speed s
      else if Pynput.pressed "w" s then Pynput.move_speed s else 0),
     (if Pynput.pressed "d" s then Pynput.move_speed s
      else if Pynput.pressed "a" s then - Pynput.move_speed s else 0),
     (if Pynput.pressed "e" s then Pynput.vertical_speed s
      else if Pynput.pressed "q" s then - Pynput.vertical_speed s else 0),
     (if Pynput.pressed "right" s then radians (Pynput.yaw_rate s)
      else if Pynput.pressed "left" s then - radians (Pynput.yaw_rate s)
      else 0))%Q.
Proof.
  intros Ha. unfold Pynput.process_manual_keys. rewrite Ha. simpl.
  unfold Pynput.velocity. simpl.
  destruct (Pynput.pressed "s" s), (Pynput.pressed "w" s),
    (Pynput.pressed "d" s), (Pynput.pressed "a" s),
    (Pynput.pressed "e" s), (Pynput.pressed "q" s),
    (Pynput.pressed "right" s), (Pynput.pressed "left" s); reflexivity.
Qed.

Lemma tkinter_both_held (radians : Q -> Q) (s : Tkinter.State) :
  Tkinter.vehicle_armed s = true ->
  Tkinter.velocity (Tkinter.process_manual_control radians s)
  = ((if Tkinter.key_held "s" s then - Tkinter.move_speed s
      else if Tkinter.key_held "w" s then Tkinter.move_speed s else 0),
     (if Tkinter.key_held "d" s then Tkinter.move_speed s
      else if Tkinter.key_held "a" s then - Tkinter.move_speed s else 0),
     (if Tkinter.key_held "e" s then Tkinter.vertical_speed s
      else if Tkinter.key_held "q" s then - Tkinter.vertical_speed s else 0),
     (if Tkinter.key_held "Right" s then radians (Tkinter.yaw_rate s)
      else if Tkinter.key_held "Left" s then - radians (Tkinter.yaw_rate s)
      else 0))%Q.
Proof.
  intros Ha. unfold Tkinter.process_manual_control. rewrite Ha. simpl.
  unfold Tkinter.velocity. simpl.
  destruct (Tkinter.key_held "s" s), (Tkinter.key_held "w" s),
    (Tkinter.key_held "d" s), (Tkinter.key_held "a" s),
    (Tkinter.key_held "e" s), (Tkinter.key_held "q" s),
    (Tkinter.key_held "Right" s), (Tkinter.key_held "Left" s); reflexivity.
Qed.

(** C4 (amended). With the vehicle armed, when both keys of an opposing
    pair are held the manual recompute gives that axis the value of the
    key that is tested last: vx = -ground_speed for forward+backward,
    vy = +ground_speed for left+right, vz = +vertical_speed for up+down,
    yaw = +radians(yaw_rate) for yaw-left+yaw-right; whatever the other
    keys are.  The tkinter script does the same. *)
Theorem opposing_keys_last_test_wins (radians : Q -> Q) :
  (forall s, Pynput.vehicle_armed s = true ->
     let s' := Pynput.process_manual_keys radians s in
     (Pynput.pressed "w" s = true -> Pynput.pressed "s" s = true ->
      Pynput.current_vx s' = (- Pynput.move_speed s)%Q) /\
     (Pynput.pressed "a" s = true -> Pynput.pressed "d" s = true ->
      Pynput.current_vy s' = Pynput.move_speed s) /\
     (Pynput.pressed "q" s = true -> Pynput.pressed "e" s = true ->
      Pynput.current_vz s' = Pynput.vertical_speed s) /\
     (Pynput.pressed "left" s = true -> Pynput.pressed "right" s = true ->
      Pynput.current_yaw s' = radians (Pynput.yaw_rate s))) /\
  (forall s, Tkinter.vehicle_armed s = true ->
     let s' := Tkinter.process_manual_control radians s in
     (Tkinter.key_held "w" s = true -> Tkinter.key_held "s" s = true ->
      Tkinter.current_vx s' = (- Tkinter.move_speed s)%Q) /\
     (Tkinter.key_held "a" s = true -> Tkinter.key_held "d" s = true ->
      Tkinter.current_vy s' = Tkinter.move_speed s) /\
     (Tkinter.key_held "q" s = true -> Tkinter.key_held "e" s = true ->
      Tkinter.current_vz s' = Tkinter.vertical_speed s) /\
     (Tkinter.key_held "Left" s = true -> Tkinter.key_held "Right" s = true ->
      Tkinter.current_yaw s' = radians (Tkinter.yaw_rate s))).
Proof.
  split; intros s Ha s'.
  - pose proof (pynput_both_held radians s Ha) as Hv.
    unfold Pynput.velocity in Hv. fold s' in Hv.
    injection Hv as Hx Hy Hz Hw.
    repeat split; intros _ H2; rewrite H2 in *; assumption.
  - pose proof (tkinter_both_held radians s Ha) as Hv.
    unfold Tkinter.velocity in Hv. fold s' in Hv.
    injection Hv as Hx Hy Hz Hw.
    repeat split; intros _ H2; rewrite H2 in *; assumption.
Qed.

(** Forward and backward held on the armed vehicle, standard profile. *)
Lemma opposing_keys_last_test_wins_witness :
  Pynput.current_vx
    (Pynput.process_manual_keys np_radians
       (Pynput.with_keys_pressed ({[ "w" ]} ∪ {[ "s" ]}) (Pynput.ready true)))
  = (- (3 # 1))%Q.
Proof.
  refine (proj1 (proj1 (opposing_keys_last_test_wins np_radians)
                   (Pynput.with_keys_pressed ({[ "w" ]} ∪ {[ "s" ]})
                      (Pynput.ready true)) _) _ _).
  - reflexivity.
  - reflexivity.
  - reflexivity.
Defined.

(** ** Mode toggle *)

(** Armed, manual mode, forward key held, so the command is (3, 0, 0, 0);
    the toggle then enters AUTONOMOUS, no face has been observed, and the
    command is still (3, 0, 0, 0) when the call returns. *)
Lemma toggle_to_autonomous_counterexample :
  let s := Pynput.on_press np_radians "w" (Pynput.ready true) in
  let s' := Pynput.on_press np_radians "space" s in
  Pynput.autonomous_enabled s = false /\
  Pynput.autonomous_enabled s' = true /\
  Pynput.face_detected s' = false /\
  Pynput.velocity s' = (3 # 1, 0, 0, 0)%Q /\
  ~ (Pynput.current_vx s' == 0)%Q.
Proof.
  vm_compute. repeat split; discriminate.
Qed.

Lemma pynput_hold_when_no_target (s : Pynput.State) :
  Pynput.face_detected s = false \/ Pynput.face_zone s = CENTER ->
  Pynput.velocity (Pynput.calculate_autonomous_commands s) = (0, 0, 0, 0)%Q.
Proof.
  intros H. unfold Pynput.calculate_autonomous_commands.
  destruct H as [ -> | -> ]; simpl; [ reflexivity | ].
  rewrite orb_true_r. reflexivity.
Qed.

(** C2 (amended). A mode toggle that enters MANUAL forces the shared
    command to (0, 0, 0, 0) within the same call, whatever keys are held
    and whatever the command was.  A toggle that enters AUTONOMOUS leaves
    the command as it was; it becomes zero at the next autonomous
    recompute that has no face, or a face in CENTER. *)
Theorem toggle_zeroes_on_entering_manual (radians : Q -> Q)
    (s : Pynput.State) :
  (Pynput.autonomous_enabled s = true ->
     Pynput.autonomous_enabled (Pynput.on_press radians "space" s) = false /\
     Pynput.velocity (Pynput.on_press radians "space" s) = (0, 0, 0, 0)%Q) /\
  (Pynput.autonomous_enabled s = false ->
     Pynput.autonomous_enabled (Pynput.on_press radians "space" s) = true /\
     Pynput.velocity (Pynput.on_press radians "space" s) = Pynput.velocity s) /\
  (Pynput.face_detected s = false \/ Pynput.face_zone s = CENTER ->
     Pynput.velocity (Pynput.calculate_autonomous_commands s)
     = (0, 0, 0, 0)%Q).
Proof.
  split; [ | split ].
  - intros Ha. unfold Pynput.on_press. simpl. rewrite Ha. simpl.
    split; reflexivity.
  - intros Ha. unfold Pynput.on_press. simpl. rewrite Ha. simpl.
    split; reflexivity.
  - apply pynput_hold_when_no_target.
Qed.

(** The forward key held on the armed vehicle, command (3, 0, 0, 0): the
    first toggle enters AUTONOMOUS and keeps the command, the second
    returns to MANUAL and zeroes it. *)
Lemma toggle_zeroes_on_entering_manual_witness :
  let s := Pynput.on_press np_radians "w" (Pynput.ready true) in
  let s' := Pynput.on_press np_radians "space" s in
  Pynput.velocity s' = (3 # 1, 0, 0, 0)%Q /\
  Pynput.velocity (Pynput.on_press np_radians "space" s') = (0, 0, 0, 0)%Q.
Proof.
  intros s s'. split.
  - refine (proj2 (proj1 (proj2 (toggle_zeroes_on_entering_manual
                                   np_radians s)) _)).
    vm_compute. reflexivity.
  - refine (proj2 (proj1 (toggle_zeroes_on_entering_manual np_radians s') _)).
    vm_compute. reflexivity.
Defined.

(** ** Bounds on the published command *)

(** Eco replaces performance while the forward command of 4.5 m/s stays
    published: it exceeds the ground speed 2.0 of the active profile. *)
Lemma profile_change_bound_counterexample :
  let s := Pynput.run np_radians
             [Pynput.KeyDown "3"; Pynput.KeyDown "w"; Pynput.KeyDown "1"]
             (Pynput.ready true) in
  Pynput.profile_active "eco" s /\
  Pynput.move_speed s = (2 # 1)%Q /\
  Pynput.current_vx s = (45 # 10)%Q /\
  ~ (Qabs (Pynput.current_vx s) <= Pynput.move_speed s)%Q /\
  ~ Pynput.within_profile np_radians s.
Proof.
  vm_compute. repeat split; try discriminate.
  - intros H. apply H. reflexivity.
  - intros (H & _). apply H. reflexivity.
Qed.

Lemma Qabs_within (r v : Q) :
  (Qabs v <= r)%Q ->
  (Qabs 0 <= r)%Q /\ (Qabs r <= r)%Q /\ (Qabs (- r) <= r)%Q.
Proof.
  intros Hv.
  assert (H0 : (0 <= r)%Q) by (eapply Qle_trans; [ apply Qabs_nonneg | exact Hv ]).
  split; [ exact H0 | ].
  split.
  - rewrite Qabs_pos by exact H0. apply Qle_refl.
  - rewrite Qabs_opp, Qabs_pos by exact H0. apply Qle_refl.
Qed.

Lemma within_profile_zero (radians : Q -> Q) (s : Pynput.State) :
  Pynput.within_profile radians s ->
  Pynput.within_profile radians (Pynput.set_velocity 0 0 0 0 s).
Proof.
  intros (Hx & Hy & Hz & Hw). unfold Pynput.within_profile. simpl.
  repeat split;
    first [ exact (proj1 (Qabs_within _ _ Hx))
          | exact (proj1 (Qabs_within _ _ Hz))
          | exact (proj1 (Qabs_within _ _ Hw)) ].
Qed.

(** A recompute re-establishes the bounds for the rates in force, given
    only that these rates are not negative. *)
Lemma within_profile_recompute (radians : Q -> Q) (s : Pynput.State) :
  Pynput.vehicle_armed s = true ->
  (0 <= Pynput.move_speed s)%Q ->
  (0 <= Pynput.vertical_speed s)%Q ->
  (0 <= radians (Pynput.yaw_rate s))%Q ->
  Pynput.within_profile radians (Pynput.process_manual_keys radians s).
Proof.
  intros Ha Hm Hv Hy.
  assert (Hm' := Qabs_within _ 0 Hm).
  assert (Hv' := Qabs_within _ 0 Hv).
  assert (Hy' := Qabs_within _ 0 Hy).
  unfold Pynput.process_manual_keys. rewrite Ha. simpl.
  unfold Pynput.within_profile. simpl.
  destruct (Pynput.pressed "s" s), (Pynput.pressed "w" s),
    (Pynput.pressed "d" s), (Pynput.pressed "a" s),
    (Pynput.pressed "e" s), (Pynput.pressed "q" s),
    (Pynput.pressed "right" s), (Pynput.pressed "left" s);
    repeat split; tauto.
Qed.

Lemma within_profile_manual_keys (radians : Q -> Q) (s : Pynput.State) :
  Pynput.within_profile radians s ->
  Pynput.within_profile radians (Pynput.process_manual_keys radians s).
Proof.
  intros Hw.
  destruct (Pynput.vehicle_armed s) eqn:Ha.
  - destruct Hw as (Hx & _ & Hz & Hy).
    apply within_profile_recompute; [ exact Ha | | | ].
    + exact (proj1 (Qabs_within _ _ Hx)).
    + exact (proj1 (Qabs_within _ _ Hz)).
    + exact (proj1 (Qabs_within _ _ Hy)).
  - rewrite pynput_manual_keys_disarmed by exact Ha. exact Hw.
Qed.

Lemma within_profile_autonomous (radians : Q -> Q) (s : Pynput.State) :
  Pynput.within_profile radians s ->
  Pynput.within_profile radians (Pynput.calculate_autonomous_commands s).
Proof.
  intros Hw. unfold Pynput.calculate_autonomous_commands.
  destruct (negb _ || _); [ now apply within_profile_zero | ].
  destruct Hw as (Hx & _ & Hz & Hy).
  assert (Hm' := Qabs_within _ _ Hx).
  assert (Hv' := Qabs_within _ _ Hz).
  assert (Hy' := Qabs_within _ _ Hy).
  destruct (zone_in (Pynput.face_zone s) LEFT_COLUMN),
    (zone_in (Pynput.face_zone s) RIGHT_COLUMN),
    (zone_in (Pynput.face_zone s) TOP_ROW),
    (zone_in (Pynput.face_zone s) BOTTOM_ROW);
    unfold Pynput.within_profile; simpl; repeat split; tauto.
Qed.

Lemma within_profile_detect_face (radians : Q -> Q) (faces : list Rect)
    (s : Pynput.State) :
  Pynput.within_profile radians s ->
  Pynput.within_profile radians (Pynput.detect_face faces s).
Proof.
  intros Hw. unfold Pynput.detect_face.
  destruct (negb _); [ exact Hw | ].
  destruct faces as [ | f rest ]; [ exact Hw | ].
  destruct (Pynput.largest_from f rest) as [[[x y] w] h]. exact Hw.
Qed.

Lemma within_profile_cleanup (radians : Q -> Q) (s : Pynput.State) :
  Pynput.within_profile radians s ->
  Pynput.within_profile radians (Pynput.cleanup s).
Proof.
  intros Hw. unfold Pynput.cleanup. simpl.
  assert (H1 : Pynput.within_profile radians (Pynput.cleanup_stop_flags s))
    by exact Hw.
  set (s1 := Pynput.cleanup_stop_flags s) in *. clearbody s1.
  assert (H2 : Pynput.within_profile radians (Pynput.cleanup_stop_listener s1)).
  { unfold Pynput.cleanup_stop_listener.
    destruct (Pynput.keyboard_listener s1); exact H1. }
  set (s2 := Pynput.cleanup_stop_listener s1) in *. clearbody s2.
  assert (H3 : Pynput.within_profile radians (Pynput.cleanup_zero_velocity s2)).
  { unfold Pynput.cleanup_zero_velocity.
    destruct (Pynput.vehicle s2); [ now apply within_profile_zero | exact H2 ]. }
  set (s3 := Pynput.cleanup_zero_velocity s2) in *. clearbody s3.
  assert (H4 : Pynput.within_profile radians (Pynput.cleanup_close_vehicle s3)).
  { unfold Pynput.cleanup_close_vehicle.
    destruct (Pynput.vehicle s3); exact H3. }
  set (s4 := Pynput.cleanup_close_vehicle s3) in *. clearbody s4.
  unfold Pynput.cleanup_release_cap.
  destruct (Pynput.cap s4); exact H4.
Qed.

Lemma within_profile_on_press (radians : Q -> Q) (k : string)
    (s : Pynput.State) :
  Pynput.selects_profile (Pynput.KeyDown k) = false ->
  Pynput.within_profile radians s ->
  Pynput.within_profile radians (Pynput.on_press radians k s).
Proof.
  intros Hk Hw. simpl in Hk.
  apply orb_false_elim in Hk as [Hk H3].
  apply orb_false_elim in Hk as [H1 H2].
  unfold Pynput.on_press. rewrite H1, H2, H3.
  set (s0 := Pynput.with_keys_pressed _ s).
  assert (Hw0 : Pynput.within_profile radians s0) by exact Hw.
  clearbody s0. clear Hw s.
  destruct (String.eqb k "space").
  { simpl. destruct (Pynput.autonomous_enabled s0); simpl.
    - exact (within_profile_zero radians s0 Hw0).
    - exact Hw0. }
  destruct (String.eqb k "t").
  { destruct (Pynput.vehicle s0) as [ v | ].
    - destruct (armed v); exact Hw0.
    - destruct (String.eqb k "l"), (String.eqb k "r"),
        (String.eqb k "esc"), (negb (Pynput.autonomous_enabled s0));
        first [ exact Hw0
              | now apply within_profile_cleanup
              | now apply within_profile_manual_keys ]. }
  destruct (String.eqb k "l").
  { destruct (Pynput.vehicle s0) as [ v | ].
    - exact Hw0.
    - destruct (String.eqb k "r"),
        (String.eqb k "esc"), (negb (Pynput.autonomous_enabled s0));
        first [ exact Hw0
              | now apply within_profile_cleanup
              | now apply within_profile_manual_keys ]. }
  destruct (String.eqb k "r").
  { destruct (Pynput.vehicle s0) as [ v | ].
    - exact Hw0.
    - destruct (String.eqb k "esc"), (negb (Pynput.autonomous_enabled s0));
        first [ exact Hw0
              | now apply within_profile_cleanup
              | now apply within_profile_manual_keys ]. }
  destruct (String.eqb k "esc"), (negb (Pynput.autonomous_enabled s0));
    first [ exact Hw0
          | now apply within_profile_cleanup
          | now apply within_profile_manual_keys ].
Qed.

Lemma within_profile_handle (radians : Q -> Q) (e : Pynput.Event)
    (s : Pynput.State) :
  Pynput.selects_profile e = false ->
  Pynput.within_profile radians s ->
  Pynput.within_profile radians (Pynput.handle radians e s).
Proof.
  intros He Hw. destruct e as [ k | k | faces | b ]; simpl.
  - now apply within_profile_on_press.
  - unfold Pynput.on_release.
    set (s0 := Pynput.with_keys_pressed _ s).
    assert (Hw0 : Pynput.within_profile radians s0) by exact Hw.
    destruct (negb _); [ now apply within_profile_manual_keys | exact Hw0 ].
  - unfold Pynput.main_loop_frame.
    destruct (Pynput.camera_active s); [ | exact Hw ].
    destruct (Pynput.autonomous_enabled s); [ | exact Hw ].
    apply within_profile_autonomous. now apply within_profile_detect_face.
  - unfold Pynput.report_armed.
    destruct (Pynput.vehicle s); exact Hw.
Qed.

Lemma within_profile_run (radians : Q -> Q) (evs : list Pynput.Event) :
  forall s,
    forallb (fun e => negb (Pynput.selects_profile e)) evs = true ->
    Pynput.within_profile radians s ->
    Pynput.within_profile radians (Pynput.run radians evs s).
Proof.
  induction evs as [ | e evs IH ]; intros s Hall Hw; [ exact Hw | ].
  simpl in Hall. apply andb_true_iff in Hall as [He Hall].
  apply negb_true_iff in He.
  change (Pynput.run radians (e :: evs) s)
    with (Pynput.run radians evs (Pynput.handle radians e s)).
  apply IH; [ exact Hall | ].
  now apply within_profile_handle.
Qed.

(** C5 (amended). Over every sequence of key-down and key-up events (and
    of frames and arming reports) in which no flight mode is selected,
    each component of the published command stays bounded in magnitude by
    the corresponding rate of the active profile: |vx|, |vy| <=
    ground_speed, |vz| <= vertical_speed, |yaw| <= radians(yaw_rate).
    Selecting a flight mode does not rescale the command already
    published; the bounds for the new rates hold again from the next
    manual recompute on an armed vehicle. *)
Theorem bounded_between_profile_changes (radians : Q -> Q) :
  (forall evs s,
     forallb (fun e => negb (Pynput.selects_profile e)) evs = true ->
     Pynput.within_profile radians s ->
     Pynput.within_profile radians (Pynput.run radians evs s)) /\
  (forall s,
     Pynput.vehicle_armed s = true ->
     (0 <= Pynput.move_speed s)%Q ->
     (0 <= Pynput.vertical_speed s)%Q ->
     (0 <= radians (Pynput.yaw_rate s))%Q ->
     Pynput.within_profile radians (Pynput.process_manual_keys radians s)).
Proof.
  split.
  - intros evs. apply within_profile_run.
  - apply within_profile_recompute.
Qed.

(** Performance selected, then forward and yaw-right pressed and the
    forward key released: the command stays within the performance
    rates. *)
Lemma bounded_between_profile_changes_witness :
  Pynput.within_profile np_radians
    (Pynput.run np_radians
       [Pynput.KeyDown "w"; Pynput.KeyDown "right"; Pynput.KeyUp "w"]
       (Pynput.on_press np_radians "3" (Pynput.ready true))).
Proof.
  apply (proj1 (bounded_between_profile_changes np_radians)).
  - reflexivity.
  - vm_compute. repeat split; discriminate.
Defined.

(** ** The perception mapper *)


(** In the frame of 640 by 480 a point classified in a side column or in
    the top or bottom row lies beyond the dead zone of 80, resp. 60,
    pixels: on such a point the gated mapper and the mapping by zone
    alone give the same command. *)
Lemma gate_implied_by_zone (ms vs : Q) (x y : Z) :
  let zone := get_face_zone (setup_grid_zones 640 480) x y in
  Simulation.calculate_drone_commands (Simulation.init ms vs) zone (x, y)
  = (0%Q,
     (if zone_in zone LEFT_COLUMN then (- ms)%Q
      else if zone_in zone RIGHT_COLUMN then ms else 0%Q),
     (if zone_in zone TOP_ROW then (- vs)%Q
      else if zone_in zone BOTTOM_ROW then vs else 0%Q),
     0%Q).
Proof.
  unfold Simulation.calculate_drone_commands, Simulation.init. simpl.
  change (640 / 2) with 320. change (480 / 2) with 240.
  change (640 / 3) with 213. change (480 / 3) with 160.
  change (213 * 2) with 426. change (160 * 2) with 320.
  destruct (Z.leb_spec 0 x), (Z.ltb_spec x 213), (Z.leb_spec 213 x),
    (Z.ltb_spec x 426), (Z.leb_spec 426 x), (Z.ltb_spec x 640);
    try lia;
    destruct (Z.leb_spec 0 y), (Z.ltb_spec y 160), (Z.leb_spec 160 y),
      (Z.ltb_spec y 320), (Z.leb_spec 320 y), (Z.ltb_spec y 480);
    try lia; simpl;
    repeat match goal with
      | |- context [?a <? ?b] => destruct (Z.ltb_spec a b); try lia
      end; reflexivity.
Qed.






(** ** Teardown *)

Lemma sent_link_call_close (s : Pynput.State) :
  Pynput.sent (Pynput.cleanup_close_vehicle s) = Pynput.sent s.
Proof.
  unfold Pynput.cleanup_close_vehicle, Pynput.sent.
  destruct (Pynput.vehicle s) as [ v | ] eqn:Hv; simpl.
  - rewrite transmitted_app. simpl. apply app_nil_r.
  - rewrite Hv. reflexivity.
Qed.

(** No statement of [cleanup] transmits a velocity command, and none sets
    [command_active] again. *)
Lemma cleanup_statement_quiet (stmt : Pynput.State -> Pynput.State)
    (s : Pynput.State) :
  In stmt Pynput.cleanup_statements ->
  Pynput.sent (stmt s) = Pynput.sent s /\
  (Pynput.command_active s = false -> Pynput.command_active (stmt s) = false).
Proof.
  unfold Pynput.cleanup_statements. simpl.
  intros [ <- | [ <- | [ <- | [ <- | [ <- | [] ] ] ] ] ].
  - split; reflexivity.
  - unfold Pynput.cleanup_stop_listener.
    destruct (Pynput.keyboard_listener s); split; trivial.
  - unfold Pynput.cleanup_zero_velocity.
    destruct (Pynput.vehicle s) eqn:Hv; split; trivial.
  - split; [ apply sent_link_call_close | ].
    unfold Pynput.cleanup_close_vehicle.
    destruct (Pynput.vehicle s); trivial.
  - unfold Pynput.cleanup_release_cap.
    destruct (Pynput.cap s); split; trivial.
Qed.

(** Once [command_active] is false and the sender is not inside the body
    of its loop, no schedule of the two threads transmits anything. *)
Lemma silent_after_stop (ts : list Pynput.Thread) :
  forall x,
    Pynput.command_active (Pynput.shared x) = false ->
    Pynput.sender x <> Pynput.AtBody ->
    incl (Pynput.pending x) Pynput.cleanup_statements ->
    Pynput.sent (Pynput.shared (Pynput.schedule ts x))
    = Pynput.sent (Pynput.shared x).
Proof.
  induction ts as [ | t ts IH ]; intros x Hc Hpc Hp; [ reflexivity | ].
  change (Pynput.schedule (t :: ts) x)
    with (Pynput.schedule ts (Pynput.schedule_step t x)).
  destruct x as [s pc p]. simpl in *.
  destruct t; simpl.
  - destruct p as [ | stmt rest ]; [ now apply IH | ].
    assert (Hin : In stmt Pynput.cleanup_statements)
      by (apply Hp; left; reflexivity).
    destruct (cleanup_statement_quiet stmt s Hin) as [Hs Hk].
    rewrite IH; simpl.
    + exact Hs.
    + now apply Hk.
    + exact Hpc.
    + intros f Hf. apply Hp. right. exact Hf.
  - destruct pc; simpl.
    + rewrite Hc. rewrite IH; simpl; trivial. discriminate.
    + contradiction.
    + rewrite IH; simpl; trivial. discriminate.
    + rewrite IH; simpl; trivial.
Qed.

(** Whatever the schedule, after the first statement of [cleanup] has run
    with the sender at its loop test, asleep or gone, the commands
    transmitted are those transmitted before: the zero command that
    [cleanup] stores afterwards never reaches the link. *)
Lemma cleanup_transmits_nothing (ts : list Pynput.Thread)
    (pc : Pynput.LoopPc) (s : Pynput.State) :
  pc <> Pynput.AtBody ->
  Pynput.sent
    (Pynput.shared
       (Pynput.schedule (Pynput.MainThread :: ts) (Pynput.enter_cleanup pc s)))
  = Pynput.sent s.
Proof.
  intros Hpc.
  change (Pynput.schedule (Pynput.MainThread :: ts) (Pynput.enter_cleanup pc s))
    with (Pynput.schedule ts
            (Pynput.schedule_step Pynput.MainThread (Pynput.enter_cleanup pc s))).
  rewrite silent_after_stop; simpl.
  - reflexivity.
  - reflexivity.
  - exact Hpc.
  - intros f Hf. right. exact Hf.
Qed.

(** C1 (the code departs from the claim). An armed vehicle, manual mode,
    the forward key held: the sender transmits (3, 0, 0, 0) and goes to
    sleep.  The exit key then runs [cleanup] to its end and the sender
    wakes up and leaves its loop.  The session has finished, the shared
    command is (0, 0, 0, 0), but the only command ever transmitted, and so
    the last one, is (3, 0, 0, 0). *)
Theorem cleanup_last_transmitted_not_zero :
  let s := Pynput.on_press np_radians "w" (Pynput.ready true) in
  let '(pc, s1) := Pynput.command_loop_iteration s in
  let x := Pynput.schedule
             [ Pynput.MainThread; Pynput.MainThread; Pynput.MainThread;
               Pynput.MainThread; Pynput.MainThread; Pynput.SenderThread ]
             (Pynput.enter_cleanup pc s1) in
  Pynput.finished x = true /\
  Pynput.velocity (Pynput.shared x) = (0, 0, 0, 0)%Q /\
  Pynput.sent (Pynput.shared x) = [ (3 # 1, 0, 0, 0)%Q ] /\
  last (Pynput.sent (Pynput.shared x)) = Some (3 # 1, 0, 0, 0)%Q /\
  last (Pynput.sent (Pynput.shared x)) <> Some (0, 0, 0, 0)%Q.
Proof.
  vm_compute. repeat split. discriminate.
Qed.

(** ** Classification outside the frame *)

(** X1. A point outside the frame (left of it, above it, or at or beyond
    its width or height) is in none of the nine rectangles, and
    [get_face_zone] falls back to CENTER. *)
Theorem get_face_zone_outside_frame (W H x y : Z) :
  0 <= W -> 0 <= H ->
  x < 0 \/ W <= x \/ y < 0 \/ H <= y ->
  get_face_zone (setup_grid_zones W H) x y = CENTER.
Proof.
  intros HW HH Hout.
  destruct (third_bounds W HW) as [Hc0 Hc2].
  destruct (third_bounds H HH) as [Hr0 Hr2].
  unfold setup_grid_zones.
  set (cw := W / 3) in *. set (rh := H / 3) in *.
  simpl. zcompare; reflexivity.
Qed.

Lemma get_face_zone_outside_frame_witness :
  get_face_zone (setup_grid_zones 640 480) 640 100 = CENTER.
Proof.
  apply get_face_zone_outside_frame; lia.
Defined.

(** ** The largest face *)

Lemma largest_from_first_max (faces : list Rect) :
  forall best before ties,
    (forall f, In f before -> Pynput.face_area f < Pynput.face_area best) ->
    (forall f, In f ties -> Pynput.face_area f <= Pynput.face_area best) ->
    exists pre post,
      before ++ best :: ties ++ faces
      = pre ++ Pynput.largest_from best faces :: post /\
      (forall f, In f pre ->
         Pynput.face_area f
         < Pynput.face_area (Pynput.largest_from best faces)) /\
      (forall f, In f post ->
         Pynput.face_area f
         <= Pynput.face_area (Pynput.largest_from best faces)).
Proof.
  induction faces as [ | f rest IH ]; intros best before ties Hb Ht.
  - exists before, ties. rewrite app_nil_r. simpl. auto.
  - simpl. destruct (Z.ltb_spec (Pynput.face_area best) (Pynput.face_area f))
      as [Hlt | Hge].
    + destruct (IH f (before ++ best :: ties) []) as (pre & post & He & H1 & H2).
      * intros g Hg. apply in_app_or in Hg as [Hg | [<- | Hg]].
        -- specialize (Hb g Hg). lia.
        -- exact Hlt.
        -- specialize (Ht g Hg). lia.
      * intros g [].
      * exists pre, post. split; [ | split; assumption ].
        rewrite <- He. simpl. rewrite <- app_assoc. reflexivity.
    + destruct (IH best before (ties ++ [f])) as (pre & post & He & H1 & H2).
      * exact Hb.
      * intros g Hg. apply in_app_or in Hg as [Hg | [<- | []]].
        -- exact (Ht g Hg).
        -- exact Hge.
      * exists pre, post. split; [ | split; assumption ].
        rewrite <- He. rewrite <- app_assoc. reflexivity.
Qed.

(** X2. With a cascade loaded and at least one face found,
    [detect_face] records the center of the first face of the largest
    area ([max] with a key): that face occurs in the list of detected
    faces, every face before it is strictly smaller and every face after
    it is not larger. *)
Theorem detect_face_tracks_largest (f : Rect) (rest : list Rect)
    (s : Pynput.State) :
  Pynput.face_cascade s = true ->
  exists pre best post,
    f :: rest = pre ++ best :: post /\
    (forall g, In g pre -> Pynput.face_area g < Pynput.face_area best) /\
    (forall g, In g post -> Pynput.face_area g <= Pynput.face_area best) /\
    Pynput.face_detected (Pynput.detect_face (f :: rest) s) = true /\
    Pynput.face_center (Pynput.detect_face (f :: rest) s)
    = Some (face_center_of best).
Proof.
  intros Hc.
  destruct (largest_from_first_max rest f [] []
              (fun g (H : In g []) => match H with end)
              (fun g (H : In g []) => match H with end))
    as (pre & post & He & H1 & H2).
  exists pre, (Pynput.largest_from f rest), post.
  repeat (split; [ assumption | ]).
  unfold Pynput.detect_face. rewrite Hc. simpl.
  destruct (Pynput.largest_from f rest) as [[[x y] w] h]. split; reflexivity.
Qed.

(** Three faces, the second and third of the same largest area: the
    second is tracked. *)
Lemma detect_face_tracks_largest_witness :
  exists pre best post,
    [ (0, 0, 50, 50); (100, 100, 80, 60); (300, 200, 60, 80) ]
    = pre ++ best :: post /\
    (forall g, In g pre -> Pynput.face_area g < Pynput.face_area best) /\
    (forall g, In g post -> Pynput.face_area g <= Pynput.face_area best) /\
    Pynput.face_detected
      (Pynput.detect_face
         [ (0, 0, 50, 50); (100, 100, 80, 60); (300, 200, 60, 80) ]
         (tracking true)) = true /\
    Pynput.face_center
      (Pynput.detect_face
         [ (0, 0, 50, 50); (100, 100, 80, 60); (300, 200, 60, 80) ]
         (tracking true))
    = Some (face_center_of best).
Proof.
  apply (detect_face_tracks_largest (0, 0, 50, 50)
           [ (100, 100, 80, 60); (300, 200, 60, 80) ] (tracking true)).
  reflexivity.
Defined.

(** ** The branches of on_press *)

Lemma on_press_outcome (radians : Q -> Q) (k : string) (s : Pynput.State) :
  PressOutcome radians k (key_recorded k s) (Pynput.on_press radians k s).
Proof.
  unfold Pynput.on_press. fold (key_recorded k s).
  set (s0 := key_recorded k s). clearbody s0.
  destruct (String.eqb_spec k "space") as [ -> | Hspace ].
  { replace (if negb _ then _ else _) with (toggled s0).
    - now apply PressToggle.
    - unfold toggled. destruct (Pynput.autonomous_enabled s0) eqn:Ha;
        simpl; rewrite ?Ha; reflexivity. }
  destruct (String.eqb_spec k "1") as [ -> | H1 ].
  { apply PressProfile. tauto. }
  destruct (String.eqb_spec k "2") as [ -> | H2 ].
  { apply PressProfile. tauto. }
  destruct (String.eqb_spec k "3") as [ -> | H3 ].
  { apply PressProfile. tauto. }
  destruct (String.eqb_spec k "t") as [ -> | Ht ].
  { destruct (Pynput.vehicle s0) as [ v | ] eqn:Hv.
    - destruct (armed v) eqn:Ha.
      + now apply PressTakeoff.
      + now apply (PressTakeoffDisarmed radians "t" s0 v).
    - simpl. destruct (Pynput.autonomous_enabled s0) eqn:Ha; simpl.
      + apply PressIgnored; try discriminate; auto.
      + apply PressManual; try discriminate; auto. }
  destruct (String.eqb_spec k "l") as [ -> | Hl ].
  { destruct (Pynput.vehicle s0) as [ v | ] eqn:Hv.
    - apply PressFlightMode; [ tauto | exact Hv ].
    - simpl. destruct (Pynput.autonomous_enabled s0) eqn:Ha; simpl.
      + apply PressIgnored; try discriminate; auto.
      + apply PressManual; try discriminate; auto. }
  destruct (String.eqb_spec k "r") as [ -> | Hr ].
  { destruct (Pynput.vehicle s0) as [ v | ] eqn:Hv.
    - apply PressFlightMode; [ tauto | exact Hv ].
    - simpl. destruct (Pynput.autonomous_enabled s0) eqn:Ha; simpl.
      + apply PressIgnored; try discriminate; auto.
      + apply PressManual; try discriminate; auto. }
  destruct (String.eqb_spec k "esc") as [ -> | Hesc ].
  { now apply PressExit. }
  destruct (Pynput.autonomous_enabled s0) eqn:Ha; simpl.
  - apply PressIgnored; auto. intros [ -> | [ -> | -> ] ]; contradiction.
  - apply PressManual; auto. intros [ -> | [ -> | -> ] ]; contradiction.
Qed.

(** Case analysis on the branch that [on_press] takes. *)
Ltac press_cases radians k s :=
  destruct (on_press_outcome radians k s)
    as [ Ok | oname Ok | ov Ok Ov Oa | ov Ok Ov Oa | oname ov Ok Ov | Ok
       | On1 On2 On3 On4 On5 Onone Oauto | On1 On2 On3 On4 On5 Onone Oauto ].

(** ** Autonomous mode *)

Lemma pynput_frame_no_face (s : Pynput.State) :
  Pynput.face_detected s = false ->
  Pynput.velocity (Pynput.calculate_autonomous_commands s) = (0, 0, 0, 0)%Q.
Proof.
  intros H. apply pynput_hold_when_no_target. left. exact H.
Qed.

(** X3. In autonomous mode with the camera running, a frame in which the
    cascade finds no face, and a frame whose largest face is centered in
    the central rectangle of the 640 by 480 grid, both publish
    (0, 0, 0, 0), whatever the command was before. *)
Theorem autonomous_frame_holds (s : Pynput.State) :
  Pynput.camera_active s = true ->
  Pynput.autonomous_enabled s = true ->
  Pynput.face_cascade s = true ->
  Pynput.velocity (Pynput.main_loop_frame [] s) = (0, 0, 0, 0)%Q /\
  (forall f rest x y,
     Pynput.zones s = setup_grid_zones 640 480 ->
     face_center_of (Pynput.largest_from f rest) = (x, y) ->
     213 <= x < 426 -> 160 <= y < 320 ->
     Pynput.velocity (Pynput.main_loop_frame (f :: rest) s) = (0, 0, 0, 0)%Q).
Proof.
  intros Hcam Hauto Hcas. unfold Pynput.main_loop_frame.
  rewrite Hcam, Hauto. split.
  - apply pynput_frame_no_face. unfold Pynput.detect_face.
    rewrite Hcas. reflexivity.
  - intros f rest x y Hz Hc Hx Hy.
    apply pynput_hold_when_no_target. right.
    unfold Pynput.detect_face. rewrite Hcas. simpl.
    destruct (Pynput.largest_from f rest) as [[[fx fy] fw] fh].
    simpl in Hc. injection Hc as -> ->. simpl. rewrite Hz.
    apply (get_face_zone_complete 640 480 x y CENTER 213 160 426 320);
      [ lia | lia | | lia ].
    simpl. do 4 right. left. reflexivity.
Qed.

(** The right key held in manual mode gives a yaw command; autonomous
    mode is entered, and a frame with a face centered at (320, 240)
    replaces the command by zero. *)
Lemma autonomous_frame_holds_witness :
  Pynput.velocity
    (Pynput.main_loop_frame [ (280, 200, 80, 80) ]
       (Pynput.on_press np_radians "space"
          (Pynput.on_press np_radians "right" (tracking true))))
  = (0, 0, 0, 0)%Q.
Proof.
  refine (proj2 (autonomous_frame_holds
                   (Pynput.on_press np_radians "space"
                      (Pynput.on_press np_radians "right" (tracking true)))
                   _ _ _)
            (280, 200, 80, 80) [] 320 240 _ _ _ _).
  - reflexivity.
  - vm_compute. reflexivity.
  - reflexivity.
  - reflexivity.
  - reflexivity.
  - lia.
  - lia.
Defined.

Lemma pynput_update_speeds_face (s : Pynput.State) :
  Pynput.face_detected (Pynput.update_speeds s) = Pynput.face_detected s /\
  Pynput.face_cascade (Pynput.update_speeds s) = Pynput.face_cascade s.
Proof.
  unfold Pynput.update_speeds.
  destruct (String.eqb _ "eco"); [ split; reflexivity | ].
  destruct (String.eqb _ "performance"); split; reflexivity.
Qed.

(** An attribute that no statement of [cleanup] assigns is the same
    after [cleanup]. *)
Lemma cleanup_keeps {A : Type} (proj : Pynput.State -> A) :
  (forall stmt s, In stmt Pynput.cleanup_statements -> proj (stmt s) = proj s) ->
  forall s, proj (Pynput.cleanup s) = proj s.
Proof.
  intros Hstmt. unfold Pynput.cleanup.
  generalize Pynput.cleanup_statements Hstmt. clear Hstmt.
  intros stmts. induction stmts as [ | stmt stmts IH ]; intros Hstmt s.
  - reflexivity.
  - simpl. rewrite IH.
    + apply Hstmt. left. reflexivity.
    + intros f s' Hf. apply Hstmt. right. exact Hf.
Qed.

Ltac cleanup_cases :=
  let H := fresh in
  intros ? ? H; simpl in H;
  repeat (destruct H as [ <- | H ]); [ .. | contradiction ];
  unfold Pynput.cleanup_release_cap, Pynput.cleanup_close_vehicle,
    Pynput.cleanup_zero_velocity, Pynput.cleanup_stop_listener,
    Pynput.cleanup_stop_flags;
  repeat match goal with
    | |- context [match ?x with _ => _ end] => destruct x
    end; reflexivity.

Lemma pynput_cleanup_face (s : Pynput.State) :
  Pynput.face_detected (Pynput.cleanup s) = Pynput.face_detected s /\
  Pynput.face_cascade (Pynput.cleanup s) = Pynput.face_cascade s.
Proof.
  split; apply cleanup_keeps; cleanup_cases.
Qed.

Lemma pynput_manual_keys_face (radians : Q -> Q) (s : Pynput.State) :
  Pynput.face_detected (Pynput.process_manual_keys radians s)
  = Pynput.face_detected s /\
  Pynput.face_cascade (Pynput.process_manual_keys radians s)
  = Pynput.face_cascade s.
Proof.
  unfold Pynput.process_manual_keys.
  destruct (negb _); split; reflexivity.
Qed.

Lemma pynput_on_press_face (radians : Q -> Q) (k : string) (s : Pynput.State) :
  Pynput.face_detected (Pynput.on_press radians k s) = Pynput.face_detected s /\
  Pynput.face_cascade (Pynput.on_press radians k s) = Pynput.face_cascade s.
Proof.
  press_cases radians k s;
    try (split; reflexivity).
  - unfold toggled. destruct (Pynput.autonomous_enabled _); split; reflexivity.
  - destruct (pynput_update_speeds_face
                (Pynput.with_flight_mode oname (key_recorded k s))) as [-> ->].
    split; reflexivity.
  - destruct (pynput_cleanup_face (key_recorded k s)) as [-> ->].
    split; reflexivity.
  - destruct (pynput_manual_keys_face radians (key_recorded k s)) as [-> ->].
    split; reflexivity.
Qed.

Lemma pynput_handle_no_cascade (radians : Q -> Q) (e : Pynput.Event)
    (s : Pynput.State) :
  Pynput.face_cascade s = false ->
  Pynput.face_detected s = false ->
  Pynput.face_cascade (Pynput.handle radians e s) = false /\
  Pynput.face_detected (Pynput.handle radians e s) = false.
Proof.
  intros Hc Hd. destruct e as [ k | k | faces | b ]; simpl.
  - destruct (pynput_on_press_face radians k s) as [-> ->]. auto.
  - unfold Pynput.on_release.
    destruct (negb _); [ | auto ].
    destruct (pynput_manual_keys_face radians
                (Pynput.with_keys_pressed (Pynput.keys_pressed s ∖ {[ k ]}) s))
      as [-> ->]. auto.
  - unfold Pynput.main_loop_frame.
    destruct (Pynput.camera_active s); [ | auto ].
    destruct (Pynput.autonomous_enabled s); [ | auto ].
    unfold Pynput.detect_face. rewrite Hc. simpl.
    unfold Pynput.calculate_autonomous_commands. rewrite Hd. simpl. auto.
  - unfold Pynput.report_armed. destruct (Pynput.vehicle s); auto.
Qed.

(** X4. When no cascade file was loaded, no face is ever detected:
    after any sequence of key events, frames and arming reports
    [face_detected] is still false, and every frame processed in
    autonomous mode publishes (0, 0, 0, 0). *)
Theorem no_cascade_autonomous_holds (radians : Q -> Q)
    (evs : list Pynput.Event) (s : Pynput.State) :
  Pynput.face_cascade s = false ->
  Pynput.face_detected s = false ->
  Pynput.face_detected (Pynput.run radians evs s) = false /\
  (forall faces,
     Pynput.camera_active (Pynput.run radians evs s) = true ->
     Pynput.autonomous_enabled (Pynput.run radians evs s) = true ->
     Pynput.velocity (Pynput.main_loop_frame faces (Pynput.run radians evs s))
     = (0, 0, 0, 0)%Q).
Proof.
  revert s. induction evs as [ | e evs IH ]; intros s Hc Hd.
  - split; [ exact Hd | ]. simpl. intros faces Hcam Ha.
    unfold Pynput.main_loop_frame. rewrite Hcam, Ha.
    apply pynput_frame_no_face. unfold Pynput.detect_face. rewrite Hc.
    exact Hd.
  - change (Pynput.run radians (e :: evs) s)
      with (Pynput.run radians evs (Pynput.handle radians e s)).
    destruct (pynput_handle_no_cascade radians e s Hc Hd) as [Hc' Hd'].
    apply IH; assumption.
Qed.

(** A session whose camera opened but whose cascade files are missing:
    forward is held, AUTONOMOUS is entered, and a frame with a face in the
    top left corner still publishes zero. *)
Lemma no_cascade_autonomous_holds_witness :
  Pynput.velocity
    (Pynput.main_loop_frame [ (10, 10, 60, 60) ]
       (Pynput.run np_radians [ Pynput.KeyDown "w"; Pynput.KeyDown "space" ]
          (start_camera true (Pynput.ready true))))
  = (0, 0, 0, 0)%Q.
Proof.
  refine (proj2 (no_cascade_autonomous_holds np_radians
                   [ Pynput.KeyDown "w"; Pynput.KeyDown "space" ]
                   (start_camera true (Pynput.ready true)) _ _)
            [ (10, 10, 60, 60) ] _ _).
  - reflexivity.
  - reflexivity.
  - vm_compute. reflexivity.
  - vm_compute. reflexivity.
Defined.

(** [cleanup] unfolded on the three attributes it tests. *)
Ltac cleanup_eval s :=
  let Hk := fresh "Hk" in
  let Hv := fresh "Hv" in
  let Hc := fresh "Hc" in
  unfold Pynput.cleanup, Pynput.cleanup_statements; simpl;
  unfold Pynput.cleanup_release_cap, Pynput.cleanup_close_vehicle,
    Pynput.cleanup_zero_velocity, Pynput.cleanup_stop_listener,
    Pynput.cleanup_stop_flags;
  destruct (Pynput.keyboard_listener s) eqn:Hk;
  destruct (Pynput.vehicle s) eqn:Hv;
  destruct (Pynput.cap s) eqn:Hc;
  repeat (progress (simpl; rewrite ?Hk, ?Hv, ?Hc)).

Lemma cleanup_velocity (s : Pynput.State) :
  Pynput.velocity (Pynput.cleanup s)
  = match Pynput.vehicle s with
    | Some _ => (0, 0, 0, 0)%Q
    | None => Pynput.velocity s
    end.
Proof.
  cleanup_eval s; reflexivity.
Qed.

Lemma pynput_manual_keys_mode (radians : Q -> Q) (s : Pynput.State) :
  Pynput.autonomous_enabled (Pynput.process_manual_keys radians s)
  = Pynput.autonomous_enabled s.
Proof.
  unfold Pynput.process_manual_keys. destruct (negb _); reflexivity.
Qed.

Lemma pynput_update_speeds_mode (s : Pynput.State) :
  Pynput.autonomous_enabled (Pynput.update_speeds s)
  = Pynput.autonomous_enabled s.
Proof.
  unfold Pynput.update_speeds.
  destruct (String.eqb _ "eco"); [ reflexivity | ].
  destruct (String.eqb _ "performance"); reflexivity.
Qed.

(** X5. In AUTONOMOUS mode the keyboard has no write authority over the
    command: a key release, and a key press other than the mode toggle
    and the exit key, leave the four fields as they were, armed or not. *)
Theorem autonomous_keys_do_not_write (radians : Q -> Q) (k : string)
    (s : Pynput.State) :
  Pynput.autonomous_enabled s = true ->
  Pynput.velocity (Pynput.on_release radians k s) = Pynput.velocity s /\
  (k <> "space" -> k <> "esc" ->
   Pynput.velocity (Pynput.on_press radians k s) = Pynput.velocity s).
Proof.
  intros Ha. split.
  - unfold Pynput.on_release. simpl. rewrite Ha. reflexivity.
  - intros Hspace Hesc.
    press_cases radians k s; try reflexivity;
      try contradiction.
    + now rewrite pynput_update_speeds_velocity.
    + simpl in *. congruence.
Qed.

(** AUTONOMOUS mode after a zero command: pressing and releasing the
    forward key on the armed vehicle changes nothing. *)
Lemma autonomous_keys_do_not_write_witness :
  Pynput.velocity
    (Pynput.on_press np_radians "w"
       (Pynput.on_press np_radians "space" (Pynput.ready true)))
  = (0, 0, 0, 0)%Q.
Proof.
  refine (proj2 (autonomous_keys_do_not_write np_radians "w"
                   (Pynput.on_press np_radians "space" (Pynput.ready true)) _)
            _ _).
  - vm_compute. reflexivity.
  - discriminate.
  - discriminate.
Defined.

Lemma stays_autonomous_handle (radians : Q -> Q) (e : Pynput.Event)
    (s : Pynput.State) :
  may_leave_autonomous e = false ->
  Pynput.autonomous_enabled s = true ->
  Pynput.current_vx s = 0%Q -> Pynput.current_yaw s = 0%Q ->
  Pynput.autonomous_enabled (Pynput.handle radians e s) = true /\
  Pynput.current_vx (Pynput.handle radians e s) = 0%Q /\
  Pynput.current_yaw (Pynput.handle radians e s) = 0%Q.
Proof.
  intros He Ha Hx Hy. destruct e as [ k | k | faces | b ]; simpl.
  - simpl in He.
    apply orb_false_elim in He as [He Hr].
    apply orb_false_elim in He as [Hsp Hl].
    apply String.eqb_neq in Hsp, Hl, Hr.
    press_cases radians k s; try contradiction.
    + rewrite pynput_update_speeds_mode.
      pose proof (pynput_update_speeds_velocity
                    (Pynput.with_flight_mode oname (key_recorded k s))) as Hv.
      unfold Pynput.velocity in Hv. injection Hv as -> _ _ ->. auto.
    + auto.
    + auto.
    + destruct Ok as [ [-> _] | [-> _] ]; contradiction.
    + pose proof (cleanup_velocity (key_recorded k s)) as Hv.
      rewrite (cleanup_keeps Pynput.autonomous_enabled) by cleanup_cases.
      unfold Pynput.velocity in Hv.
      destruct (Pynput.vehicle (key_recorded k s));
        injection Hv as -> _ _ ->; auto.
    + simpl in *. congruence.
    + auto.
  - unfold Pynput.on_release. simpl. rewrite Ha. simpl. auto.
  - unfold Pynput.main_loop_frame.
    destruct (Pynput.camera_active s); [ | auto ]. rewrite Ha.
    assert (Hd : Pynput.autonomous_enabled (Pynput.detect_face faces s) = true).
    { unfold Pynput.detect_face. destruct (negb _); [ exact Ha | ].
      destruct faces as [ | f rest ]; [ exact Ha | ].
      destruct (Pynput.largest_from f rest) as [[[x y] w] h]. exact Ha. }
    unfold Pynput.calculate_autonomous_commands.
    destruct (negb _ || _); simpl; auto.
  - unfold Pynput.report_armed. destruct (Pynput.vehicle s); auto.
Qed.

(** X6. The perception mapper never commands forward motion or yaw.
    Once a frame has been processed in AUTONOMOUS mode, vx and the yaw
    rate are zero, and they stay zero over every further sequence of
    frames, arming reports and key events that does not contain the mode
    toggle or the land or return key. *)
Theorem autonomous_never_forward_or_yaw (radians : Q -> Q)
    (faces : list Rect) (evs : list Pynput.Event) (s : Pynput.State) :
  Pynput.camera_active s = true ->
  Pynput.autonomous_enabled s = true ->
  forallb (fun e => negb (may_leave_autonomous e)) evs = true ->
  Pynput.current_vx
    (Pynput.run radians evs (Pynput.main_loop_frame faces s)) = 0%Q /\
  Pynput.current_yaw
    (Pynput.run radians evs (Pynput.main_loop_frame faces s)) = 0%Q.
Proof.
  intros Hcam Ha Hall.
  assert (H0 : Pynput.autonomous_enabled (Pynput.main_loop_frame faces s) = true
               /\ Pynput.current_vx (Pynput.main_loop_frame faces s) = 0%Q
               /\ Pynput.current_yaw (Pynput.main_loop_frame faces s) = 0%Q).
  { unfold Pynput.main_loop_frame. rewrite Hcam, Ha.
    assert (Hd : Pynput.autonomous_enabled (Pynput.detect_face faces s) = true).
    { unfold Pynput.detect_face. destruct (negb _); [ exact Ha | ].
      destruct faces as [ | f rest ]; [ exact Ha | ].
      destruct (Pynput.largest_from f rest) as [[[x y] w] h]. exact Ha. }
    unfold Pynput.calculate_autonomous_commands.
    destruct (negb _ || _); simpl; auto. }
  revert H0. generalize (Pynput.main_loop_frame faces s). clear s Hcam Ha.
  induction evs as [ | e evs IH ]; intros s (Ha & Hx & Hy).
  - split; assumption.
  - simpl in Hall. apply andb_true_iff in Hall as [He Hall].
    apply negb_true_iff in He.
    change (Pynput.run radians (e :: evs) s)
      with (Pynput.run radians evs (Pynput.handle radians e s)).
    apply IH; [ exact Hall | ].
    now apply stays_autonomous_handle.
Qed.

(** Forward held on the armed vehicle, then AUTONOMOUS: after a frame with
    a face at the bottom right and more key events the command has no
    forward and no yaw component. *)
Lemma autonomous_never_forward_or_yaw_witness :
  Pynput.current_vx
    (Pynput.run np_radians [ Pynput.KeyDown "right"; Pynput.KeyUp "w" ]
       (Pynput.main_loop_frame [ (500, 400, 60, 60) ]
          (Pynput.run np_radians
             [ Pynput.KeyDown "w"; Pynput.KeyDown "space" ] (tracking true))))
  = 0%Q.
Proof.
  refine (proj1 (autonomous_never_forward_or_yaw np_radians
                   [ (500, 400, 60, 60) ]
                   [ Pynput.KeyDown "right"; Pynput.KeyUp "w" ]
                   (Pynput.run np_radians
                      [ Pynput.KeyDown "w"; Pynput.KeyDown "space" ]
                      (tracking true)) _ _ _)).
  - vm_compute. reflexivity.
  - vm_compute. reflexivity.
  - reflexivity.
Defined.

(** ** Releasing keys *)

(** X7. In MANUAL mode with the vehicle armed, releasing a key after
    which none of the eight movement keys is held publishes
    (0, 0, 0, 0): letting go of the last key stops the vehicle. *)
Theorem release_last_key_stops (radians : Q -> Q) (k : string)
    (s : Pynput.State) :
  Pynput.vehicle_armed s = true ->
  Pynput.autonomous_enabled s = false ->
  (forall m, In m PYNPUT_MOVEMENT_KEYS -> m ∈ Pynput.keys_pressed s -> m = k) ->
  Pynput.velocity (Pynput.on_release radians k s) = (0, 0, 0, 0)%Q.
Proof.
  intros Harm Hman Hlast.
  assert (Hno : forall m, In m PYNPUT_MOVEMENT_KEYS ->
                 bool_decide (m ∈ Pynput.keys_pressed s ∖ {[ k ]}) = false).
  { intros m Hm. apply bool_decide_eq_false_2. intros Hin.
    apply elem_of_difference in Hin as [Hin Hne].
    apply Hne. apply elem_of_singleton. now apply Hlast. }
  unfold Pynput.on_release. simpl. rewrite Hman. simpl.
  unfold Pynput.process_manual_keys, Pynput.pressed.
  change (Pynput.vehicle_armed
            (Pynput.with_keys_pressed (Pynput.keys_pressed s ∖ {[ k ]}) s))
    with (Pynput.vehicle_armed s).
  rewrite Harm. simpl.
  rewrite !Hno by (simpl; tauto). reflexivity.
Qed.

(** Forward pressed and released on the armed vehicle. *)
Lemma release_last_key_stops_witness :
  Pynput.velocity
    (Pynput.on_release np_radians "w"
       (Pynput.on_press np_radians "w" (Pynput.ready true)))
  = (0, 0, 0, 0)%Q.
Proof.
  apply release_last_key_stops.
  - reflexivity.
  - reflexivity.
  - intros m Hm Hin. simpl in Hin.
    apply elem_of_union in Hin as [Hin | Hin].
    + now apply elem_of_singleton in Hin.
    + now apply elem_of_empty in Hin.
Defined.

(** ** Rates and selected flight mode *)









(** ** Calls on the link *)

Lemma sent_cleanup (s : Pynput.State) :
  Pynput.sent (Pynput.cleanup s) = Pynput.sent s.
Proof.
  unfold Pynput.cleanup.
  assert (H : forall stmts s0,
             incl stmts Pynput.cleanup_statements ->
             Pynput.sent (fold_left (fun acc stmt => stmt acc) stmts s0)
             = Pynput.sent s0).
  { induction stmts as [ | stmt stmts IH ]; intros s0 Hin; [ reflexivity | ].
    simpl. rewrite IH.
    - apply cleanup_statement_quiet. apply Hin. left. reflexivity.
    - intros f Hf. apply Hin. right. exact Hf. }
  apply H. intros f Hf. exact Hf.
Qed.

Lemma sent_manual_keys (radians : Q -> Q) (s : Pynput.State) :
  Pynput.sent (Pynput.process_manual_keys radians s) = Pynput.sent s.
Proof.
  unfold Pynput.process_manual_keys. destruct (negb _); reflexivity.
Qed.

Lemma sent_update_speeds (s : Pynput.State) :
  Pynput.sent (Pynput.update_speeds s) = Pynput.sent s.
Proof.
  unfold Pynput.update_speeds.
  destruct (String.eqb _ "eco"); [ reflexivity | ].
  destruct (String.eqb _ "performance"); reflexivity.
Qed.

Lemma sent_handle (radians : Q -> Q) (e : Pynput.Event) (s : Pynput.State) :
  Pynput.sent (Pynput.handle radians e s) = Pynput.sent s.
Proof.
  destruct e as [ k | k | faces | b ]; simpl.
  - press_cases radians k s; try reflexivity.
    + unfold toggled. destruct (Pynput.autonomous_enabled _); reflexivity.
    + now rewrite sent_update_speeds.
    + unfold Pynput.sent. simpl in *. rewrite Ov. simpl.
      rewrite transmitted_app. simpl. apply app_nil_r.
    + unfold Pynput.sent. simpl in *. rewrite Ov. simpl.
      rewrite transmitted_app. simpl. apply app_nil_r.
    + now rewrite sent_cleanup.
    + now rewrite sent_manual_keys.
  - unfold Pynput.on_release. destruct (negb _); [ | reflexivity ].
    now rewrite sent_manual_keys.
  - unfold Pynput.main_loop_frame.
    destruct (Pynput.camera_active s); [ | reflexivity ].
    destruct (Pynput.autonomous_enabled s); [ | reflexivity ].
    unfold Pynput.calculate_autonomous_commands.
    assert (Hd : Pynput.sent (Pynput.detect_face faces s) = Pynput.sent s).
    { unfold Pynput.detect_face. destruct (negb _); [ reflexivity | ].
      destruct faces as [ | f rest ]; [ reflexivity | ].
      destruct (Pynput.largest_from f rest) as [[[x y] w] h]. reflexivity. }
    destruct (negb _ || _); exact Hd.
  - unfold Pynput.report_armed, Pynput.sent.
    destruct (Pynput.vehicle s) as [ v | ] eqn:Hv; simpl; rewrite ?Hv;
      reflexivity.
Qed.

(** X8. No key handler and no frame of the main loop transmits a
    velocity command: over every sequence of key events, frames and arming
    reports the list of commands transmitted on the link is unchanged.
    Only the sender loop transmits. *)
Theorem handlers_never_transmit (radians : Q -> Q) (evs : list Pynput.Event) :
  forall s, Pynput.sent (Pynput.run radians evs s) = Pynput.sent s.
Proof.
  induction evs as [ | e evs IH ]; intros s; [ reflexivity | ].
  change (Pynput.run radians (e :: evs) s)
    with (Pynput.run radians evs (Pynput.handle radians e s)).
  rewrite IH. apply sent_handle.
Qed.

(** X9. Takeoff is requested only on an armed vehicle.  While the
    vehicle is absent or not armed the takeoff key makes no call on the
    link; on an armed vehicle it requests a takeoff to 3.0 m, in either
    control mode.  A key other than takeoff, land, return and exit never
    makes a call on the link. *)
Theorem takeoff_only_when_armed (radians : Q -> Q) (s : Pynput.State) :
  (Pynput.vehicle_armed s = false ->
   Pynput.vehicle (Pynput.on_press radians "t" s) = Pynput.vehicle s) /\
  (forall v, Pynput.vehicle s = Some v -> armed v = true ->
   Pynput.vehicle (Pynput.on_press radians "t" s)
   = Some (link_call (SimpleTakeoff (3 # 1)) v)) /\
  (forall k, k <> "t" -> k <> "l" -> k <> "r" -> k <> "esc" ->
   Pynput.vehicle (Pynput.on_press radians k s) = Pynput.vehicle s).
Proof.
  assert (Hm : forall s0, Pynput.vehicle (Pynput.process_manual_keys radians s0)
                          = Pynput.vehicle s0).
  { intros s0. unfold Pynput.process_manual_keys.
    destruct (negb _); reflexivity. }
  assert (Hu : forall s0, Pynput.vehicle (Pynput.update_speeds s0)
                          = Pynput.vehicle s0).
  { intros s0. unfold Pynput.update_speeds.
    destruct (String.eqb _ "eco"); [ reflexivity | ].
    destruct (String.eqb _ "performance"); reflexivity. }
  split; [ | split ].
  - intros Ha. unfold Pynput.vehicle_armed in Ha.
    press_cases radians "t" s; try solve [ intuition congruence ].
    + simpl in *. rewrite Ov in Ha. congruence.
    + now rewrite Hm.
  - intros v Hv Ha.
    press_cases radians "t" s; try solve [ intuition congruence ];
      simpl in *.
    + congruence.
    + congruence.
    + rewrite Onone in Hv by tauto. discriminate.
    + rewrite Onone in Hv by tauto. discriminate.
  - intros k Ht Hl Hr Hesc.
    press_cases radians k s; try solve [ intuition congruence ].
    + unfold toggled. destruct (Pynput.autonomous_enabled _); reflexivity.
    + now rewrite Hu.
    + now rewrite Hm.
Qed.

(** The takeoff key on a disarmed and on an armed vehicle. *)
Lemma takeoff_only_when_armed_witness :
  Pynput.vehicle (Pynput.on_press np_radians "t" (Pynput.ready false))
  = Pynput.vehicle (Pynput.ready false) /\
  Pynput.vehicle (Pynput.on_press np_radians "t" (Pynput.ready true))
  = Some {| armed := true; mode := "GUIDED";
            calls := [ SimpleTakeoff (3 # 1) ] |}.
Proof.
  split.
  - apply (proj1 (takeoff_only_when_armed np_radians (Pynput.ready false))).
    reflexivity.
  - apply (proj1 (proj2 (takeoff_only_when_armed np_radians
                           (Pynput.ready true)))
             {| armed := true; mode := "GUIDED"; calls := [] |});
      reflexivity.
Defined.

(** X10. The land and return keys hand the vehicle to LAND or RTL and
    clear [autonomous_enabled], but they do not touch the shared command:
    on an armed vehicle the next tick of the sender transmits the command
    that was published before the key. *)
Theorem land_key_keeps_streaming (radians : Q -> Q) (k name : string)
    (s : Pynput.State) (v : Vehicle) :
  (k = "l" /\ name = "LAND") \/ (k = "r" /\ name = "RTL") ->
  Pynput.vehicle s = Some v ->
  Pynput.vehicle (Pynput.on_press radians k s) = Some (assign_mode name v) /\
  Pynput.autonomous_enabled (Pynput.on_press radians k s) = false /\
  Pynput.velocity (Pynput.on_press radians k s) = Pynput.velocity s /\
  (armed v = true ->
   Pynput.sent (Pynput.command_loop_body (Pynput.on_press radians k s))
   = Pynput.sent s ++ [ Pynput.velocity s ]).
Proof.
  intros Hk Hv.
  assert (He : Pynput.on_press radians k s
               = Pynput.with_autonomous_enabled false
                   (Pynput.with_vehicle (Some (assign_mode name v))
                      (key_recorded k s))).
  { press_cases radians k s; try solve [ intuition congruence ].
    - simpl in Ov. rewrite Hv in Ov. injection Ov as <-.
      destruct Hk as [ [-> ->] | [-> ->] ];
        destruct Ok as [ [Ok ->] | [Ok ->] ]; try discriminate; reflexivity.
    - simpl in Onone. rewrite Onone in Hv by tauto. discriminate.
    - simpl in Onone. rewrite Onone in Hv by tauto. discriminate. }
  rewrite He. repeat split.
  intros Ha. unfold Pynput.command_loop_body, Pynput.sent. simpl.
  rewrite Ha, Hv. simpl. rewrite !transmitted_app. simpl.
  rewrite app_nil_r. reflexivity.
Qed.

(** Forward held on the armed vehicle, then the land key: the next tick
    still transmits (3, 0, 0, 0). *)
Lemma land_key_keeps_streaming_witness :
  Pynput.sent
    (Pynput.command_loop_body
       (Pynput.on_press np_radians "l"
          (Pynput.on_press np_radians "w" (Pynput.ready true))))
  = [ (3 # 1, 0, 0, 0)%Q ].
Proof.
  refine (proj2 (proj2 (proj2
            (land_key_keeps_streaming np_radians "l" "LAND"
               (Pynput.on_press np_radians "w" (Pynput.ready true))
               {| armed := true; mode := "GUIDED"; calls := [] |} _ _))) _).
  - left. split; reflexivity.
  - reflexivity.
  - reflexivity.
Defined.

(** ** What cleanup leaves behind *)

(** X11. After [cleanup] the sender and the camera loop are told to
    stop, a started listener is stopped, and nothing was transmitted.
    With a vehicle connected the shared command is (0, 0, 0, 0) and the
    link has been closed, once per call: a second [cleanup], as after the
    exit key, closes it again.  Without a vehicle the command is kept. *)
Theorem cleanup_postcondition (s : Pynput.State) :
  Pynput.command_active (Pynput.cleanup s) = false /\
  Pynput.camera_active (Pynput.cleanup s) = false /\
  Pynput.sent (Pynput.cleanup s) = Pynput.sent s /\
  (forall b, Pynput.keyboard_listener s = Some b ->
     Pynput.keyboard_listener (Pynput.cleanup s) = Some false) /\
  (forall v, Pynput.vehicle s = Some v ->
     Pynput.velocity (Pynput.cleanup s) = (0, 0, 0, 0)%Q /\
     Pynput.vehicle (Pynput.cleanup s) = Some (link_call Close v) /\
     Pynput.vehicle (Pynput.cleanup (Pynput.cleanup s))
     = Some (link_call Close (link_call Close v))) /\
  (Pynput.vehicle s = None ->
     Pynput.velocity (Pynput.cleanup s) = Pynput.velocity s /\
     Pynput.vehicle (Pynput.cleanup s) = None).
Proof.
  assert (Hveh : forall s0,
             Pynput.vehicle (Pynput.cleanup s0)
             = match Pynput.vehicle s0 with
               | Some v => Some (link_call Close v)
               | None => None
               end).
  { intros s0. cleanup_eval s0; reflexivity. }
  split; [ cleanup_eval s; reflexivity | ].
  split; [ cleanup_eval s; reflexivity | ].
  split; [ apply sent_cleanup | ].
  split.
  { intros b Hb. cleanup_eval s; congruence. }
  split.
  - intros v Hv. rewrite cleanup_velocity, !Hveh, Hv. auto.
  - intros Hv. rewrite cleanup_velocity, Hveh, Hv. auto.
Qed.

(** Forward held on the armed vehicle, then [cleanup]. *)
Lemma cleanup_postcondition_witness :
  Pynput.velocity
    (Pynput.cleanup (Pynput.on_press np_radians "w" (Pynput.ready true)))
  = (0, 0, 0, 0)%Q /\
  Pynput.keyboard_listener
    (Pynput.cleanup (Pynput.on_press np_radians "w" (Pynput.ready true)))
  = Some false.
Proof.
  pose proof (cleanup_postcondition
                (Pynput.on_press np_radians "w" (Pynput.ready true)))
    as (_ & _ & _ & Hl & Hv & _).
  split.
  - apply (Hv {| armed := true; mode := "GUIDED"; calls := [] |}).
    reflexivity.
  - apply (Hl true). reflexivity.
Defined.

(** ** Diagonal motion *)

(** X12. The horizontal axes are scaled independently.  With forward and
    right held and backward not held on an armed vehicle, the recompute
    publishes vx = vy = ground_speed, so the squared horizontal speed is
    twice the squared ground speed and exceeds it. *)
Theorem diagonal_exceeds_ground_speed (radians : Q -> Q) (s : Pynput.State) :
  Pynput.vehicle_armed s = true ->
  Pynput.pressed "w" s = true -> Pynput.pressed "s" s = false ->
  Pynput.pressed "d" s = true ->
  (0 < Pynput.move_speed s)%Q ->
  let s' := Pynput.process_manual_keys radians s in
  Pynput.current_vx s' = Pynput.move_speed s /\
  Pynput.current_vy s' = Pynput.move_speed s /\
  (Pynput.move_speed s * Pynput.move_speed s
   < Pynput.current_vx s' * Pynput.current_vx s'
     + Pynput.current_vy s' * Pynput.current_vy s')%Q.
Proof.
  intros Ha Hw Hs Hd Hpos s'.
  pose proof (pynput_both_held radians s Ha) as Hv.
  rewrite Hw, Hs, Hd in Hv. unfold Pynput.velocity in Hv. fold s' in Hv.
  injection Hv as -> -> _ _.
  split; [ reflexivity | ]. split; [ reflexivity | ].
  set (m := Pynput.move_speed s) in *.
  assert (Hmm : (0 < m * m)%Q) by now apply Qmult_lt_0_compat.
  apply Qle_lt_trans with (0 + m * m)%Q.
  - rewrite Qplus_0_l. apply Qle_refl.
  - apply Qplus_lt_le_compat; [ exact Hmm | apply Qle_refl ].
Qed.

(** Forward and right on the armed vehicle, standard profile: the
    command is (3, 3, 0, 0). *)
Lemma diagonal_exceeds_ground_speed_witness :
  let s := Pynput.on_press np_radians "d"
             (Pynput.on_press np_radians "w" (Pynput.ready true)) in
  Pynput.current_vx (Pynput.process_manual_keys np_radians s) = (3 # 1)%Q /\
  Pynput.current_vy (Pynput.process_manual_keys np_radians s) = (3 # 1)%Q.
Proof.
  intros s.
  destruct (diagonal_exceeds_ground_speed np_radians s) as (Hx & Hy & _);
    try (vm_compute; reflexivity).
  split; [ exact Hx | exact Hy ].
Defined.

(** ** The sender left to itself *)

Lemma body_keeps (s : Pynput.State) :
  Pynput.command_active (Pynput.command_loop_body s) = Pynput.command_active s /\
  Pynput.velocity (Pynput.command_loop_body s) = Pynput.velocity s /\
  Pynput.vehicle_armed (Pynput.command_loop_body s) = Pynput.vehicle_armed s.
Proof.
  unfold Pynput.command_loop_body, Pynput.vehicle_armed.
  destruct (Pynput.vehicle s) as [ v | ] eqn:Hv; [ | rewrite Hv; auto ].
  destruct (armed v) eqn:Ha; simpl; rewrite ?Hv, ?Ha; auto.
Qed.

Lemma body_sent (s : Pynput.State) :
  Pynput.sent (Pynput.command_loop_body s)
  = if Pynput.vehicle_armed s then Pynput.sent s ++ [ Pynput.velocity s ]
    else Pynput.sent s.
Proof.
  unfold Pynput.command_loop_body, Pynput.vehicle_armed, Pynput.sent.
  destruct (Pynput.vehicle s) as [ v | ] eqn:Hv; [ | rewrite Hv; reflexivity ].
  destruct (armed v) eqn:Ha; simpl; rewrite ?Hv; [ | reflexivity ].
  rewrite transmitted_app. reflexivity.
Qed.

Lemma iterations_step (n : nat) (s : Pynput.State) :
  Pynput.command_active s = true ->
  Sender.iterations (S n) s = Sender.iterations n (Pynput.command_loop_body s).
Proof.
  intros Hc. simpl. unfold Pynput.command_loop_iteration. simpl.
  rewrite Hc. reflexivity.
Qed.

(** X13. While [command_active] holds the sender never leaves its loop,
    and it does not wait for new events: over [n] iterations on an armed
    vehicle it transmits the unchanged command [n] times, and on an
    absent or disarmed vehicle it transmits nothing and changes
    nothing. *)
Theorem sender_resends_each_tick (n : nat) :
  forall s,
    Pynput.command_active s = true ->
    fst (Sender.iterations n s) = Pynput.AtWhile /\
    Pynput.velocity (snd (Sender.iterations n s)) = Pynput.velocity s /\
    (Pynput.vehicle_armed s = true ->
     Pynput.sent (snd (Sender.iterations n s))
     = Pynput.sent s ++ repeat (Pynput.velocity s) n) /\
    (Pynput.vehicle_armed s = false -> snd (Sender.iterations n s) = s).
Proof.
  induction n as [ | n IH ]; intros s Hc.
  - simpl. repeat split; auto. intros _. now rewrite app_nil_r.
  - rewrite iterations_step by exact Hc.
    destruct (body_keeps s) as (Kc & Kv & Ka).
    destruct (IH (Pynput.command_loop_body s)) as (I1 & I2 & I3 & I4).
    { now rewrite Kc. }
    split; [ exact I1 | ]. split; [ now rewrite I2 | ]. split.
    + intros Ha. rewrite I3 by now rewrite Ka.
      rewrite body_sent, Ha, Kv. rewrite <- app_assoc. reflexivity.
    + intros Ha. rewrite I4 by now rewrite Ka.
      now apply pynput_body_disarmed.
Qed.

(** Three ticks with forward held on the armed vehicle. *)
Lemma sender_resends_each_tick_witness :
  Pynput.sent
    (snd (Sender.iterations 3
            (Pynput.on_press np_radians "w" (Pynput.ready true))))
  = [ (3 # 1, 0, 0, 0)%Q; (3 # 1, 0, 0, 0)%Q; (3 # 1, 0, 0, 0)%Q ].
Proof.
  refine (proj1 (proj2 (proj2
            (sender_resends_each_tick 3
               (Pynput.on_press np_radians "w" (Pynput.ready true)) _))) _).
  - reflexivity.
  - reflexivity.
Defined.

(** X14. Once [command_active] is false the sender leaves its loop within
    three steps, wherever it stands, and stays out.  It transmits at most
    the one command of a body it had already entered; from the loop test
    or the sleep it transmits nothing. *)
Theorem sender_exits_after_stop (pc : Pynput.LoopPc) (s : Pynput.State)
    (n : nat) :
  Pynput.command_active s = false ->
  fst (Sender.steps (3 + n) pc s) = Pynput.Exited /\
  (pc <> Pynput.AtBody -> snd (Sender.steps (3 + n) pc s) = s) /\
  (pc = Pynput.AtBody ->
   snd (Sender.steps (3 + n) pc s) = Pynput.command_loop_body s).
Proof.
  intros Hc.
  assert (Hex : forall m s0, Sender.steps m Pynput.Exited s0
                             = (Pynput.Exited, s0)).
  { induction m as [ | m IH ]; intros s0; [ reflexivity | ]. simpl. apply IH. }
  destruct (body_keeps s) as (Kc & _ & _).
  destruct pc; simpl; rewrite ?Hc, ?Kc, ?Hc; simpl; rewrite ?Hex; simpl;
    repeat split; congruence.
Qed.

(** The sender asleep when [cleanup] has run: it exits and the object is
    as [cleanup] left it. *)
Lemma sender_exits_after_stop_witness :
  Sender.steps 3 Pynput.AtSleep
    (Pynput.cleanup (Pynput.on_press np_radians "w" (Pynput.ready true)))
  = (Pynput.Exited,
     Pynput.cleanup (Pynput.on_press np_radians "w" (Pynput.ready true))).
Proof.
  pose proof (sender_exits_after_stop Pynput.AtSleep
                (Pynput.cleanup
                   (Pynput.on_press np_radians "w" (Pynput.ready true)))
                0 eq_refl) as (H1 & H2 & _).
  specialize (H2 ltac:(discriminate)).
  simpl plus in H1, H2.
  destruct (Sender.steps 3 Pynput.AtSleep _) as [pc s']. simpl in H1, H2.
  now subst.
Defined.

(** ** The tkinter key handlers *)

Lemma key_held_insert (k m : string) (b : bool) (s : Tkinter.State) :
  Tkinter.key_held m
    (Tkinter.with_keyboard_state (<[ k := b ]> (Tkinter.keyboard_state s)) s)
  = if String.eqb k m then b else Tkinter.key_held m s.
Proof.
  unfold Tkinter.key_held. simpl.
  destruct (String.eqb_spec k m) as [ -> | Hne ].
  - now rewrite lookup_insert_eq.
  - now rewrite lookup_insert_ne.
Qed.

(** After the bookkeeping of [key_release], the released key is not held
    and the other keys are as before. *)
Lemma key_held_after_release (k m : string) (s : Tkinter.State) :
  Tkinter.key_held m
    match Tkinter.keyboard_state s !! k with
    | Some _ =>
        Tkinter.with_keyboard_state
          (<[ k := false ]> (Tkinter.keyboard_state s)) s
    | None => s
    end
  = if String.eqb k m then false else Tkinter.key_held m s.
Proof.
  destruct (Tkinter.keyboard_state s !! k) as [ b | ] eqn:Hk.
  - apply key_held_insert.
  - destruct (String.eqb_spec k m) as [ <- | Hne ]; [ | reflexivity ].
    unfold Tkinter.key_held. now rewrite Hk.
Qed.

Lemma release_bookkeeping_mode (k : string) (s : Tkinter.State) :
  Tkinter.autonomous_enabled
    match Tkinter.keyboard_state s !! k with
    | Some _ =>
        Tkinter.with_keyboard_state
          (<[ k := false ]> (Tkinter.keyboard_state s)) s
    | None => s
    end
  = Tkinter.autonomous_enabled s /\
  Tkinter.velocity
    match Tkinter.keyboard_state s !! k with
    | Some _ =>
        Tkinter.with_keyboard_state
          (<[ k := false ]> (Tkinter.keyboard_state s)) s
    | None => s
    end
  = Tkinter.velocity s.
Proof.
  destruct (Tkinter.keyboard_state s !! k); split; reflexivity.
Qed.

(** X15. In the tkinter script a key release never recomputes the
    command: it leaves it as it was or zeroes it.  In MANUAL mode the
    release of a movement key after which no movement key is held zeroes
    it, armed or not; while another movement key is still held the
    command keeps the component of the released key. *)
Theorem tkinter_release_only_stops (k : string) (s : Tkinter.State) :
  (Tkinter.velocity (TkinterInput.key_release k s) = Tkinter.velocity s \/
   Tkinter.velocity (TkinterInput.key_release k s) = (0, 0, 0, 0)%Q) /\
  (Tkinter.autonomous_enabled s = false ->
   In k TkinterInput.movement_keys ->
   (forall m, In m TkinterInput.movement_keys ->
              Tkinter.key_held m s = true -> m = k) ->
   Tkinter.velocity (TkinterInput.key_release k s) = (0, 0, 0, 0)%Q) /\
  (forall m, In m TkinterInput.movement_keys -> m <> k ->
             Tkinter.key_held m s = true ->
   Tkinter.velocity (TkinterInput.key_release k s) = Tkinter.velocity s).
Proof.
  unfold TkinterInput.key_release.
  destruct (release_bookkeeping_mode k s) as [Hm Hv].
  set (s0 := match Tkinter.keyboard_state s !! k with
             | Some _ => _ | None => s end) in *.
  assert (Hheld : forall m, Tkinter.key_held m s0
                            = if String.eqb k m then false
                              else Tkinter.key_held m s)
    by (intros m; apply key_held_after_release).
  clearbody s0. rewrite Hm.
  split; [ | split ].
  - destruct (negb _); [ | now left ].
    destruct (TkinterInput.is_movement_key k); [ | now left ].
    destruct (negb _); [ now right | now left ].
  - intros Hman Hk Hlast. rewrite Hman. simpl.
    assert (Hmk : TkinterInput.is_movement_key k = true).
    { unfold TkinterInput.is_movement_key. apply existsb_exists.
      exists k. split; [ exact Hk | apply String.eqb_refl ]. }
    rewrite Hmk.
    assert (Hany : TkinterInput.any_movement_key_held s0 = false).
    { unfold TkinterInput.any_movement_key_held.
      destruct (existsb _ _) eqn:He; [ | reflexivity ].
      apply existsb_exists in He as (m & Hin & Hm0).
      rewrite Hheld in Hm0.
      destruct (String.eqb_spec k m) as [ _ | Hne ]; [ discriminate | ].
      exfalso. apply Hne. symmetry. now apply Hlast. }
    rewrite Hany. reflexivity.
  - intros m Hin Hne Hm0.
    destruct (negb _); [ | exact Hv ].
    destruct (TkinterInput.is_movement_key k); [ | exact Hv ].
    assert (Hany : TkinterInput.any_movement_key_held s0 = true).
    { unfold TkinterInput.any_movement_key_held. apply existsb_exists.
      exists m. split; [ exact Hin | ]. rewrite Hheld.
      destruct (String.eqb_spec k m) as [ E | _ ]; [ | exact Hm0 ].
      now subst. }
    rewrite Hany. exact Hv.
Qed.

(** Forward and right pressed on the armed vehicle, command (3, 3, 0, 0):
    releasing forward keeps (3, 3, 0, 0); releasing right as well gives
    zero. *)
Lemma tkinter_release_only_stops_witness :
  let s := TkinterInput.key_press np_radians "d"
             (TkinterInput.key_press np_radians "w"
                (TkinterInput.ready true)) in
  Tkinter.velocity (TkinterInput.key_release "w" s) = (3 # 1, 3 # 1, 0, 0)%Q /\
  Tkinter.velocity
    (TkinterInput.key_release "d" (TkinterInput.key_release "w" s))
  = (0, 0, 0, 0)%Q.
Proof.
  intros s. split.
  - refine (proj2 (proj2 (tkinter_release_only_stops "w" s)) "d" _ _ _).
    + simpl. tauto.
    + discriminate.
    + vm_compute. reflexivity.
  - refine (proj1 (proj2 (tkinter_release_only_stops "d"
                            (TkinterInput.key_release "w" s))) _ _ _).
    + vm_compute. reflexivity.
    + simpl. tauto.
    + intros m Hin Hheld. simpl in Hin.
      repeat (destruct Hin as [ <- | Hin ];
              [ first [ reflexivity | vm_compute in Hheld; discriminate ] | ]).
      contradiction.
Defined.

(** X16. In the tkinter script the toggle into MANUAL zeroes the command
    and then recomputes it from the keys that are held: with the vehicle
    armed and forward held (backward not), the call returns with
    vx = ground_speed; with the vehicle absent or disarmed it returns
    with (0, 0, 0, 0). *)
Theorem tkinter_toggle_recomputes (radians : Q -> Q) (s : Tkinter.State) :
  Tkinter.autonomous_enabled s = true ->
  Tkinter.autonomous_enabled (TkinterInput.key_press radians "space" s)
  = false /\
  (Tkinter.vehicle_armed s = true ->
   Tkinter.key_held "w" s = true -> Tkinter.key_held "s" s = false ->
   Tkinter.current_vx (TkinterInput.key_press radians "space" s)
   = Tkinter.move_speed s) /\
  (Tkinter.vehicle_armed s = false ->
   Tkinter.velocity (TkinterInput.key_press radians "space" s)
   = (0, 0, 0, 0)%Q).
Proof.
  intros Hauto. unfold TkinterInput.key_press. simpl. rewrite Hauto. simpl.
  set (s1 := Tkinter.stop_movement _).
  assert (Harm : Tkinter.vehicle_armed s1 = Tkinter.vehicle_armed s)
    by reflexivity.
  split; [ | split ].
  - unfold Tkinter.process_manual_control. destruct (negb _); reflexivity.
  - intros Ha Hw Hs.
    pose proof (tkinter_both_held radians s1) as Hv.
    rewrite Harm in Hv. specialize (Hv Ha).
    unfold Tkinter.velocity in Hv. injection Hv as Hx _ _ _.
    rewrite Hx.
    assert (Hw1 : Tkinter.key_held "w" s1 = true).
    { unfold s1, Tkinter.stop_movement. 
      change (Tkinter.key_held "w" _)
        with (Tkinter.key_held "w"
                (Tkinter.with_keyboard_state
                   (<[ "space" := true ]> (Tkinter.keyboard_state s)) s)).
      rewrite key_held_insert. exact Hw. }
    assert (Hs1 : Tkinter.key_held "s" s1 = false).
    { unfold s1, Tkinter.stop_movement.
      change (Tkinter.key_held "s" _)
        with (Tkinter.key_held "s"
                (Tkinter.with_keyboard_state
                   (<[ "space" := true ]> (Tkinter.keyboard_state s)) s)).
      rewrite key_held_insert. exact Hs. }
    rewrite Hs1, Hw1. reflexivity.
  - intros Ha. rewrite tkinter_manual_control_disarmed; [ reflexivity | ].
    now rewrite Harm.
Qed.

(** Forward pressed, AUTONOMOUS entered and left again with the key still
    held: the armed vehicle is commanded forward at once. *)
Lemma tkinter_toggle_recomputes_witness :
  Tkinter.current_vx
    (TkinterInput.key_press np_radians "space"
       (TkinterInput.key_press np_radians "space"
          (TkinterInput.key_press np_radians "w" (TkinterInput.ready true))))
  = (3 # 1)%Q.
Proof.
  refine (proj1 (proj2 (tkinter_toggle_recomputes np_radians
                          (TkinterInput.key_press np_radians "space"
                             (TkinterInput.key_press np_radians "w"
                                (TkinterInput.ready true))) _)) _ _ _);
    vm_compute; reflexivity.
Defined.

(** X17. The manual recompute of the two scripts is the same function of
    the held keys: when the rates agree, both vehicles are armed, and the
    eight keys are held alike (the arrow keys are "left" and "right" in
    one script, "Left" and "Right" in the other), both publish the same
    command. *)
Theorem manual_recompute_agrees (radians : Q -> Q) (p : Pynput.State)
    (t : Tkinter.State) :
  Pynput.vehicle_armed p = true -> Tkinter.vehicle_armed t = true ->
  Pynput.move_speed p = Tkinter.move_speed t ->
  Pynput.vertical_speed p = Tkinter.vertical_speed t ->
  Pynput.yaw_rate p = Tkinter.yaw_rate t ->
  (forall k, In k ["w"; "s"; "a"; "d"; "q"; "e"] ->
             Pynput.pressed k p = Tkinter.key_held k t) ->
  Pynput.pressed "left" p = Tkinter.key_held "Left" t ->
  Pynput.pressed "right" p = Tkinter.key_held "Right" t ->
  Pynput.velocity (Pynput.process_manual_keys radians p)
  = Tkinter.velocity (Tkinter.process_manual_control radians t).
Proof.
  intros Hp Ht Hm Hv Hy Hk Hl Hr.
  rewrite (pynput_both_held radians p Hp), (tkinter_both_held radians t Ht).
  rewrite Hm, Hv, Hy, Hl, Hr.
  rewrite !Hk by (simpl; tauto). reflexivity.
Qed.

(** Forward and yaw-right held in both scripts, standard profile. *)
Lemma manual_recompute_agrees_witness :
  Pynput.velocity
    (Pynput.process_manual_keys np_radians
       (Pynput.on_press np_radians "right"
          (Pynput.on_press np_radians "w" (Pynput.ready true))))
  = Tkinter.velocity
      (Tkinter.process_manual_control np_radians
         (TkinterInput.key_press np_radians "Right"
            (TkinterInput.key_press np_radians "w" (TkinterInput.ready true)))).
Proof.
  apply manual_recompute_agrees; try (vm_compute; reflexivity).
  intros k Hin. simpl in Hin.
  repeat (destruct Hin as [ <- | Hin ]; [ vm_compute; reflexivity | ]).
  contradiction.
Defined.

(** ** The session of the simulation script *)

Lemma controller_update_speeds_command (degrees : Q -> Q)
    (c : ManualDroneController.State) :
  let c' := ManualDroneController.update_speeds degrees c in
  ManualDroneController.flight_mode c' = ManualDroneController.flight_mode c /\
  ManualDroneController.vx c' = ManualDroneController.vx c /\
  ManualDroneController.vy c' = ManualDroneController.vy c /\
  ManualDroneController.vz c' = ManualDroneController.vz c /\
  ManualDroneController.yaw_rate_cmd c' = ManualDroneController.yaw_rate_cmd c.
Proof.
  unfold ManualDroneController.update_speeds.
  destruct (String.eqb _ "eco"); [ repeat split | ].
  destruct (String.eqb _ "performance"); repeat split.
Qed.

(** X18. [set_flight_mode] of the simulation script keeps session and
    manual controller in step.  A known name (eco, standard, performance)
    is stored, the ground speed of the session becomes that of its table,
    no call is made on the link, and a manual controller, when there is
    one, is given the same name and the same three rates as the session
    while its pending command is kept. *)
Theorem simulation_set_flight_mode_syncs_controller (degrees : Q -> Q)
    (mode : string) (s : SimulationSession.State) :
   SimulationSession.known_mode mode = true ->
   let s' := SimulationSession.set_flight_mode degrees mode s in
   SimulationSession.flight_mode s' = mode /\
   SimulationSession.vehicle s' = SimulationSession.vehicle s /\
   SimulationSession.move_speed s'
   = (if String.eqb mode "eco" then SimulationParams.ECO_GND_SPEED
      else if String.eqb mode "performance"
           then SimulationParams.PERF_GND_SPEED
           else SimulationParams.STD_GND_SPEED) /\
   (SimulationSession.manual_control s = None ->
    SimulationSession.manual_control s' = None) /\
   (forall c, SimulationSession.manual_control s = Some c ->
      exists c',
        SimulationSession.manual_control s' = Some c' /\
        ManualDroneController.flight_mode c' = mode /\
        ManualDroneController.move_speed c' = SimulationSession.move_speed s' /\
        ManualDroneController.vertical_speed c'
        = SimulationSession.vertical_speed s' /\
        ManualDroneController.yaw_rate c' = SimulationSession.yaw_rate s' /\
        ManualDroneController.vx c' = ManualDroneController.vx c /\
        ManualDroneController.vy c' = ManualDroneController.vy c /\
        ManualDroneController.vz c' = ManualDroneController.vz c /\
        ManualDroneController.yaw_rate_cmd c'
        = ManualDroneController.yaw_rate_cmd c).
Proof.
  unfold SimulationSession.set_flight_mode.
  - intros ->. simpl.
    unfold SimulationSession.update_speeds_for_mode. simpl.
    set (sp := if String.eqb mode "eco" then _ else _).
    assert (Hsp : SimulationSession.flight_mode sp = mode
                  /\ (SimulationSession.vehicle sp = SimulationSession.vehicle s
                      /\ SimulationSession.move_speed sp
                         = (if String.eqb mode "eco"
                            then SimulationParams.ECO_GND_SPEED
                            else if String.eqb mode "performance"
                                 then SimulationParams.PERF_GND_SPEED
                                 else SimulationParams.STD_GND_SPEED))
                  /\ SimulationSession.manual_control sp
                     = SimulationSession.manual_control s).
    { unfold sp. destruct (String.eqb mode "eco");
        [ | destruct (String.eqb mode "performance") ]; repeat split. }
    destruct Hsp as (Hm & Hv & Hc).
    assert (Hrates :
              ManualDroneController.move_speed
                (ManualDroneController.update_speeds degrees
                   (ManualDroneController.mkState mode 0 0 0 0 0 0 0))
              = SimulationSession.move_speed sp
              /\ ManualDroneController.vertical_speed
                   (ManualDroneController.update_speeds degrees
                      (ManualDroneController.mkState mode 0 0 0 0 0 0 0))
                 = SimulationSession.vertical_speed sp
              /\ ManualDroneController.yaw_rate
                   (ManualDroneController.update_speeds degrees
                      (ManualDroneController.mkState mode 0 0 0 0 0 0 0))
                 = SimulationSession.yaw_rate sp).
    { unfold sp, ManualDroneController.update_speeds. simpl.
      destruct (String.eqb mode "eco");
        [ | destruct (String.eqb mode "performance") ]; repeat split. }
    clearbody sp.
    destruct (SimulationSession.manual_control sp) as [ c | ] eqn:Hcs;
      simpl; rewrite <- Hc.
    + split; [ exact Hm | ]. split; [ exact (proj1 Hv) | ].
      split; [ exact (proj2 Hv) | ].
      split; [ discriminate | ].
      intros c0 [= <-]. eexists. split; [ reflexivity | ].
      unfold ManualDroneController.set_flight_mode.
      destruct Hrates as (R1 & R2 & R3). rewrite Hm.
      unfold ManualDroneController.update_speeds in *.
      unfold SimulationSession.move_speed,
        SimulationSession.vertical_speed in *.
      simpl in *.
      destruct (String.eqb mode "eco");
        [ | destruct (String.eqb mode "performance") ];
        simpl in *; rewrite <- R1, <- R2, <- R3; repeat split.
    + split; [ exact Hm | ]. split; [ exact (proj1 Hv) | ].
      split; [ exact (proj2 Hv) | ].
      split; [ intros _; exact Hcs | ]. intros c0; discriminate.
Qed.

(** Performance selected on the connected session: 6.0 m/s for session
    and controller. *)
Lemma simulation_set_flight_mode_syncs_controller_witness :
  SimulationSession.move_speed
    (SimulationSession.set_flight_mode np_degrees "performance"
       (SimulationSession.ready np_degrees true)) = (6 # 1)%Q.
Proof.
  exact (proj1 (proj2 (proj2
           (simulation_set_flight_mode_syncs_controller np_degrees
              "performance" (SimulationSession.ready np_degrees true)
              eq_refl)))).
Defined.

Lemma steer_single_axis (radians : Q -> Q) (key : Z)
    (s : SimulationSession.State) (c : ManualDroneController.State) :
  let c' := SimulationSession.steer radians key s
              (ManualDroneController.stop_all c) in
  (ManualDroneController.vy c' = 0%Q /\ ManualDroneController.vz c' = 0%Q
   /\ ManualDroneController.yaw_rate_cmd c' = 0%Q) \/
  (ManualDroneController.vx c' = 0%Q /\ ManualDroneController.vz c' = 0%Q
   /\ ManualDroneController.yaw_rate_cmd c' = 0%Q) \/
  (ManualDroneController.vx c' = 0%Q /\ ManualDroneController.vy c' = 0%Q
   /\ ManualDroneController.yaw_rate_cmd c' = 0%Q) \/
  (ManualDroneController.vx c' = 0%Q /\ ManualDroneController.vy c' = 0%Q
   /\ ManualDroneController.vz c' = 0%Q).
Proof.
  unfold SimulationSession.steer.
  repeat match goal with
    | |- context [?a =? ?b] => destruct (a =? b)
    end; simpl; tauto.
Qed.

(** X19. [handle_manual_control] steers one axis at a time.  It first
    clears the pending command of the controller, so after the call at
    most one of vx, vy, vz and the yaw rate is set, whatever was pending
    and whatever the key.  In MANUAL mode on an armed vehicle exactly that
    command is transmitted; in AUTONOMOUS mode, or disarmed, nothing is
    transmitted. *)
Theorem simulation_manual_single_axis (radians : Q -> Q) (key : Z)
    (s : SimulationSession.State) (c : ManualDroneController.State)
    (v : Vehicle) :
  SimulationSession.manual_control s = Some c ->
  SimulationSession.vehicle s = Some v ->
  let s' := SimulationSession.handle_manual_control radians key s in
  exists c',
    SimulationSession.manual_control s' = Some c' /\
    ((ManualDroneController.vy c' = 0%Q /\ ManualDroneController.vz c' = 0%Q
      /\ ManualDroneController.yaw_rate_cmd c' = 0%Q) \/
     (ManualDroneController.vx c' = 0%Q /\ ManualDroneController.vz c' = 0%Q
      /\ ManualDroneController.yaw_rate_cmd c' = 0%Q) \/
     (ManualDroneController.vx c' = 0%Q /\ ManualDroneController.vy c' = 0%Q
      /\ ManualDroneController.yaw_rate_cmd c' = 0%Q) \/
     (ManualDroneController.vx c' = 0%Q /\ ManualDroneController.vy c' = 0%Q
      /\ ManualDroneController.vz c' = 0%Q)) /\
    SimulationSession.sent s'
    = (if negb (SimulationSession.autonomous_enabled s) && armed v
       then SimulationSession.sent s
            ++ [ (ManualDroneController.vx c', ManualDroneController.vy c',
                  ManualDroneController.vz c',
                  ManualDroneController.yaw_rate_cmd c') ]
       else SimulationSession.sent s).
Proof.
  intros Hc Hv s'. subst s'.
  unfold SimulationSession.handle_manual_control. rewrite Hc, Hv.
  exists (SimulationSession.steer radians key s
            (ManualDroneController.stop_all c)).
  split.
  { simpl. destruct (negb (SimulationSession.autonomous_enabled s));
      reflexivity. }
  split; [ apply steer_single_axis | ].
  unfold SimulationSession.sent. rewrite Hv. simpl.
  destruct (SimulationSession.autonomous_enabled s); simpl.
  - destruct (String.eqb (mode v) "GUIDED"); simpl;
      rewrite ?transmitted_app; simpl; rewrite ?app_nil_r; reflexivity.
  - destruct (String.eqb (mode v) "GUIDED"), (armed v) eqn:Ha; simpl;
      rewrite ?Ha; simpl; rewrite ?transmitted_app; simpl;
      rewrite ?transmitted_app; simpl; rewrite ?app_nil_r; reflexivity.
Qed.

(** The session on an armed vehicle: after the key [w], the key [d]
    commands the right at 5 m/s and nothing else. *)
Lemma simulation_manual_single_axis_witness :
  SimulationSession.sent
    (SimulationSession.handle_manual_control np_radians 100
       (SimulationSession.handle_manual_control np_radians 119
          (SimulationSession.ready np_degrees true)))
  = [ (5 # 1, 0, 0, 0)%Q; (0, 5 # 1, 0, 0)%Q ].
Proof.
  destruct (SimulationSession.manual_control
              (SimulationSession.handle_manual_control np_radians 119
                 (SimulationSession.ready np_degrees true)))
    as [ c | ] eqn:Hc; [ | vm_compute in Hc; discriminate ].
  destruct (SimulationSession.vehicle
              (SimulationSession.handle_manual_control np_radians 119
                 (SimulationSession.ready np_degrees true)))
    as [ v | ] eqn:Hv; [ | vm_compute in Hv; discriminate ].
  destruct (simulation_manual_single_axis np_radians 100 _ c v Hc Hv)
    as (c' & Hc' & _ & Hs).
  rewrite Hs. clear Hs.
  vm_compute in Hc'. injection Hc' as <-.
  vm_compute in Hv. injection Hv as <-.
  vm_compute. reflexivity.
Defined.

(** ** Key events while disarmed *)

Lemma tkinter_release_velocity (k : string) (s : Tkinter.State) :
  Tkinter.velocity (TkinterInput.key_release k s)
  = if negb (Tkinter.autonomous_enabled s)
       && TkinterInput.is_movement_key k
       && negb (TkinterInput.other_movement_key_held k s)
    then (0, 0, 0, 0)%Q
    else Tkinter.velocity s.
Proof.
  unfold TkinterInput.key_release.
  destruct (release_bookkeeping_mode k s) as [Hm Hv].
  set (s0 := match Tkinter.keyboard_state s !! k with
             | Some _ => _ | None => s end) in *.
  assert (Hany : TkinterInput.any_movement_key_held s0
                 = TkinterInput.other_movement_key_held k s).
  { unfold TkinterInput.any_movement_key_held,
      TkinterInput.other_movement_key_held.
    induction TkinterInput.movement_keys as [ | m l IH ]; [ reflexivity | ].
    simpl. rewrite IH. unfold s0. rewrite key_held_after_release.
    destruct (String.eqb k m); reflexivity. }
  clearbody s0. rewrite Hm, Hany.
  destruct (negb (Tkinter.autonomous_enabled s)),
    (TkinterInput.is_movement_key k),
    (negb (TkinterInput.other_movement_key_held k s)); simpl;
    first [ exact Hv | reflexivity ].
Qed.

Lemma tkinter_update_speeds_keeps (s : Tkinter.State) :
  Tkinter.velocity (Tkinter.update_speeds s) = Tkinter.velocity s /\
  Tkinter.vehicle_armed (Tkinter.update_speeds s) = Tkinter.vehicle_armed s /\
  Tkinter.autonomous_enabled (Tkinter.update_speeds s)
  = Tkinter.autonomous_enabled s.
Proof.
  unfold Tkinter.update_speeds.
  destruct (String.eqb _ "eco"); [ repeat split | ].
  destruct (String.eqb _ "performance"); repeat split.
Qed.

Lemma tkinter_press_disarmed (radians : Q -> Q) (k : string)
    (s : Tkinter.State) :
  Tkinter.vehicle_armed s = false ->
  Tkinter.velocity (TkinterInput.key_press radians k s)
  = if String.eqb k "space" && Tkinter.autonomous_enabled s
    then (0, 0, 0, 0)%Q
    else Tkinter.velocity s.
Proof.
  intros Ha. unfold TkinterInput.key_press.
  set (s0 := Tkinter.with_keyboard_state _ s).
  assert (Ha0 : Tkinter.vehicle_armed s0 = false) by exact Ha.
  assert (Hv0 : Tkinter.velocity s0 = Tkinter.velocity s) by reflexivity.
  assert (Hm0 : Tkinter.autonomous_enabled s0 = Tkinter.autonomous_enabled s)
    by reflexivity.
  clearbody s0. rewrite <- Hv0, <- Hm0. clear Hv0 Hm0 Ha s.
  match goal with
  | |- Tkinter.velocity (if negb (Tkinter.autonomous_enabled ?x) then _ else _)
       = _ => set (s1 := x)
  end.
  assert (H1 : Tkinter.vehicle_armed s1 = false
               /\ Tkinter.velocity s1
                  = if String.eqb k "space" && Tkinter.autonomous_enabled s0
                    then (0, 0, 0, 0)%Q else Tkinter.velocity s0).
  { unfold s1. destruct (String.eqb k "space").
    { simpl. destruct (Tkinter.autonomous_enabled s0); simpl;
        split; first [ exact Ha0 | reflexivity ]. }
    simpl.
    destruct (String.eqb k "1").
    { destruct (tkinter_update_speeds_keeps
                  (Tkinter.with_flight_mode "eco" s0)) as (-> & -> & _).
      split; [ exact Ha0 | reflexivity ]. }
    destruct (String.eqb k "2").
    { destruct (tkinter_update_speeds_keeps
                  (Tkinter.with_flight_mode "standard" s0)) as (-> & -> & _).
      split; [ exact Ha0 | reflexivity ]. }
    destruct (String.eqb k "3").
    { destruct (tkinter_update_speeds_keeps
                  (Tkinter.with_flight_mode "performance" s0))
        as (-> & -> & _).
      split; [ exact Ha0 | reflexivity ]. }
    unfold Tkinter.vehicle_armed in Ha0.
    destruct (Tkinter.vehicle s0) as [ v | ] eqn:Hv.
    - destruct (String.eqb k "t").
      { rewrite Ha0. split; [ | reflexivity ].
        unfold Tkinter.vehicle_armed. now rewrite Hv. }
      destruct (String.eqb k "l").
      { split; [ exact Ha0 | reflexivity ]. }
      destruct (String.eqb k "r").
      { split; [ exact Ha0 | reflexivity ]. }
      split; [ | reflexivity ].
      unfold Tkinter.vehicle_armed. now rewrite Hv.
    - destruct (String.eqb k "t"), (String.eqb k "l"), (String.eqb k "r");
        (split; [ | reflexivity ]);
        unfold Tkinter.vehicle_armed; now rewrite Hv. }
  destruct H1 as [Harm Hvel]. clearbody s1.
  destruct (negb _); [ | exact Hvel ].
  rewrite tkinter_manual_control_disarmed by exact Harm. exact Hvel.
Qed.

Lemma pynput_press_disarmed_velocity (radians : Q -> Q) (k : string)
    (s : Pynput.State) :
  Pynput.vehicle_armed s = false ->
  Pynput.velocity (Pynput.on_press radians k s)
  = if String.eqb k "space" then
      if Pynput.autonomous_enabled s then (0, 0, 0, 0)%Q
      else Pynput.velocity s
    else if String.eqb k "esc" then
      match Pynput.vehicle s with
      | Some _ => (0, 0, 0, 0)%Q
      | None => Pynput.velocity s
      end
    else Pynput.velocity s.
Proof.
  intros Ha.
  destruct (String.eqb_spec k "space") as [ -> | Hspace ].
  { unfold Pynput.on_press. simpl.
    destruct (Pynput.autonomous_enabled s); reflexivity. }
  destruct (String.eqb_spec k "esc") as [ -> | Hesc ].
  { unfold Pynput.on_press. simpl.
    apply (cleanup_velocity
             (Pynput.with_keys_pressed ({[ "esc" ]} ∪ Pynput.keys_pressed s) s)). }
  now apply pynput_on_press_disarmed.
Qed.

(** C10, a release and a toggle that change the command while disarmed.
    In the tkinter script forward is pressed on the armed vehicle
    (command (3, 0, 0, 0)), the vehicle then reports disarmed, and the
    release of the key zeroes the command.  In the pynput script the same
    command is published, AUTONOMOUS is entered, the vehicle reports
    disarmed, and the toggle back to MANUAL zeroes the command. *)
Lemma disarmed_key_event_counterexample :
  let t := TkinterInput.report_armed false
             (TkinterInput.key_press np_radians "w"
                (TkinterInput.ready true)) in
  let p := Pynput.run np_radians
             [ Pynput.KeyDown "w"; Pynput.KeyDown "space"; Pynput.Armed false ]
             (Pynput.ready true) in
  (Tkinter.vehicle_armed t = false /\
   Tkinter.velocity t = (3 # 1, 0, 0, 0)%Q /\
   Tkinter.velocity (TkinterInput.key_release "w" t) = (0, 0, 0, 0)%Q /\
   Tkinter.velocity (TkinterInput.key_release "w" t) <> Tkinter.velocity t) /\
  (Pynput.vehicle_armed p = false /\
   Pynput.velocity p = (3 # 1, 0, 0, 0)%Q /\
   Pynput.velocity (Pynput.on_press np_radians "space" p) = (0, 0, 0, 0)%Q /\
   Pynput.velocity (Pynput.on_press np_radians "space" p) <> Pynput.velocity p).
Proof.
  vm_compute. repeat split; discriminate.
Qed.

(** C10 (amended). While the vehicle is absent or reports not armed,
    manual key processing returns at its guard and leaves the object
    unchanged, so no key event publishes a vector computed from the keys.
    In the pynput script every key release, and every key press other
    than the mode toggle and the exit key, leaves the four fields
    unchanged; the toggle sets them to zero when it enters MANUAL and the
    exit key sets them to zero when a vehicle is connected.  In the
    tkinter script every key press leaves them unchanged except the
    toggle that enters MANUAL, which sets them to zero; a key release
    sets them to zero when it releases a movement key in MANUAL mode and no
    other movement key is held, armed or not, and leaves them unchanged
    otherwise. *)
Theorem disarmed_keys_publish_nothing (radians : Q -> Q) :
  (forall s, Pynput.vehicle_armed s = false ->
     Pynput.process_manual_keys radians s = s) /\
  (forall s, Tkinter.vehicle_armed s = false ->
     Tkinter.process_manual_control radians s = s) /\
  (forall k s, Pynput.vehicle_armed s = false ->
     Pynput.velocity (Pynput.on_release radians k s) = Pynput.velocity s /\
     Pynput.velocity (Pynput.on_press radians k s)
     = (if String.eqb k "space" then
          if Pynput.autonomous_enabled s then (0, 0, 0, 0)%Q
          else Pynput.velocity s
        else if String.eqb k "esc" then
          match Pynput.vehicle s with
          | Some _ => (0, 0, 0, 0)%Q
          | None => Pynput.velocity s
          end
        else Pynput.velocity s)) /\
  (forall k s, Tkinter.vehicle_armed s = false ->
     Tkinter.velocity (TkinterInput.key_press radians k s)
     = (if String.eqb k "space" && Tkinter.autonomous_enabled s
        then (0, 0, 0, 0)%Q
        else Tkinter.velocity s) /\
     Tkinter.velocity (TkinterInput.key_release k s)
     = (if negb (Tkinter.autonomous_enabled s)
           && TkinterInput.is_movement_key k
           && negb (TkinterInput.other_movement_key_held k s)
        then (0, 0, 0, 0)%Q
        else Tkinter.velocity s)).
Proof.
  split; [ exact (pynput_manual_keys_disarmed radians) | ].
  split; [ exact (tkinter_manual_control_disarmed radians) | ].
  split.
  - intros k s Ha. split.
    + now apply pynput_on_release_disarmed.
    + now apply pynput_press_disarmed_velocity.
  - intros k s Ha. split.
    + now apply tkinter_press_disarmed.
    + apply tkinter_release_velocity.
Qed.

(** The forward key pressed and released on a disarmed vehicle in both
    scripts: the command stays at rest. *)
Lemma disarmed_keys_publish_nothing_witness :
  Pynput.velocity (Pynput.on_press np_radians "w" (Pynput.ready false))
  = (0, 0, 0, 0)%Q /\
  Tkinter.velocity
    (TkinterInput.key_press np_radians "w" (TkinterInput.ready false))
  = (0, 0, 0, 0)%Q /\
  Tkinter.velocity
    (TkinterInput.key_release "w"
       (TkinterInput.key_press np_radians "w" (TkinterInput.ready false)))
  = (0, 0, 0, 0)%Q.
Proof.
  destruct (disarmed_keys_publish_nothing np_radians) as (_ & _ & Hp & Ht).
  split; [ | split ].
  - exact (proj2 (Hp "w" (Pynput.ready false) eq_refl)).
  - exact (proj1 (Ht "w" (TkinterInput.ready false) eq_refl)).
  - rewrite (proj2 (Ht "w"
                      (TkinterInput.key_press np_radians "w"
                         (TkinterInput.ready false))
                      ltac:(vm_compute; reflexivity))).
    vm_compute. reflexivity.
Defined.

(** ** Unknown profile names *)








(** ** Tracking and teardown in the simulation script *)

Lemma simulation_send_sent (vx vy vz yaw : Q) (s : SimulationSession.State) :
  SimulationSession.sent (SimulationSession.send_velocity_command vx vy vz yaw s)
  = (if SimulationSession.vehicle_armed s
     then SimulationSession.sent s ++ [ (vx, vy, vz, yaw) ]
     else SimulationSession.sent s) /\
  SimulationSession.manual_control
    (SimulationSession.send_velocity_command vx vy vz yaw s)
  = SimulationSession.manual_control s /\
  SimulationSession.last_command_time
    (SimulationSession.send_velocity_command vx vy vz yaw s)
  = SimulationSession.last_command_time s /\
  (SimulationSession.vehicle_armed s = false ->
   SimulationSession.send_velocity_command vx vy vz yaw s = s).
Proof.
  unfold SimulationSession.send_velocity_command, SimulationSession.sent,
    SimulationSession.vehicle_armed.
  destruct (SimulationSession.vehicle s) as [ v | ] eqn:Hv.
  - destruct (armed v) eqn:Ha; simpl; rewrite ?Hv.
    + rewrite transmitted_app. repeat split. discriminate.
    + repeat split.
  - rewrite Hv. repeat split.
Qed.

Lemma simulation_stop_sent (s : SimulationSession.State) :
  SimulationSession.sent (SimulationSession.stop_movement s)
  = (if SimulationSession.vehicle_armed s
     then SimulationSession.sent s ++ [ (0, 0, 0, 0)%Q ]
     else SimulationSession.sent s) /\
  SimulationSession.last_command_time (SimulationSession.stop_movement s)
  = SimulationSession.last_command_time s /\
  SimulationSession.manual_control (SimulationSession.stop_movement s)
  = option_map ManualDroneController.stop_all
      (SimulationSession.manual_control s).
Proof.
  unfold SimulationSession.stop_movement.
  destruct (simulation_send_sent 0 0 0 0 s) as (Hs & Hc & Ht & _).
  set (s1 := SimulationSession.send_velocity_command 0 0 0 0 s) in *.
  clearbody s1. rewrite <- Hs, <- Ht, <- Hc.
  destruct (SimulationSession.manual_control s1) as [ c | ] eqn:Hc1;
    simpl; rewrite ?Hc1; repeat split.
Qed.

(** X20. Tracking is rate limited and gated.  Without a cascade
    [detect_and_track] raises.  With one it returns, having transmitted
    at most one command; in MANUAL mode it touches neither the link nor
    the manual controller; on an absent or disarmed vehicle it transmits
    nothing; and in a frame with a face that arrives within
    [command_interval] of the last command it transmits nothing and
    leaves the time of the last command as it was. *)
Theorem simulation_tracking_rate_limited (faces : list Rect)
    (t_check t_stamp : Q) (s : SimulationSession.State) :
  (SimulationSession.face_cascade s = false ->
   SimulationSession.detect_and_track faces t_check t_stamp s = None) /\
  (SimulationSession.face_cascade s = true ->
   exists s',
     SimulationSession.detect_and_track faces t_check t_stamp s = Some s' /\
     (length (SimulationSession.sent s')
      <= S (length (SimulationSession.sent s)))%nat /\
     (SimulationSession.autonomous_enabled s = false ->
      SimulationSession.vehicle s' = SimulationSession.vehicle s /\
      SimulationSession.manual_control s'
      = SimulationSession.manual_control s) /\
     (SimulationSession.vehicle_armed s = false ->
      SimulationSession.sent s' = SimulationSession.sent s) /\
     (faces <> [] ->
      (t_check - SimulationSession.last_command_time s
       <= SimulationSession.command_interval s)%Q ->
      SimulationSession.vehicle s' = SimulationSession.vehicle s /\
      SimulationSession.last_command_time s'
      = SimulationSession.last_command_time s)).
Proof.
  unfold SimulationSession.detect_and_track. split; intros ->; simpl;
    [ reflexivity | ].
  assert (Hlen : forall (l : list (Q * Q * Q * Q)) x b,
             (length (if b : bool then l ++ [x] else l) <= S (length l))%nat).
  { intros l x [ | ]; [ rewrite length_app; simpl; lia | lia ]. }
  destruct faces as [ | f rest ].
  - destruct (SimulationSession.autonomous_enabled s) eqn:Hauto; simpl;
      rewrite ?Hauto.
    + eexists. split; [ reflexivity | ].
      set (s0 := SimulationSession.with_face false _ _ s).
      destruct (simulation_stop_sent s0) as (Hs & _ & _).
      rewrite Hs.
      change (SimulationSession.vehicle_armed s0)
        with (SimulationSession.vehicle_armed s).
      change (SimulationSession.sent s0) with (SimulationSession.sent s).
      split; [ apply Hlen | ].
      split; [ discriminate | ].
      split; [ intros ->; reflexivity | ].
      intros Hne. contradiction.
    + eexists. split; [ reflexivity | ].
      split; [ unfold SimulationSession.sent; simpl; lia | ].
      split; [ intros _; split; reflexivity | ].
      split; [ reflexivity | ].
      intros Hne. contradiction.
  - destruct (Pynput.largest_from f rest) as [[[x y] w] h]. simpl.
    set (zone := get_face_zone _ _ _).
    destruct (SimulationSession.autonomous_enabled s) eqn:Hauto; simpl.
    + destruct (Qle_bool _ _) eqn:Hle; simpl.
      * eexists. split; [ reflexivity | ].
        split; [ unfold SimulationSession.sent; simpl; lia | ].
        split; [ discriminate | ].
        split; [ reflexivity | ].
        intros _ _. split; reflexivity.
      * eexists. split; [ reflexivity | ].
        assert (Hnle : ~ (t_check - SimulationSession.last_command_time s
                          <= SimulationSession.command_interval s)%Q).
        { intros H. apply Qle_bool_iff in H. congruence. }
        set (s0 := SimulationSession.with_face true zone _ s).
        destruct (GridZone_eqb zone CENTER); simpl.
        -- destruct (simulation_stop_sent s0) as (Hs & _ & _).
           change (SimulationSession.sent
                     (SimulationSession.with_last_command_time t_stamp
                        (SimulationSession.stop_movement s0)))
             with (SimulationSession.sent (SimulationSession.stop_movement s0)).
           rewrite Hs.
           change (SimulationSession.vehicle_armed s0)
             with (SimulationSession.vehicle_armed s).
           change (SimulationSession.sent s0) with (SimulationSession.sent s).
           split; [ apply Hlen | ].
           split; [ discriminate | ].
           split; [ intros ->; reflexivity | ].
           intros _ H. contradiction.
        -- match goal with
           | |- context [SimulationSession.send_velocity_command
                           ?a ?b ?c ?d s0] =>
               destruct (simulation_send_sent a b c d s0) as (Hs & _ & _ & _);
               set (s1 := SimulationSession.send_velocity_command a b c d s0)
                 in *
           end.
           change (SimulationSession.sent
                     (SimulationSession.with_last_command_time t_stamp s1))
             with (SimulationSession.sent s1).
           rewrite Hs.
           change (SimulationSession.vehicle_armed s0)
             with (SimulationSession.vehicle_armed s).
           change (SimulationSession.sent s0) with (SimulationSession.sent s).
           split; [ apply Hlen | ].
           split; [ discriminate | ].
           split; [ intros ->; reflexivity | ].
           intros _ H. contradiction.
    + eexists. split; [ reflexivity | ].
      split; [ unfold SimulationSession.sent; simpl; lia | ].
      split; [ intros _; split; reflexivity | ].
      split; [ reflexivity | ].
      intros _ _. split; reflexivity.
Qed.

(** AUTONOMOUS mode on the armed vehicle, a face in the top right corner
    0.05 s after the last command: nothing is sent. *)
Lemma simulation_tracking_rate_limited_witness :
  exists s',
    SimulationSession.detect_and_track [ (570, 10, 60, 60) ] (1 # 20) (1 # 20)
      (SimulationSession.with_autonomous_enabled true
         (SimulationSession.ready np_degrees true)) = Some s' /\
    SimulationSession.vehicle s'
    = SimulationSession.vehicle (SimulationSession.ready np_degrees true).
Proof.
  destruct (proj2 (simulation_tracking_rate_limited [ (570, 10, 60, 60) ]
                     (1 # 20) (1 # 20)
                     (SimulationSession.with_autonomous_enabled true
                        (SimulationSession.ready np_degrees true)))
              eq_refl)
    as (s' & Hs' & _ & _ & _ & Hrate).
  exists s'. split; [ exact Hs' | ].
  apply Hrate; [ discriminate | ].
  vm_compute. discriminate.
Defined.

Lemma simulation_send_face_zone (vx vy vz yaw : Q)
    (s : SimulationSession.State) :
  SimulationSession.face_zone
    (SimulationSession.send_velocity_command vx vy vz yaw s)
  = SimulationSession.face_zone s /\
  SimulationSession.face_zone (SimulationSession.stop_movement s)
  = SimulationSession.face_zone s.
Proof.
  unfold SimulationSession.stop_movement,
    SimulationSession.send_velocity_command.
  destruct (SimulationSession.vehicle s) as [ v | ];
    [ destruct (armed v) | ]; simpl;
    destruct (SimulationSession.manual_control s); split; reflexivity.
Qed.

(** X21. Tracking transmits the command of the zone.  In AUTONOMOUS mode
    on an armed vehicle, with the frame of 640 by 480 and the dead zones
    of 80 and 60 pixels, a frame with at least one face that arrives more
    than [command_interval] after the last command transmits exactly one
    command: (0, -ground_speed or +ground_speed by column, -vertical_speed
    or +vertical_speed by row, 0) for the zone of the center of the
    largest face, which is (0, 0, 0, 0) in CENTER; and the time of the
    last command becomes the second clock reading. *)
Theorem simulation_tracking_command (f : Rect) (rest : list Rect)
    (t_check t_stamp ms vs : Q) (s : SimulationSession.State) (v : Vehicle) :
  SimulationSession.face_cascade s = true ->
  SimulationSession.autonomous_enabled s = true ->
  SimulationSession.vehicle s = Some v -> armed v = true ->
  SimulationSession.mapper s = Simulation.init ms vs ->
  ~ (t_check - SimulationSession.last_command_time s
     <= SimulationSession.command_interval s)%Q ->
  let '(x, y) := face_center_of (Pynput.largest_from f rest) in
  let zone := get_face_zone (setup_grid_zones 640 480) x y in
  exists s',
    SimulationSession.detect_and_track (f :: rest) t_check t_stamp s = Some s' /\
    SimulationSession.last_command_time s' = t_stamp /\
    SimulationSession.face_zone s' = zone /\
    SimulationSession.sent s'
    = SimulationSession.sent s
      ++ [ (0%Q,
            (if zone_in zone LEFT_COLUMN then (- ms)%Q
             else if zone_in zone RIGHT_COLUMN then ms else 0%Q),
            (if zone_in zone TOP_ROW then (- vs)%Q
             else if zone_in zone BOTTOM_ROW then vs else 0%Q),
            0%Q) ].
Proof.
  intros Hcas Hauto Hv Ha Hmap Hnle.
  assert (Hle : Qle_bool (t_check - SimulationSession.last_command_time s)
                  (SimulationSession.command_interval s) = false).
  { destruct (Qle_bool _ _) eqn:H; [ | reflexivity ].
    apply Qle_bool_iff in H. contradiction. }
  unfold SimulationSession.detect_and_track, face_center_of.
  rewrite Hcas.
  destruct (Pynput.largest_from f rest) as [[[x y] w] h].
  cbn [negb fst snd].
  rewrite Hmap.
  change (Simulation.zones (Simulation.init ms vs))
    with (setup_grid_zones 640 480).
  pose proof (gate_implied_by_zone ms vs (x + w / 2) (y + h / 2)) as Hgate.
  cbv zeta in Hgate |- *.
  set (cx := x + w / 2) in *. set (cy := y + h / 2) in *.
  set (zone := get_face_zone (setup_grid_zones 640 480) cx cy) in *.
  clearbody zone.
  set (s0 := SimulationSession.with_face true zone (cx, cy) s).
  assert (Harm : SimulationSession.vehicle_armed s0 = true).
  { unfold SimulationSession.vehicle_armed. subst s0. simpl.
    now rewrite Hv. }
  change (SimulationSession.autonomous_enabled s0)
    with (SimulationSession.autonomous_enabled s).
  change (SimulationSession.last_command_time s0)
    with (SimulationSession.last_command_time s).
  change (SimulationSession.command_interval s0)
    with (SimulationSession.command_interval s).
  change (SimulationSession.mapper s0) with (SimulationSession.mapper s).
  rewrite Hauto, Hle, Hmap, Hgate.
  cbn [negb andb].
  destruct (GridZone_eqb zone CENTER) eqn:Hz; cbn [negb].
  - eexists. split; [ reflexivity | ]. split; [ reflexivity | ].
    split;
      [ exact (proj2 (simulation_send_face_zone 0 0 0 0 s0)) | ].
    destruct (simulation_stop_sent s0) as (Hs & _ & _).
    change (SimulationSession.sent
              (SimulationSession.with_last_command_time t_stamp
                 (SimulationSession.stop_movement s0)))
      with (SimulationSession.sent (SimulationSession.stop_movement s0)).
    rewrite Hs, Harm.
    destruct zone; try discriminate. reflexivity.
  - eexists. split; [ reflexivity | ]. split; [ reflexivity | ].
    split; [ apply (simulation_send_face_zone _ _ _ _ s0) | ].
    match goal with
    | |- context [SimulationSession.send_velocity_command ?a ?b ?c ?d s0] =>
        destruct (simulation_send_sent a b c d s0) as (Hs & _ & _ & _);
        set (s1 := SimulationSession.send_velocity_command a b c d s0) in *
    end.
    change (SimulationSession.sent
              (SimulationSession.with_last_command_time t_stamp s1))
      with (SimulationSession.sent s1).
    rewrite Hs, Harm. reflexivity.
Qed.

(** AUTONOMOUS mode on the armed vehicle, performance profile, a face in
    the top right corner 0.2 s after the last command: the command
    (0, 6.0, -0.6, 0) is transmitted. *)
Lemma simulation_tracking_command_witness :
  exists s',
    SimulationSession.detect_and_track [ (570, 10, 60, 60) ] (1 # 5) (1 # 5)
      (SimulationSession.with_autonomous_enabled true
         (SimulationSession.set_flight_mode np_degrees "performance"
            (SimulationSession.ready np_degrees true))) = Some s' /\
    SimulationSession.face_zone s' = TOP_RIGHT /\
    SimulationSession.sent s' = [ (0, 6, - (6 # 10), 0)%Q ].
Proof.
  assert (Hstate : forall s, s = SimulationSession.with_autonomous_enabled true
             (SimulationSession.set_flight_mode np_degrees "performance"
                (SimulationSession.ready np_degrees true)) ->
           exists s',
             SimulationSession.detect_and_track [ (570, 10, 60, 60) ]
               (1 # 5) (1 # 5) s = Some s' /\
             SimulationSession.face_zone s' = TOP_RIGHT /\
             SimulationSession.sent s' = [ (0, 6, - (6 # 10), 0)%Q ]).
  { intros s Hs.
    assert (Hcas : SimulationSession.face_cascade s = true)
      by (rewrite Hs; vm_compute; reflexivity).
    assert (Hauto : SimulationSession.autonomous_enabled s = true)
      by (rewrite Hs; vm_compute; reflexivity).
    assert (Hv : SimulationSession.vehicle s
                 = Some (assign_mode "GUIDED"
                           {| armed := true; mode := "STABILIZE";
                              calls := [] |}))
      by (rewrite Hs; vm_compute; reflexivity).
    assert (Hmap : SimulationSession.mapper s
                   = Simulation.init SimulationParams.PERF_GND_SPEED
                       SimulationParams.PERF_VZ_SPEED)
      by (rewrite Hs; vm_compute; reflexivity).
    assert (Hnle : ~ ((1 # 5) - SimulationSession.last_command_time s
                      <= SimulationSession.command_interval s)%Q)
      by (rewrite Hs; vm_compute; intros H; apply H; reflexivity).
    pose proof (simulation_tracking_command (570, 10, 60, 60) [] (1 # 5)
                  (1 # 5) _ _ s _ Hcas Hauto Hv eq_refl Hmap Hnle) as H.
    destruct H as (s' & Hs' & _ & Hzone & Hsent).
    exists s'. split; [ exact Hs' | ]. split; [ exact Hzone | ].
    rewrite Hsent, Hs. reflexivity. }
  exact (Hstate _ eq_refl).
Defined.

(** X22. Teardown in the simulation script.  [cleanup] leaves AUTONOMOUS
    mode and stops the camera loop; on a connected vehicle it calls
    [stop_movement] and then closes the link, in this order, so that the
    calls added to the link are the zero command followed by [Close] when
    the vehicle is armed and [Close] alone when it is not: on an armed
    vehicle the last command transmitted is (0, 0, 0, 0).  The manual
    controller, when there is one, has its command zeroed. *)
Theorem simulation_cleanup_sends_zero (s : SimulationSession.State)
    (v : Vehicle) :
  SimulationSession.vehicle s = Some v ->
  exists v',
    SimulationSession.vehicle (SimulationSession.cleanup s) = Some v' /\
    calls v'
    = calls v
      ++ (if armed v then [ SetPositionTarget 0 0 0 0; Close ] else [ Close ]) /\
    (armed v = true ->
     last (SimulationSession.sent (SimulationSession.cleanup s))
     = Some (0, 0, 0, 0)%Q) /\
    SimulationSession.autonomous_enabled (SimulationSession.cleanup s) = false /\
    SimulationSession.camera_active (SimulationSession.cleanup s) = false /\
    SimulationSession.manual_control (SimulationSession.cleanup s)
    = option_map ManualDroneController.stop_all
        (SimulationSession.manual_control s).
Proof.
  intros Hv.
  destruct s as [ veh cp ca fc fd fz fcn fm yr ae mc lct ci mp ].
  simpl in Hv. subst veh.
  unfold SimulationSession.cleanup, SimulationSession.stop_movement,
    SimulationSession.send_velocity_command, SimulationSession.sent.
  simpl.
  destruct (armed v) eqn:Ha; simpl; destruct mc as [ c | ]; simpl;
    destruct cp as [ o | ]; simpl;
    eexists; (split; [ reflexivity | ]);
    simpl; rewrite <- ?List.app_assoc; simpl;
    (split; [ reflexivity | ]);
    (split; [ | repeat split ]);
    try discriminate; intros _;
    rewrite !transmitted_app; simpl; rewrite ?List.app_nil_r;
    apply last_snoc.
Qed.

(** The session in its main loop on an armed vehicle: the last command
    transmitted by [cleanup] is the zero command. *)
Lemma simulation_cleanup_sends_zero_witness :
  last (SimulationSession.sent
          (SimulationSession.cleanup (SimulationSession.ready np_degrees true)))
  = Some (0, 0, 0, 0)%Q.
Proof.
  assert (Hv : SimulationSession.vehicle (SimulationSession.ready np_degrees true)
               = Some (assign_mode "GUIDED"
                         {| armed := true; mode := "STABILIZE";
                            calls := [] |}))
    by (vm_compute; reflexivity).
  destruct (simulation_cleanup_sends_zero _ _ Hv) as (v' & _ & _ & Hlast & _).
  exact (Hlast eq_refl).
Defined.
